(** * The DHCP supplicant's control side: [src/dhcp/rest-api.c]

    A shallow embedding of the main loop [ni_dhcp_run], the request handlers
    [dhcp_device_get], [dhcp_interface_put] and [dhcp_interface_delete], the
    renderer [dhcp_device_xml], the notifier [ni_dhcp_send_device_event] and
    the seed initialiser [ni_srandom], followed by the properties the
    specification states about them.

    Conventions.
    - A C integer is a [Z]; a [uint32_t] is a [Z] reduced by [u32].
    - A [char *] holding text is a [string]; a null [char *] is [None].
    - A [ni_dhcp_device_t *] is the position of the record in the
      [ni_dhcp_active] list, a null pointer is [None].
    - Every call into a sibling subsystem (registry, lease state machine,
      socket layer, XML codec) is appended to the [calls] of the world; every
      log line is appended to its [syslog].  What such a call does to the
      record it is handed is a field of [externals]. *)

From Stdlib Require Import ZArith String Ascii List Lia Bool.
From stdpp Require Import base list.
Import ListNotations.
Local Open Scope string_scope.
Local Open Scope list_scope.
Local Open Scope Z_scope.

(** ** Machine integers *)

Definition u32 (z : Z) : Z := z mod 2 ^ 32.

(** ** The seed initialiser, [ni_srandom] *)

(** What the operating system answers during [ni_srandom]. *)
Record sys_env := {
  open_urandom : Z;   (* return value of open("/dev/urandom", O_RDONLY) *)
  read_count : Z;     (* return value of read(fd, &seed, 4) *)
  read_word : Z;      (* the word found in [seed] after that read *)
  tv_sec : Z;         (* gettimeofday: seconds *)
  tv_usec : Z;        (* gettimeofday: microseconds *)
  pid : Z             (* getpid() *)
}.

(** [seed] right before the test [if (seed == 0)]. *)
Definition entropy_seed (e : sys_env) : Z :=
  let seed := 0 in
  if 0 <=? open_urandom e then
    let seed := u32 (read_word e) in
    if read_count e <? 4 then 0 else seed
  else seed.

(** The body of [if (seed == 0) { ... }]: three assignments to a [uint32_t].
    [/] binds tighter than [^]; C division truncates, hence [Z.quot]. *)
Definition fallback_seed (e : sys_env) : Z :=
  let seed := u32 (Z.lxor (tv_usec e) (Z.quot (tv_usec e) 1024)) in
  let seed := u32 (Z.lxor seed (tv_sec e)) in
  let seed := u32 (Z.lxor seed (u32 (pid e))) in
  seed.

(** The argument [ni_srandom] hands to [srandom]. *)
Definition srandom_seed (e : sys_env) : Z :=
  let seed := entropy_seed e in
  if seed =? 0 then fallback_seed e else seed.

(** ** Data *)

(** Modelled from the spec: the lease-machine states of [dhcp.h], which is
    not among the sources.  The four enumerators [ni_dhcp_run] and
    [dhcp_interface_put] name are kept; any other enumerator of the header
    is [NI_DHCP_STATE_other]. *)
Inductive ni_dhcp_state_t :=
| NI_DHCP_STATE_REQUESTING
| NI_DHCP_STATE_RENEWING
| NI_DHCP_STATE_REBINDING
| NI_DHCP_STATE_BOUND
| NI_DHCP_STATE_other (code : Z).

(** Modelled from the spec: the lease kinds of [wicked/addrconf.h], which is
    not among the sources. *)
Inductive ni_addrconf_mode_t :=
| NI_ADDRCONF_DHCP
| NI_ADDRCONF_other (code : Z).

(** Modelled from the spec: the lease statuses of [wicked/addrconf.h] the
    renderer assigns; any other status is [NI_ADDRCONF_STATE_other]. *)
Inductive ni_addrconf_state_t :=
| NI_ADDRCONF_STATE_FAILED
| NI_ADDRCONF_STATE_RELEASED
| NI_ADDRCONF_STATE_other (code : Z).

(** [AF_INET] of [<sys/socket.h>], [IFF_UP] and [IFF_LOWER_UP] of
    [<net/if.h>] on Linux. *)
Definition AF_INET : Z := 2.
Definition IFF_UP : Z := 0x1.
Definition IFF_LOWER_UP : Z := 0x10000.

(** Modelled from the spec: [ni_addrconf_lease_t].  [type], [family] and
    [state] are the members the renderer assigns; the members owned by the
    codec (addresses, timers) are kept as an address list and the time of
    acquisition. *)
Record ni_addrconf_lease_t := {
  lease_type : ni_addrconf_mode_t;
  lease_family : Z;
  lease_state : ni_addrconf_state_t;
  lease_addrs : list Z;
  lease_time_acquired : Z
}.

(** Modelled from the spec: the desired DHCP configuration hanging off a
    device; only its presence is inspected here. *)
Inductive ni_dhcp_config_t := dhcp_config (words : list Z).

(** Modelled from the spec: [ni_dhcp_device_t], with the members this file
    reads or writes ([next] is the order of the [ni_dhcp_active] list). *)
Record ni_dhcp_device_t := {
  ifname : string;
  iftype : Z;
  state : ni_dhcp_state_t;
  lease : option ni_addrconf_lease_t;
  failed : bool;
  config : option ni_dhcp_config_t;
  notify : bool
}.

Definition set_notify (v : bool) (d : ni_dhcp_device_t) : ni_dhcp_device_t :=
  {| ifname := ifname d; iftype := iftype d; state := state d;
     lease := lease d; failed := failed d; config := config d; notify := v |}.

(** Modelled from the spec: [ni_interface_t], one interface description of
    a parsed configuration document ([name], [type], [flags]). *)
Record ni_interface_t := {
  ifp_name : string;
  ifp_type : Z;
  ifp_flags : Z
}.

(** Modelled from the spec: [ni_handle_t] as opened by [ni_dummy_open], the
    throwaway store the configuration document is parsed into. *)
Definition ni_handle_t := list ni_interface_t.

(** A device pointer: a position in [ni_dhcp_active], or null. *)
Definition dev_ptr := option nat.

(** One argument of a printf-like format. *)
Inductive fmt_arg := arg_s (s : string) | arg_d (z : Z).

Inductive log_level := lvl_debug | lvl_warn | lvl_error | lvl_fatal.

Record log_line := { log_lvl : log_level; log_fmt : string; log_args : list fmt_arg }.

(** Calls that leave this file. *)
Inductive call :=
| c_srandom (seed : Z)
| c_sigaction (sig : Z)
| c_socket_activate
| c_fsm_get_timeout
| c_socket_wait (timeout : Z)
| c_fsm_check_timeout
| c_fsm_release (dev : nat)
| c_device_get_changed
| c_device_stop (dev : dev_ptr)
| c_device_new (name : string) (type : Z)
| c_device_reconfigure (dev : nat) (ifp : ni_interface_t)
| c_device_start (dev : nat)
| c_dummy_open
| c_xml_to_all
| c_close
| c_xml_from_lease (l : ni_addrconf_lease_t)
| c_write (fd : Z) (buf : string)
| c_exit (status : Z).

(** The process-wide state: the active-device list, and what the process
    has asked of its surroundings so far. *)
Record world := {
  ni_dhcp_active : list ni_dhcp_device_t;
  calls : list call;
  syslog : list log_line
}.

Definition with_active (f : list ni_dhcp_device_t -> list ni_dhcp_device_t) (w : world) : world :=
  {| ni_dhcp_active := f (ni_dhcp_active w); calls := calls w; syslog := syslog w |}.

Definition with_call (c : call) (w : world) : world :=
  {| ni_dhcp_active := ni_dhcp_active w; calls := calls w ++ [c]; syslog := syslog w |}.

Definition with_calls (tr : list call) (w : world) : world :=
  {| ni_dhcp_active := ni_dhcp_active w; calls := tr; syslog := syslog w |}.

Definition with_log (l : log_line) (w : world) : world :=
  {| ni_dhcp_active := ni_dhcp_active w; calls := calls w; syslog := syslog w ++ [l] |}.

(** ** Running code in the world *)

(** A computation either returns, or dies on a null device pointer. *)
Inductive outcome (A : Type) :=
| Done (a : A) (w : world)
| Crash (w : world).
Arguments Done {A} a w.
Arguments Crash {A} w.

Definition dhcpM (A : Type) : Type := world -> outcome A.

Definition ret {A} (a : A) : dhcpM A := fun w => Done a w.

Definition bind {A B} (m : dhcpM A) (k : A -> dhcpM B) : dhcpM B :=
  fun w => match m w with
           | Done a w' => k a w'
           | Crash w' => Crash w'
           end.

Notation "'let*' x ':=' c1 'in' c2" := (bind c1 (fun x => c2))
  (at level 10, x pattern, c1 at level 100, c2 at level 200).
Notation "'run' c1 'then' c2" := (bind c1 (fun _ => c2))
  (at level 10, c1 at level 100, c2 at level 200).

Definition do_call (c : call) : dhcpM unit := fun w => Done tt (with_call c w).

Definition do_log (lvl : log_level) (fmt : string) (args : list fmt_arg) : dhcpM unit :=
  fun w => Done tt (with_log {| log_lvl := lvl; log_fmt := fmt; log_args := args |} w).

Definition ni_debug_dhcp := do_log lvl_debug.
Definition ni_warn := do_log lvl_warn.
Definition ni_error := do_log lvl_error.

(** [*dev]: reading through a device pointer. *)
Definition deref (dev : dev_ptr) : dhcpM ni_dhcp_device_t :=
  fun w => match dev with
           | Some p => match ni_dhcp_active w !! p with
                       | Some d => Done d w
                       | None => Crash w
                       end
           | None => Crash w
           end.

(** [dev->member = v]: writing through a device pointer. *)
Definition assign (dev : dev_ptr) (f : ni_dhcp_device_t -> ni_dhcp_device_t) : dhcpM unit :=
  let* _ := deref dev in
  match dev with
  | Some p => fun w => Done tt (with_active (alter f p) w)
  | None => ret tt
  end.

(** A call that hands a live device to a sibling subsystem, which may change
    that record. *)
Definition call_on (p : nat) (c : call) (f : ni_dhcp_device_t -> ni_dhcp_device_t) : dhcpM unit :=
  run do_call c then fun w => Done tt (with_active (alter f p) w).

Fixpoint for_each {A} (l : list A) (body : A -> dhcpM unit) : dhcpM unit :=
  match l with
  | [] => ret tt
  | x :: l' => run body x then for_each l' body
  end.

(** ** Text and the in-memory stream *)

Definition LF : string := String "010"%char EmptyString.

(** [fmemopen(buf, size, "w")] and the stream calls made on it.  Output
    that does not fit the buffer is dropped by the stream and the last byte
    of the buffer is kept for the terminating null byte, so that after
    [fclose] the buffer holds, as a C string, the first [size - 1]
    characters of what was printed. *)
Record FILE := { f_size : Z; f_out : string }.

Definition fmemopen (size : Z) : FILE := {| f_size := size; f_out := EmptyString |}.

Definition fputs (s : string) (fp : FILE) : FILE :=
  {| f_size := f_size fp; f_out := String.append (f_out fp) s |}.

Definition fclose (fp : FILE) : string :=
  substring 0 (Z.to_nat (f_size fp - 1)) (f_out fp).

(** [sizeof(event)] in [ni_dhcp_send_device_event]. *)
Definition sizeof_event : Z := 65536.

Definition strlen (s : string) : Z := Z.of_nat (String.length s).

(** ** Requests and the surrounding subsystems *)

(** Modelled from the spec: the commands of a control request.  The method
    tables of this file name [get], [put] and [delete]; any other command
    is [NI_REST_OP_other]. *)
Inductive ni_rest_op_t :=
| NI_REST_OP_GET
| NI_REST_OP_PUT
| NI_REST_OP_DELETE
| NI_REST_OP_other.

Section Component.

(** Documents are built and printed by the XML codec only. *)
Context {xml_node_t : Type}.

(** Modelled from the spec: [ni_wicked_request_t], with the inbound body,
    the outbound body and the error text [werror] attaches. *)
Record ni_wicked_request_t := {
  xml_in : option xml_node_t;
  xml_out : option xml_node_t;
  error_msg : option (string * list fmt_arg)
}.

(** Modelled from the spec: [werror] attaches the error text to the request. *)
Definition werror (req : ni_wicked_request_t) (fmt : string) (args : list fmt_arg)
  : ni_wicked_request_t :=
  {| xml_in := xml_in req; xml_out := xml_out req; error_msg := Some (fmt, args) |}.

Definition set_xml_out (req : ni_wicked_request_t) (x : option xml_node_t)
  : ni_wicked_request_t :=
  {| xml_in := xml_in req; xml_out := x; error_msg := error_msg req |}.

(** Modelled from the spec: [ni_socket_t], of which only the descriptor is
    used here. *)
Record ni_socket_t := { __fd : Z }.

(** What [ni_socket_pull] and [ni_wicked_request_parse] deliver for one
    message: their return values and the parsed request, whose command and
    path (resource and name) are kept beside the bodies. *)
Record incoming := {
  pull_rc : Z;
  parse_rc : Z;
  in_cmd : ni_rest_op_t;
  in_resource : string;
  in_name : option string;
  in_req : ni_wicked_request_t
}.

(** What the sibling subsystems do when called; none of them is among the
    sources, so each is a parameter.  A call that is handed a device gives
    back that device's record as the callee leaves it. *)
Record externals := {
  (* device registry *)
  ext_device_new : string -> Z -> ni_dhcp_device_t;
  ext_device_reconfigure : ni_dhcp_device_t -> ni_interface_t -> ni_dhcp_device_t * Z;
  ext_device_start : ni_dhcp_device_t -> ni_dhcp_device_t;
  ext_device_stop : ni_dhcp_device_t -> ni_dhcp_device_t;
  (* lease state machine *)
  ext_fsm_release : ni_dhcp_device_t -> ni_dhcp_device_t;
  ext_fsm_get_timeout : list ni_dhcp_device_t -> Z;
  ext_fsm_check_timeout : list ni_dhcp_device_t -> list ni_dhcp_device_t;
  (* socket layer: the result of the poll with what the packets received
     did to the devices, and the request waiting on the control socket in
     the n-th pass of the loop *)
  ext_socket_wait : Z -> list ni_dhcp_device_t -> Z * list ni_dhcp_device_t;
  ext_socket_pending : nat -> option incoming;
  (* interface model *)
  ext_dummy_open : option ni_handle_t;
  ext_xml_to_all : ni_handle_t -> option xml_node_t -> Z * ni_handle_t;
  (* XML codec *)
  ext_xml_from_lease : ni_addrconf_lease_t -> option xml_node_t;
  ext_xml_node_print : xml_node_t -> string
}.

Context (E : externals).

(** *** The registry and the lease state machine, as called from here *)

Fixpoint find_dev (name : string) (l : list ni_dhcp_device_t) : option nat :=
  match l with
  | [] => None
  | d :: l' => if String.eqb (ifname d) name then Some 0%nat
               else option_map S (find_dev name l')
  end.

(** Modelled from the spec: [ni_dhcp_device_find] looks the name up in the
    registry and changes nothing. *)
Definition ni_dhcp_device_find (name : string) : dhcpM dev_ptr :=
  fun w => Done (find_dev name (ni_dhcp_active w)) w.

(** Modelled from the spec: [ni_dhcp_device_new] adds one record, made from
    the name and the link type, to the active-device list. *)
Definition ni_dhcp_device_new (name : string) (type : Z) : dhcpM nat :=
  run do_call (c_device_new name type) then
  fun w => Done (length (ni_dhcp_active w))
                (with_active (fun l => l ++ [ext_device_new E name type]) w).

Definition ni_dhcp_device_reconfigure (p : nat) (ifp : ni_interface_t) : dhcpM Z :=
  let* d := deref (Some p) in
  run call_on p (c_device_reconfigure p ifp) (fun d => fst (ext_device_reconfigure E d ifp)) then
  ret (snd (ext_device_reconfigure E d ifp)).

Definition ni_dhcp_device_start (p : nat) : dhcpM unit :=
  call_on p (c_device_start p) (ext_device_start E).

(** The callee's treatment of a null argument is not visible from here; the
    call is recorded and taken to return. *)
Definition ni_dhcp_device_stop (dev : dev_ptr) : dhcpM unit :=
  match dev with
  | Some p => call_on p (c_device_stop dev) (ext_device_stop E)
  | None => do_call (c_device_stop dev)
  end.

Definition ni_dhcp_fsm_release (p : nat) : dhcpM unit :=
  call_on p (c_fsm_release p) (ext_fsm_release E).

Definition ni_dhcp_fsm_get_timeout : dhcpM Z :=
  run do_call c_fsm_get_timeout then
  fun w => Done (ext_fsm_get_timeout E (ni_dhcp_active w)) w.

Definition ni_dhcp_fsm_check_timeout : dhcpM unit :=
  run do_call c_fsm_check_timeout then
  fun w => Done tt (with_active (ext_fsm_check_timeout E) w).

Fixpoint find_changed (l : list ni_dhcp_device_t) : option nat :=
  match l with
  | [] => None
  | d :: l' => if notify d then Some 0%nat else option_map S (find_changed l')
  end.

(** Modelled from the spec: [ni_dhcp_device_get_changed] hands out the next
    device whose pending-notify flag is set and clears the flag. *)
Definition ni_dhcp_device_get_changed : dhcpM dev_ptr :=
  run do_call c_device_get_changed then
  fun w => match find_changed (ni_dhcp_active w) with
           | Some p => Done (Some p) (with_active (alter (set_notify false) p) w)
           | None => Done None w
           end.

Definition ni_dummy_open : dhcpM (option ni_handle_t) :=
  run do_call c_dummy_open then ret (ext_dummy_open E).

Definition __ni_syntax_xml_to_all (cnih : ni_handle_t) (doc : option xml_node_t)
  : dhcpM (Z * ni_handle_t) :=
  run do_call c_xml_to_all then ret (ext_xml_to_all E cnih doc).

(** Modelled from the spec: [ni_interface_by_name] locates the interface
    description of that name in the store. *)
Definition ni_interface_by_name (cnih : ni_handle_t) (name : string) : option ni_interface_t :=
  List.find (fun ifp => String.eqb (ifp_name ifp) name) cnih.

Definition ni_close : dhcpM unit := do_call c_close.

Definition ni_syntax_xml_from_lease (l : ni_addrconf_lease_t) : dhcpM (option xml_node_t) :=
  run do_call (c_xml_from_lease l) then ret (ext_xml_from_lease E l).

(** *** [dhcp_device_xml] *)

(** [dummy] after [memset], [dummy.type = NI_ADDRCONF_DHCP],
    [dummy.family = AF_INET] and the assignment to [dummy.state] made in the
    branch that keeps [lease = &dummy]. *)
Definition dummy_lease (st : ni_addrconf_state_t) : ni_addrconf_lease_t :=
  {| lease_type := NI_ADDRCONF_DHCP; lease_family := AF_INET; lease_state := st;
     lease_addrs := []; lease_time_acquired := 0 |}.

(** What [lease] points to at the [return]. *)
Definition dhcp_device_xml_lease (d : ni_dhcp_device_t) : ni_addrconf_lease_t :=
  if failed d then dummy_lease NI_ADDRCONF_STATE_FAILED
  else match lease d with
       | Some l => l
       | None => dummy_lease NI_ADDRCONF_STATE_RELEASED
       end.

Definition dhcp_device_xml (dev : dev_ptr) : dhcpM (option xml_node_t) :=
  let* d := deref dev in
  ni_syntax_xml_from_lease (dhcp_device_xml_lease d).

(** *** [dhcp_device_response] and [dhcp_device_get] *)

Definition dhcp_device_response (dev : dev_ptr) (req : ni_wicked_request_t)
  : dhcpM (Z * ni_wicked_request_t) :=
  let* x := dhcp_device_xml dev in
  let req := set_xml_out req x in
  match x with
  | None => ret (-1, werror req "cannot render interface information" [])
  | Some _ => ret (0, req)
  end.

Definition dhcp_device_get (ifname : option string) (req : ni_wicked_request_t)
  : dhcpM (Z * ni_wicked_request_t) :=
  match ifname with
  | None => ret (-1, werror req "need to specify interface" [])
  | Some ifname =>
      let* dev := ni_dhcp_device_find ifname in
      match dev with
      | None => ret (-1, werror req "interface %s not known" [arg_s ifname])
      | Some _ => dhcp_device_response dev req
      end
  end.

(** *** [dhcp_interface_put] *)

(** The [if (ifp->flags & IFF_UP) ... else ...] statement: yields [dev] and
    [reacquire] as they stand after it. *)
Definition put_select (ifp : ni_interface_t) (dev : dev_ptr) : dhcpM (dev_ptr * Z) :=
  let reacquire := 0 in
  if negb (Z.land (ifp_flags ifp) IFF_UP =? 0) then
    run ni_debug_dhcp "%s: received request to acquire lease" [arg_s (ifp_name ifp)] then
    let* dev := ni_dhcp_device_find (ifp_name ifp) in
    match dev with
    | Some p =>
        let* changed := ni_dhcp_device_reconfigure p ifp in
        let reacquire := if negb (changed =? 0) then 1 else reacquire in
        let* d := deref dev in
        let reacquire :=
          match state d with
          | NI_DHCP_STATE_BOUND => reacquire
          | _ => 1
          end in
        ret (dev, reacquire)
    | None =>
        let* p := ni_dhcp_device_new (ifp_name ifp) (ifp_type ifp) in
        let* _ := ni_dhcp_device_reconfigure p ifp in
        ret (Some p, 1)
    end
  else
    run ni_debug_dhcp "%s: received request to release lease" [arg_s (ifp_name ifp)] then
    run ni_dhcp_device_stop dev then
    ret (dev, reacquire).

(** The [if (!reacquire) ... else if (dev->config) ...] statement.  The
    [IFF_LOWER_UP] statement before it has two empty branches. *)
Definition put_commit (dev : dev_ptr) (reacquire : Z) : dhcpM unit :=
  if reacquire =? 0 then assign dev (set_notify true)
  else
    let* d := deref dev in
    match config d, dev with
    | Some _, Some p => ni_dhcp_device_start p
    | _, _ => ret tt
    end.

(** From the parse down to [rv = 0], that is, up to the label [failed]. *)
Definition put_with_handle (cnih : ni_handle_t) (ifname : string) (req : ni_wicked_request_t)
  : dhcpM (Z * ni_wicked_request_t) :=
  let* parsed := __ni_syntax_xml_to_all cnih (xml_in req) in
  let (rc, cnih) := parsed in
  if rc <? 0 then ret (-1, werror req "unable to parse interface configuration" [])
  else
    match ni_interface_by_name cnih ifname with
    | None => ret (-1, werror req "cannot find configuration for interface %s" [arg_s ifname])
    | Some ifp =>
        let* dev := ni_dhcp_device_find (ifp_name ifp) in
        let* sel := put_select ifp dev in
        let (dev, reacquire) := sel in
        run put_commit dev reacquire then
        ret (0, req)
    end.

Definition dhcp_interface_put (ifname : option string) (req : ni_wicked_request_t)
  : dhcpM (Z * ni_wicked_request_t) :=
  match ifname with
  | None => ret (-1, werror req "no interface name given" [])
  | Some ifname =>
      let* cnih := ni_dummy_open in
      match cnih with
      | None => ret (-1, werror req "unable to create netinfo dummy handle" [])
      | Some cnih =>
          let* r := put_with_handle cnih ifname req in
          run ni_close then
          ret r
      end
  end.

(** *** [dhcp_interface_delete] *)

Definition dhcp_interface_delete (ifname : option string) (req : ni_wicked_request_t)
  : dhcpM (Z * ni_wicked_request_t) :=
  match ifname with
  | None => ret (-1, werror req "no interface name given" [])
  | Some ifname =>
      let* dev := ni_dhcp_device_find ifname in
      run match dev with
          | Some _ => ni_dhcp_device_stop dev
          | None => ret tt
          end then
      ret (0, req)
  end.

(** *** [ni_dhcp_send_device_event] *)

(** What the two print statements send to [fp]. *)
Definition event_text (ifname : string) (devnode : xml_node_t) : string :=
  String.append (String.append (String.append "POST /system/event/" ifname)
                               (String.append LF LF))
                (ext_xml_node_print E devnode).

Definition ni_dhcp_send_device_event (sock : ni_socket_t) (dev : dev_ptr) : dhcpM unit :=
  let* d := deref dev in
  run ni_debug_dhcp "sending device event for %s" [arg_s (ifname d)] then
  let* devnode := dhcp_device_xml dev in
  match devnode with
  | None => ni_error "%s: cannot render interface information" [arg_s (ifname d)]
  | Some devnode =>
      let fp := fmemopen sizeof_event in
      let fp := fputs (String.append (String.append "POST /system/event/" (ifname d))
                                     (String.append LF LF)) fp in
      let fp := fputs (ext_xml_node_print E devnode) fp in
      let event := fclose fp in
      do_call (c_write (__fd sock) event)
  end.

(** *** The request pipeline *)

(** A handler keyed by name, as [dhcp_device_get] and its two siblings. *)
Definition ni_rest_handler_t : Type :=
  option string -> ni_wicked_request_t ->
  dhcpM (Z * ni_wicked_request_t).

(** Modelled from the spec: [ni_rest_node_t], with the members the three
    static nodes of this file initialise: [name], [ops.byname] and
    [children]. *)
#[warnings="-register-all"] Inductive ni_rest_node_t :=
| rest_node (name : string)
            (byname_get byname_put byname_delete : option ni_rest_handler_t)
            (children : list ni_rest_node_t).

Definition node_name (n : ni_rest_node_t) : string :=
  match n with rest_node name _ _ _ _ => name end.

Definition node_children (n : ni_rest_node_t) : list ni_rest_node_t :=
  match n with rest_node _ _ _ _ children => children end.

Definition node_byname (n : ni_rest_node_t) (cmd : ni_rest_op_t) : option ni_rest_handler_t :=
  match n, cmd with
  | rest_node _ g _ _ _, NI_REST_OP_GET => g
  | rest_node _ _ p _ _, NI_REST_OP_PUT => p
  | rest_node _ _ _ d _, NI_REST_OP_DELETE => d
  | _, NI_REST_OP_other => None
  end.

Definition ni_dhcp_interface_node : ni_rest_node_t :=
  rest_node "interface" None (Some dhcp_interface_put) (Some dhcp_interface_delete) [].

Definition ni_dhcp_device_node : ni_rest_node_t :=
  rest_node "device" (Some dhcp_device_get) None None [].

Definition ni_dhcp_root_node : ni_rest_node_t :=
  rest_node "/" None None None [ni_dhcp_interface_node; ni_dhcp_device_node].

(** Modelled from the spec: [__ni_wicked_call_direct] resolves the
    resource of the path among the children of the root and calls the
    handler bound to the command with the name; where the path or the
    command has no binding it attaches an error message and does nothing
    else. *)
Definition __ni_wicked_call_direct (m : incoming) (root : ni_rest_node_t)
  : dhcpM (Z * ni_wicked_request_t) :=
  match List.find (fun c => String.eqb (node_name c) (in_resource m)) (node_children root) with
  | None => ret (-1, werror (in_req m) "unknown path %s" [arg_s (in_resource m)])
  | Some node =>
      match node_byname node (in_cmd m) with
      | None => ret (-1, werror (in_req m) "command not supported for %s"
                           [arg_s (in_resource m)])
      | Some handler => handler (in_name m) (in_req m)
      end
  end.

(** [ni_dhcp_process_request]; the request is local to the call, so what
    the handler attached to it is dropped with it. *)
Definition ni_dhcp_process_request (m : incoming) : dhcpM unit :=
  if pull_rc m <? 0 then ni_error "unable to receive: %m" []
  else
    let rv := parse_rc m in
    let* r := (if 0 <=? rv then __ni_wicked_call_direct m ni_dhcp_root_node
               else ret (rv, in_req m)) in
    let rv := fst r in
    if rv <? 0 then ni_error "unable to process dhcp request" [] else ret tt.

(** *** [ni_socket_wait] and the callback it runs *)

(** [m] run as a callback: the calls it makes are kept out of the caller's
    trace and handed back beside the outcome. *)
Definition as_callback {A} (m : dhcpM A) (w : world) : outcome A * list call :=
  let o := m (with_calls [] w) in
  match o with
  | Done a w' => (Done a (with_calls (calls w) w'), calls w')
  | Crash w' => (Crash (with_calls (calls w) w'), calls w')
  end.

(** Modelled from the spec: [ni_socket_wait], which is not among the
    sources.  It blocks until a socket is ready or the timeout is over.  A
    failure of the wait itself gives a negative value and no callback has
    run.  Otherwise the packets received have been processed when it
    returns, and on readiness of the control socket one request is pulled
    and handled: the [data_ready] callback of that socket runs, once, inside
    the wait, and where it does not return neither does the wait.  The
    result is the outcome for the caller and, apart from the caller's own
    trace, the calls the callback made. *)
Definition ni_socket_wait (data_ready : incoming -> dhcpM unit)
    (pending : option incoming) (timeout : Z) (w : world) : outcome Z * list call :=
  let rc := fst (ext_socket_wait E timeout (ni_dhcp_active w)) in
  let w1 := with_active (fun l => snd (ext_socket_wait E timeout l))
              (with_call (c_socket_wait timeout) w) in
  if rc <? 0 then (Done rc w1, [])
  else
    match pending with
    | None => (Done rc w1, [])
    | Some m =>
        match as_callback (data_ready m) w1 with
        | (Done _ w2, inside) => (Done rc w2, inside)
        | (Crash w2, inside) => (Crash w2, inside)
        end
    end.

(** *** [ni_srandom] *)

Definition ni_srandom (e : sys_env) : dhcpM unit :=
  run (if 0 <=? open_urandom e then ret tt
       else ni_warn "unable to open /dev/random: %m" []) then
  do_call (c_srandom (srandom_seed e)).

(** *** [ni_dhcp_run] *)

Inductive fatal_signal := SIGINT | SIGTERM.

Definition signum (s : fatal_signal) : Z :=
  match s with SIGINT => 2 | SIGTERM => 15 end.

(** [catch_fatal_signals]: the value [ni_dhcp_stop] takes. *)
Definition catch_fatal_signals (sig : Z) : Z := sig.

(** Everything before the event loop. *)
Definition ni_dhcp_startup (e : sys_env) : dhcpM unit :=
  run ni_srandom e then
  run do_call (c_sigaction (signum SIGTERM)) then
  run do_call (c_sigaction (signum SIGINT)) then
  do_call c_socket_activate.

(** [while ((dev = ni_dhcp_device_get_changed()) != NULL) ...]; the fuel
    bounds the number of turns. *)
Fixpoint drain_changed (sock : ni_socket_t) (fuel : nat) : dhcpM unit :=
  match fuel with
  | O => ret tt
  | S fuel' =>
      let* dev := ni_dhcp_device_get_changed in
      match dev with
      | None => ret tt
      | Some _ => run ni_dhcp_send_device_event sock dev then drain_changed sock fuel'
      end
  end.

(** One turn of [for (dev = ni_dhcp_active; dev; dev = dev->next)]. *)
Definition shutdown_device (p : nat) : dhcpM unit :=
  let* d := deref (Some p) in
  run match state d with
      | NI_DHCP_STATE_REQUESTING
      | NI_DHCP_STATE_RENEWING
      | NI_DHCP_STATE_REBINDING
      | NI_DHCP_STATE_BOUND =>
          match lease d with
          | Some _ => ni_dhcp_fsm_release p
          | None => ret tt
          end
      | NI_DHCP_STATE_other _ => ret tt
      end then
  ni_dhcp_device_stop (Some p).

(** The statements after the event loop; the result is the exit status. *)
Definition ni_dhcp_shutdown : dhcpM Z :=
  let* _ := (fun w => for_each (seq 0 (length (ni_dhcp_active w))) shutdown_device w) in
  run do_call (c_exit 0) then
  ret 0.

(** Where the process stands in [ni_dhcp_run]. *)
Inductive run_pc :=
| at_start                (* entering ni_dhcp_run *)
| at_get_timeout          (* top of while (1) *)
| at_wait                 (* about to call, or inside, ni_socket_wait *)
| at_check_stop           (* if (ni_dhcp_stop) *)
| at_fsm_check            (* ni_dhcp_fsm_check_timeout *)
| at_drain                (* the get_changed loop *)
| at_shutdown             (* after the break *)
| exited (status : Z)     (* exit was called *)
| aborted                 (* ni_fatal *)
| killed (sig : Z)        (* a signal arrived while no handler was installed *)
| crashed.                (* a store through a null pointer *)

(** What has happened, tagged with the number of the loop pass. *)
Inductive mark :=
| m_startup
| m_get_timeout
| m_wait
| m_observe_stop (flag : Z)
| m_fsm_check
| m_drain
| m_shutdown
| m_signal (sig : Z).

Record run_state := {
  pc : run_pc;
  ni_dhcp_stop : Z;
  pass : nat;
  timeout : Z;
  marks : list (nat * mark);
  now : world;
  served : list call        (* the calls made from inside ni_socket_wait *)
}.

Definition goto (s : run_state) (pc' : run_pc) (m : mark) (w : world) : run_state :=
  {| pc := pc'; ni_dhcp_stop := ni_dhcp_stop s; pass := pass s; timeout := timeout s;
     marks := marks s ++ [(pass s, m)]; now := w; served := served s |}.

(** The callback has made the calls [inside]. *)
Definition heard (s : run_state) (inside : list call) : run_state :=
  {| pc := pc s; ni_dhcp_stop := ni_dhcp_stop s; pass := pass s; timeout := timeout s;
     marks := marks s; now := now s; served := served s ++ inside |}.

Definition finish {A} (s : run_state) (pc' : run_pc) (m : mark) (o : outcome A) : run_state :=
  match o with
  | Done _ w => goto s pc' m w
  | Crash w => goto s crashed m w
  end.

Context (e : sys_env) (sock : ni_socket_t).

(** The process runs up to its next stopping point. *)
Definition run_step (s : run_state) : run_state :=
  match pc s with
  | at_start => finish s at_get_timeout m_startup (ni_dhcp_startup e (now s))
  | at_get_timeout =>
      match ni_dhcp_fsm_get_timeout (now s) with
      | Done t w =>
          {| pc := at_wait; ni_dhcp_stop := ni_dhcp_stop s; pass := pass s; timeout := t;
             marks := marks s ++ [(pass s, m_get_timeout)]; now := w;
             served := served s |}
      | Crash w => goto s crashed m_get_timeout w
      end
  | at_wait =>
      (* sock->data_ready = ni_dhcp_process_request, since the start-up *)
      let r := ni_socket_wait ni_dhcp_process_request (ext_socket_pending E (pass s))
                 (timeout s) (now s) in
      match fst r with
      | Done rc w =>
          if rc <? 0
          then goto (heard s (snd r)) aborted m_wait
                 (with_log {| log_lvl := lvl_fatal; log_fmt := "ni_socket_wait failed";
                              log_args := [] |} w)
          else goto (heard s (snd r)) at_check_stop m_wait w
      | Crash w => goto (heard s (snd r)) crashed m_wait w
      end
  | at_check_stop =>
      if negb (ni_dhcp_stop s =? 0)
      then finish s at_shutdown (m_observe_stop (ni_dhcp_stop s))
             (ni_debug_dhcp "received exit signal %d" [arg_d (ni_dhcp_stop s)] (now s))
      else goto s at_fsm_check (m_observe_stop (ni_dhcp_stop s)) (now s)
  | at_fsm_check => finish s at_drain m_fsm_check (ni_dhcp_fsm_check_timeout (now s))
  | at_drain =>
      match drain_changed sock (S (length (ni_dhcp_active (now s)))) (now s) with
      | Done _ w =>
          {| pc := at_get_timeout; ni_dhcp_stop := ni_dhcp_stop s; pass := S (pass s);
             timeout := timeout s; marks := marks s ++ [(pass s, m_drain)]; now := w;
             served := served s |}
      | Crash w => goto s crashed m_drain w
      end
  | at_shutdown =>
      match ni_dhcp_shutdown (now s) with
      | Done status w => goto s (exited status) m_shutdown w
      | Crash w => goto s crashed m_shutdown w
      end
  | exited _ | aborted | killed _ | crashed => s
  end.

(** A termination signal is delivered. *)
Definition deliver (sig : fatal_signal) (s : run_state) : run_state :=
  match pc s with
  | at_start =>
      {| pc := killed (signum sig); ni_dhcp_stop := ni_dhcp_stop s; pass := pass s;
         timeout := timeout s; marks := marks s ++ [(pass s, m_signal (signum sig))];
         now := now s; served := served s |}
  | exited _ | aborted | killed _ | crashed => s
  | _ =>
      {| pc := pc s; ni_dhcp_stop := catch_fatal_signals (signum sig);
         pass := pass s; timeout := timeout s;
         marks := marks s ++ [(pass s, m_signal (signum sig))]; now := now s;
         served := served s |}
  end.

Inductive action := a_run | a_signal (sig : fatal_signal).

Definition act (s : run_state) (a : action) : run_state :=
  match a with
  | a_run => run_step s
  | a_signal sig => deliver sig s
  end.

(** [ni_dhcp_run] under a schedule of process steps and signal deliveries. *)
Definition ni_dhcp_run (sched : list action) (s : run_state) : run_state :=
  fold_left act sched s.

Definition boot : run_state :=
  {| pc := at_start; ni_dhcp_stop := 0; pass := 0; timeout := 0; marks := [];
     now := {| ni_dhcp_active := []; calls := []; syslog := [] |}; served := [] |}.

End Component.

Arguments ni_wicked_request_t : clear implicits.
Arguments externals : clear implicits.
Arguments incoming : clear implicits.

(** ** A concrete surrounding, to run the code on *)

Module Sample.

(** A codec that prints a lease as one line of text and refuses leases of
    any family but [AF_INET]. *)
Definition state_text (s : ni_addrconf_state_t) : string :=
  match s with
  | NI_ADDRCONF_STATE_FAILED => "failed"
  | NI_ADDRCONF_STATE_RELEASED => "released"
  | NI_ADDRCONF_STATE_other _ => "granted"
  end.

Definition render (l : ni_addrconf_lease_t) : option string :=
  if lease_family l =? AF_INET
  then Some (String.append "<lease state=" (String.append (state_text (lease_state l)) "/>"))
  else None.

(** A registry whose stop drops lease and configuration, whose start and
    release move the state, and whose reconfigure attaches a configuration
    and reports a change when there was none. *)
Definition stop (d : ni_dhcp_device_t) : ni_dhcp_device_t :=
  {| ifname := ifname d; iftype := iftype d; state := NI_DHCP_STATE_other 0;
     lease := None; failed := false; config := None; notify := notify d |}.

Definition start (d : ni_dhcp_device_t) : ni_dhcp_device_t :=
  {| ifname := ifname d; iftype := iftype d; state := NI_DHCP_STATE_other 1;
     lease := lease d; failed := false; config := config d; notify := notify d |}.

Definition release (d : ni_dhcp_device_t) : ni_dhcp_device_t :=
  {| ifname := ifname d; iftype := iftype d; state := NI_DHCP_STATE_other 0;
     lease := lease d; failed := failed d; config := config d; notify := notify d |}.

Definition reconfigure (d : ni_dhcp_device_t) (ifp : ni_interface_t) : ni_dhcp_device_t * Z :=
  ({| ifname := ifname d; iftype := iftype d; state := state d;
      lease := lease d; failed := failed d;
      config := Some (dhcp_config [ifp_flags ifp]); notify := notify d |},
   match config d with Some _ => 0 | None => 1 end).

Definition fresh (name : string) (type : Z) : ni_dhcp_device_t :=
  {| ifname := name; iftype := type; state := NI_DHCP_STATE_other 0;
     lease := None; failed := false; config := None; notify := false |}.

(** The document of a request body is the list of interfaces it describes. *)
Definition parse (store : list ni_interface_t) (cnih : ni_handle_t) (doc : option string)
  : Z * ni_handle_t :=
  match doc with
  | Some _ => (0, store)
  | None => (-1, cnih)
  end.

Definition surroundings (codec : ni_addrconf_lease_t -> option string)
    (store : list ni_interface_t) : externals string :=
  {| ext_device_new := fresh;
     ext_device_reconfigure := reconfigure;
     ext_device_start := start;
     ext_device_stop := stop;
     ext_fsm_release := release;
     ext_fsm_get_timeout := fun _ => 1000;
     ext_fsm_check_timeout := fun l => l;
     ext_socket_wait := fun _ l => (0, l);
     ext_socket_pending := fun _ => None;
     ext_dummy_open := Some [];
     ext_xml_to_all := parse store;
     ext_xml_from_lease := codec;
     ext_xml_node_print := fun doc => doc |}.

Definition E0 : externals string := surroundings render [].

Definition eth0_down : ni_interface_t :=
  {| ifp_name := "eth0"; ifp_type := 1; ifp_flags := 0 |}.

Definition eth0_up : ni_interface_t :=
  {| ifp_name := "eth0"; ifp_type := 1; ifp_flags := Z.lor IFF_UP IFF_LOWER_UP |}.

Definition granted : ni_addrconf_lease_t :=
  {| lease_type := NI_ADDRCONF_DHCP; lease_family := AF_INET;
     lease_state := NI_ADDRCONF_STATE_other 2;
     lease_addrs := [3232235777]; lease_time_acquired := 1000000000 |}.

Definition eth0_bound : ni_dhcp_device_t :=
  {| ifname := "eth0"; iftype := 1; state := NI_DHCP_STATE_BOUND;
     lease := Some granted; failed := false;
     config := Some (dhcp_config []); notify := false |}.

Definition eth0_failed : ni_dhcp_device_t :=
  {| ifname := "eth0"; iftype := 1; state := NI_DHCP_STATE_BOUND;
     lease := Some granted; failed := true;
     config := Some (dhcp_config []); notify := false |}.

Definition eth1_idle : ni_dhcp_device_t :=
  {| ifname := "eth1"; iftype := 1; state := NI_DHCP_STATE_other 0;
     lease := None; failed := false; config := None; notify := false |}.

(** A device whose lease the sample codec cannot render. *)
Definition eth2_odd : ni_dhcp_device_t :=
  {| ifname := "eth2"; iftype := 1; state := NI_DHCP_STATE_BOUND;
     lease := Some {| lease_type := NI_ADDRCONF_DHCP; lease_family := 10;
                      lease_state := NI_ADDRCONF_STATE_other 2;
                      lease_addrs := []; lease_time_acquired := 0 |};
     failed := false; config := None; notify := false |}.

(** A document that alone fills the event buffer. *)
Fixpoint string_repeat (c : ascii) (n : nat) : string :=
  match n with
  | O => EmptyString
  | S n' => String c (string_repeat c n')
  end.

Definition big_document : string := string_repeat "x"%char (Z.to_nat sizeof_event).

Definition world_of (l : list ni_dhcp_device_t) : world :=
  {| ni_dhcp_active := l; calls := []; syslog := [] |}.

Definition no_request : ni_wicked_request_t string :=
  {| xml_in := None; xml_out := None; error_msg := None |}.

Definition body_request : ni_wicked_request_t string :=
  {| xml_in := Some "<interface/>"; xml_out := None; error_msg := None |}.

Definition no_entropy : sys_env :=
  {| open_urandom := -1; read_count := 0; read_word := 0;
     tv_sec := 1000000000; tv_usec := 500000; pid := 42 |}.

Definition short_read : sys_env :=
  {| open_urandom := 3; read_count := 2; read_word := 48879;
     tv_sec := 1000000000; tv_usec := 500000; pid := 42 |}.

Definition control : ni_socket_t := {| __fd := 4 |}.

(** One undisturbed pass of the loop. *)
Definition one_pass : list action := [a_run; a_run; a_run; a_run; a_run; a_run].

(** SIGTERM arrives while the first pass sweeps the timers. *)
Definition signal_in_sweep : list action :=
  [a_run; a_run; a_run; a_run; a_signal SIGTERM; a_run; a_run; a_run; a_run; a_run].

(** SIGTERM arrives while the first pass waits on the sockets. *)
Definition signal_in_wait : list action :=
  [a_run; a_run; a_signal SIGTERM; a_run; a_run; a_run].

(** A process that has just left the event loop on SIGTERM. *)
Definition leaving (w : world) : run_state :=
  {| pc := at_shutdown; ni_dhcp_stop := 15; pass := 0; timeout := 1000;
     marks := []; now := w; served := [] |}.

End Sample.

(** ** More sample data *)

Module Traffic.

(** A registered device still negotiating. *)
Definition eth0_requesting : ni_dhcp_device_t :=
  {| ifname := "eth0"; iftype := 1; state := NI_DHCP_STATE_REQUESTING;
     lease := None; failed := false;
     config := Some (dhcp_config []); notify := false |}.

(** A device waiting to be announced. *)
Definition eth1_changed : ni_dhcp_device_t :=
  {| ifname := "eth1"; iftype := 1; state := NI_DHCP_STATE_BOUND;
     lease := Some Sample.granted; failed := false;
     config := Some (dhcp_config []); notify := true |}.

Definition eth2_changed : ni_dhcp_device_t :=
  {| ifname := "eth2"; iftype := 1; state := NI_DHCP_STATE_BOUND;
     lease := lease Sample.eth2_odd; failed := false; config := None; notify := true |}.

Definition E_up : externals string := Sample.surroundings Sample.render [Sample.eth0_up].

Definition E_down : externals string := Sample.surroundings Sample.render [Sample.eth0_down].

(** Surroundings whose configuration store cannot be opened. *)
Definition E_closed : externals string :=
  {| ext_device_new := Sample.fresh;
     ext_device_reconfigure := Sample.reconfigure;
     ext_device_start := Sample.start;
     ext_device_stop := Sample.stop;
     ext_fsm_release := Sample.release;
     ext_fsm_get_timeout := fun _ => 1000;
     ext_fsm_check_timeout := fun l => l;
     ext_socket_wait := fun _ l => (0, l);
     ext_socket_pending := fun _ => None;
     ext_dummy_open := None;
     ext_xml_to_all := Sample.parse [];
     ext_xml_from_lease := Sample.render;
     ext_xml_node_print := fun doc => doc |}.

(** Surroundings whose socket wait fails. *)
Definition E_broken : externals string :=
  {| ext_device_new := Sample.fresh;
     ext_device_reconfigure := Sample.reconfigure;
     ext_device_start := Sample.start;
     ext_device_stop := Sample.stop;
     ext_fsm_release := Sample.release;
     ext_fsm_get_timeout := fun _ => 1000;
     ext_fsm_check_timeout := fun l => l;
     ext_socket_wait := fun _ l => (-1, l);
     ext_socket_pending := fun _ => None;
     ext_dummy_open := Some [];
     ext_xml_to_all := Sample.parse [];
     ext_xml_from_lease := Sample.render;
     ext_xml_node_print := fun doc => doc |}.

Definition message (cmd : ni_rest_op_t) (resource : string) (name : option string)
  : incoming string :=
  {| pull_rc := 0; parse_rc := 0; in_cmd := cmd; in_resource := resource;
     in_name := name; in_req := Sample.body_request |}.

(** Surroundings in which the request [m] waits on the control socket in
    every pass, with the interfaces [store] in its document. *)
Definition asking (store : list ni_interface_t) (m : incoming string) : externals string :=
  {| ext_device_new := Sample.fresh;
     ext_device_reconfigure := Sample.reconfigure;
     ext_device_start := Sample.start;
     ext_device_stop := Sample.stop;
     ext_fsm_release := Sample.release;
     ext_fsm_get_timeout := fun _ => 1000;
     ext_fsm_check_timeout := fun l => l;
     ext_socket_wait := fun _ l => (0, l);
     ext_socket_pending := fun _ => Some m;
     ext_dummy_open := Some [];
     ext_xml_to_all := Sample.parse store;
     ext_xml_from_lease := Sample.render;
     ext_xml_node_print := fun doc => doc |}.



(** A [DELETE interface/eth0] waits in every pass. *)
Definition E_served : externals string :=
  asking [] (message NI_REST_OP_DELETE "interface" (Some "eth0")).

(** A [PUT interface/eth0] that describes eth0 as down waits in every pass. *)
Definition E_fatal : externals string :=
  asking [Sample.eth0_down] (message NI_REST_OP_PUT "interface" (Some "eth0")).

Definition unreadable : incoming string :=
  {| pull_rc := -1; parse_rc := 0; in_cmd := NI_REST_OP_GET; in_resource := "device";
     in_name := Some "eth0"; in_req := Sample.no_request |}.

Definition garbled : incoming string :=
  {| pull_rc := 0; parse_rc := -1; in_cmd := NI_REST_OP_DELETE; in_resource := "interface";
     in_name := Some "eth0"; in_req := Sample.no_request |}.

(** A process in its second pass, with SIGINT recorded during the sweep. *)
Definition sweeping (w : world) : run_state :=
  {| pc := at_fsm_check; ni_dhcp_stop := 2; pass := 1; timeout := 1000;
     marks := []; now := w; served := [] |}.

End Traffic.

(** ** Vocabulary of the properties *)

Definition after {A} (o : outcome A) : world :=
  match o with Done _ w => w | Crash w => w end.

(** [emits P m]: running [m] only appends calls, each of which satisfies [P]. *)
Definition emits {A} (P : call -> Prop) (m : dhcpM A) : Prop :=
  forall w, exists extra, Forall P extra /\ calls (after (m w)) = calls w ++ extra.


Definition is_srandom (c : call) : bool :=
  match c with c_srandom _ => true | _ => false end.

Fixpoint count_if {A} (f : A -> bool) (l : list A) : nat :=
  match l with
  | [] => 0%nat
  | x :: l' => ((if f x then 1 else 0) + count_if f l')%nat
  end.

Definition is_release (p : nat) (c : call) : bool :=
  match c with c_fsm_release q => Nat.eqb p q | _ => false end.

Definition is_stop (p : nat) (c : call) : bool :=
  match c with c_device_stop (Some q) => Nat.eqb p q | _ => false end.

Definition is_any_release (c : call) : bool :=
  match c with c_fsm_release _ => true | _ => false end.

(** The test made on one device by the [switch] and the [if] inside it. *)
Definition holds_active_lease (d : ni_dhcp_device_t) : bool :=
  match state d, lease d with
  | NI_DHCP_STATE_other _, _ => false
  | _, Some _ => true
  | _, None => false
  end.

Definition shutdown_asks_one (p : nat) (d : ni_dhcp_device_t) : list call :=
  (if holds_active_lease d then [c_fsm_release p] else []) ++ [c_device_stop (Some p)].

Definition shutdown_leaves {xml_node_t : Type} (E : externals xml_node_t)
    (d : ni_dhcp_device_t) : ni_dhcp_device_t :=
  ext_device_stop E (if holds_active_lease d then ext_fsm_release E d else d).

Fixpoint shutdown_asks (p : nat) (l : list ni_dhcp_device_t) : list call :=
  match l with
  | [] => []
  | d :: l' => shutdown_asks_one p d ++ shutdown_asks (S p) l'
  end.

(** A request that gets as far as the interface description [ifp]. *)
Definition reaches {xml_node_t : Type} (E : externals xml_node_t)
    (req : ni_wicked_request_t xml_node_t) (name : string) (ifp : ni_interface_t) : Prop :=
  exists cnih0 rc cnih,
    ext_dummy_open E = Some cnih0 /\
    ext_xml_to_all E cnih0 (xml_in req) = (rc, cnih) /\ 0 <= rc /\
    ni_interface_by_name cnih name = Some ifp.

(** A full pass of the loop: the flag was read as zero. *)
Definition full_pass (k : nat) : list (nat * mark) :=
  [(k, m_get_timeout); (k, m_wait); (k, m_observe_stop 0); (k, m_fsm_check); (k, m_drain)].

(** Start-up followed by [k] full passes. *)
Definition prefix_marks (k : nat) : list (nat * mark) :=
  (0%nat, m_startup) :: flat_map full_pass (seq 0 k).

(** What the pass under way has done when the process stands at [c];
    [flag] is the non-zero value of [ni_dhcp_stop] that ended the loop. *)
Definition pass_so_far (c : run_pc) (k : nat) (flag : Z) : list (nat * mark) :=
  match c with
  | at_start | killed _ | at_get_timeout => []
  | at_wait => [(k, m_get_timeout)]
  | at_check_stop | aborted | crashed => [(k, m_get_timeout); (k, m_wait)]
  | at_fsm_check => [(k, m_get_timeout); (k, m_wait); (k, m_observe_stop 0)]
  | at_drain => [(k, m_get_timeout); (k, m_wait); (k, m_observe_stop 0); (k, m_fsm_check)]
  | at_shutdown => [(k, m_get_timeout); (k, m_wait); (k, m_observe_stop flag)]
  | exited _ =>
      [(k, m_get_timeout); (k, m_wait); (k, m_observe_stop flag); (k, m_shutdown)]
  end.

Definition is_step (x : nat * mark) : bool :=
  match snd x with m_signal _ => false | _ => true end.

(** The marks left by the process itself, signal deliveries taken out. *)
Definition steps_of (l : list (nat * mark)) : list (nat * mark) := List.filter is_step l.

Definition is_observation (k : nat) (x : nat * mark) : bool :=
  match x with (j, m_observe_stop _) => Nat.eqb k j | _ => false end.

Definition shape (s : run_state) : Prop :=
  match pc s with
  | at_start | killed _ => steps_of (marks s) = [] /\ pass s = 0%nat
  | exited st =>
      st = 0 /\ exists flag, flag <> 0 /\
      steps_of (marks s) = prefix_marks (pass s) ++ pass_so_far (exited st) (pass s) flag
  | c =>
      exists flag, flag <> 0 /\
      steps_of (marks s) = prefix_marks (pass s) ++ pass_so_far c (pass s) flag
  end.

(** At the top of the loop, after a pass, no device is left flagged. *)
Definition drained (s : run_state) : Prop :=
  pc s = at_get_timeout -> pass s <> 0%nat ->
  find_changed (ni_dhcp_active (now s)) = None.



Definition is_bound (s : ni_dhcp_state_t) : bool :=
  match s with NI_DHCP_STATE_BOUND => true | _ => false end.

(** Kinds of calls, for counting them. *)
Definition is_write (c : call) : bool :=
  match c with c_write _ _ => true | _ => false end.

Definition is_render (c : call) : bool :=
  match c with c_xml_from_lease _ => true | _ => false end.

Definition is_get_changed (c : call) : bool :=
  match c with c_device_get_changed => true | _ => false end.

Definition is_open (c : call) : bool :=
  match c with c_dummy_open => true | _ => false end.

Definition is_close (c : call) : bool :=
  match c with c_close => true | _ => false end.

Definition is_new (c : call) : bool :=
  match c with c_device_new _ _ => true | _ => false end.

(** The calls of the shutdown sequence. *)
Definition is_shutdown_call (c : call) : bool :=
  match c with c_fsm_release _ | c_device_stop _ | c_exit _ => true | _ => false end.

(** The calls that hand a device to the registry or the state machine. *)
Definition is_device_call (c : call) : bool :=
  match c with
  | c_fsm_release _ | c_device_stop _ | c_device_new _ _
  | c_device_reconfigure _ _ | c_device_start _ => true
  | _ => false
  end.

(** The number of process steps the loop needs, from where it stands, to
    honour a recorded signal and leave through [exit]. *)
Definition steps_to_exit (c : run_pc) : nat :=
  match c with
  | at_fsm_check => 6
  | at_drain => 5
  | at_get_timeout => 4
  | at_wait => 3
  | at_check_stop => 2
  | at_shutdown => 1
  | _ => 0
  end.

Definition in_loop (c : run_pc) : Prop :=
  match c with
  | at_get_timeout | at_wait | at_check_stop | at_fsm_check | at_drain | at_shutdown => True
  | _ => False
  end.

Definition runs_in (sched : list action) : nat :=
  count_if (fun a => match a with a_run => true | a_signal _ => false end) sched.

(** The resource and command pairs the route tree binds a handler to. *)
Definition routed {xml_node_t : Type} (m : incoming xml_node_t) : Prop :=
  (in_resource m = "interface" /\
   (in_cmd m = NI_REST_OP_PUT \/ in_cmd m = NI_REST_OP_DELETE)) \/
  (in_resource m = "device" /\ in_cmd m = NI_REST_OP_GET).

(** The one line [ni_dhcp_process_request] logs for a request it could not
    serve. *)
Definition unable_to_receive : log_line :=
  {| log_lvl := lvl_error; log_fmt := "unable to receive: %m"; log_args := [] |}.

Definition unable_to_process : log_line :=
  {| log_lvl := lvl_error; log_fmt := "unable to process dhcp request"; log_args := [] |}.

(** Until the process has left through [exit], it has made none of the
    calls of the shutdown sequence. *)
Definition no_shutdown_call_yet (s : run_state) : Prop :=
  match pc s with
  | exited _ => True
  | _ => count_if is_shutdown_call (calls (now s)) = 0%nat
  end.

(** A signal is on record and the process is in the loop or has left it. *)
Definition leaving_on_signal (s : run_state) : Prop :=
  ni_dhcp_stop s <> 0 /\
  (in_loop (pc s) \/ pc s = exited 0 \/ pc s = aborted \/ pc s = crashed).

(** The world in which the callback runs, when the poll of a process at the
    wait has not failed: the wait is on the trace and the packets received
    have been processed. *)
Definition waited {xml_node_t : Type} (E : externals xml_node_t) (s : run_state) : world :=
  with_active (fun l => snd (ext_socket_wait E (timeout s) l))
    (with_call (c_socket_wait (timeout s)) (now s)).

(** The one kind of request whose handler does not return: a message that
    is read and parsed, a [PUT] on [interface/<name>], whose document
    describes the interface with administrative-up unset, while the devices
    [l] hold none of that name. *)
Definition fatal_request {xml_node_t : Type} (E : externals xml_node_t)
    (m : incoming xml_node_t) (l : list ni_dhcp_device_t) : Prop :=
  0 <= pull_rc m /\ 0 <= parse_rc m /\
  in_resource m = "interface" /\ in_cmd m = NI_REST_OP_PUT /\
  exists name ifp,
    in_name m = Some name /\ reaches E (in_req m) name ifp /\
    Z.land (ifp_flags ifp) IFF_UP = 0 /\
    find_dev name l = None.

(** The calls the three handlers make. *)
Definition handler_call (c : call) : Prop :=
  match c with
  | c_dummy_open | c_xml_to_all | c_close | c_xml_from_lease _
  | c_device_stop _ | c_device_new _ _ | c_device_reconfigure _ _ | c_device_start _ => True
  | _ => False
  end.

(** A request waits on the control socket and its handler does not return. *)
Definition dies_in_wait {xml_node_t : Type} (E : externals xml_node_t) (s : run_state)
  : bool :=
  match ext_socket_pending E (pass s) with
  | Some m =>
      match ni_dhcp_process_request E m (with_calls [] (waited E s)) with
      | Crash _ => true
      | Done _ _ => false
      end
  | None => false
  end.

(** No signal on record, and the process neither shutting down nor gone
    through [exit] or a signal. *)
Definition undisturbed (s : run_state) : Prop :=
  ni_dhcp_stop s = 0 /\
  match pc s with
  | at_shutdown | exited _ | killed _ => False
  | _ => True
  end.

(** The device a call is made on, when it is made on one. *)
Definition call_dev (c : call) : option nat :=
  match c with
  | c_fsm_release q | c_device_start q | c_device_reconfigure q _ => Some q
  | c_device_stop dev => dev
  | _ => None
  end.

(** Every call of the list is made on a device whose position satisfies [P]. *)
Definition all_on (P : nat -> Prop) (l : list call) : Prop :=
  Forall (fun c => exists q, call_dev c = Some q /\ P q) l.

(** The registry keeps the name of a device it is handed. *)
Definition keeps_names {xml_node_t : Type} (E : externals xml_node_t) : Prop :=
  (forall name type, ifname (ext_device_new E name type) = name) /\
  (forall d ifp, ifname (fst (ext_device_reconfigure E d ifp)) = ifname d) /\
  (forall d, ifname (ext_device_start E d) = ifname d) /\
  (forall d, ifname (ext_device_stop E d) = ifname d).

(** * Properties *)

(** ** The seed *)

Lemma u32_idem z : u32 (u32 z) = u32 z.
Proof. unfold u32. apply Z.mod_mod. lia. Qed.

Lemma u32_lxor_l a b : u32 (Z.lxor (u32 a) b) = u32 (Z.lxor a b).
Proof.
  unfold u32. apply Z.bits_inj'. intros n Hn.
  rewrite !Z.testbit_mod_pow2, !Z.lxor_spec, Z.testbit_mod_pow2 by lia.
  destruct (n <? 32); simpl; reflexivity.
Qed.

Lemma u32_lxor_r a b : u32 (Z.lxor a (u32 b)) = u32 (Z.lxor a b).
Proof. rewrite Z.lxor_comm, u32_lxor_l, Z.lxor_comm. reflexivity. Qed.

(** The three assignments amount to one 32-bit exclusive or. *)
Lemma fallback_seed_formula e :
  fallback_seed e =
  u32 (Z.lxor (Z.lxor (Z.lxor (tv_usec e) (Z.quot (tv_usec e) 1024)) (tv_sec e)) (pid e)).
Proof.
  unfold fallback_seed. cbv zeta.
  rewrite u32_lxor_r, u32_lxor_l.
  rewrite (Z.lxor_assoc (u32 _)), u32_lxor_l, <- Z.lxor_assoc.
  reflexivity.
Qed.

Lemma srandom_seed_fallback e : entropy_seed e = 0 -> srandom_seed e = fallback_seed e.
Proof. unfold srandom_seed. intros ->. reflexivity. Qed.

(** ** What a computation may ask of its surroundings *)

Create HintDb emits.

Lemma emits_ret {A} P (a : A) : emits P (ret a).
Proof. intros w. exists []. simpl. rewrite app_nil_r. auto. Qed.

Lemma emits_bind {A B} P (m : dhcpM A) (k : A -> dhcpM B) :
  emits P m -> (forall a, emits P (k a)) -> emits P (bind m k).
Proof.
  intros Hm Hk w. unfold bind.
  destruct (Hm w) as (e1 & F1 & E1).
  destruct (m w) as [a w1|w1]; simpl in E1.
  - destruct (Hk a w1) as (e2 & F2 & E2).
    exists (e1 ++ e2). split; [apply Forall_app; auto|].
    rewrite E2, E1, app_assoc. reflexivity.
  - exists e1. auto.
Qed.

Lemma emits_do_call P c : P c -> emits P (do_call c).
Proof. intros Hc w. exists [c]. simpl. auto. Qed.

Lemma emits_do_log P lvl fmt args : emits P (do_log lvl fmt args).
Proof. intros w. exists []. simpl. rewrite app_nil_r. auto. Qed.

Lemma emits_quiet {A} P (m : dhcpM A) :
  (forall w, calls (after (m w)) = calls w) -> emits P m.
Proof. intros H w. exists []. rewrite H, app_nil_r. auto. Qed.

Lemma emits_deref P dev : emits P (deref dev).
Proof.
  apply emits_quiet. intros w. unfold deref.
  destruct dev as [p|]; [destruct (ni_dhcp_active w !! p)|]; reflexivity.
Qed.

Lemma emits_assign P dev f : emits P (assign dev f).
Proof.
  apply emits_bind; [apply emits_deref|]. intros _.
  destruct dev; [|apply emits_ret]. apply emits_quiet. reflexivity.
Qed.

Lemma emits_call_on P p c f : P c -> emits P (call_on p c f).
Proof.
  intros Hc. apply emits_bind; [apply emits_do_call, Hc|].
  intros _. apply emits_quiet. reflexivity.
Qed.

Lemma emits_for_each {A} P (l : list A) body :
  (forall x, emits P (body x)) -> emits P (for_each l body).
Proof.
  intros Hb. induction l as [|x l IH]; simpl.
  - apply emits_ret.
  - apply emits_bind; auto.
Qed.

#[local] Hint Resolve emits_ret emits_do_call emits_do_log emits_deref emits_assign
  emits_call_on emits_for_each : emits.

Ltac emits_step :=
  first [ apply emits_bind; [|intros ?]
        | apply emits_ret | apply emits_do_log | apply emits_deref | apply emits_assign
        | apply emits_call_on | apply emits_do_call | apply emits_for_each; intros ?
        | apply emits_quiet; intros ?; reflexivity ].

(** A predicate on calls that is decided by a boolean test is discharged by
    computation. *)
Ltac emits_auto := repeat (emits_step; simpl; try solve [auto with emits]).

Section Emits.

Context {xml_node_t : Type} (E : externals xml_node_t).





End Emits.

(** ** The shutdown sequence *)

Lemma count_if_app {A} (f : A -> bool) l1 l2 :
  count_if f (l1 ++ l2) = (count_if f l1 + count_if f l2)%nat.
Proof. induction l1 as [|x l1 IH]; simpl; [reflexivity|]. rewrite IH. lia. Qed.

Section Shutdown.

Context {xml_node_t : Type} (E : externals xml_node_t).

Lemma holds_active_lease_iff d :
  holds_active_lease d = true <->
  (state d = NI_DHCP_STATE_REQUESTING \/ state d = NI_DHCP_STATE_RENEWING \/
   state d = NI_DHCP_STATE_REBINDING \/ state d = NI_DHCP_STATE_BOUND) /\ lease d <> None.
Proof.
  unfold holds_active_lease. destruct (state d), (lease d); split; intros H;
    try discriminate; try (repeat split; auto; fail); try congruence.
  all: destruct H as [[H|[H|[H|H]]] H']; congruence.
Qed.

Lemma shutdown_device_at pre d rest w :
  ni_dhcp_active w = pre ++ d :: rest ->
  shutdown_device E (length pre) w =
  Done tt {| ni_dhcp_active := pre ++ shutdown_leaves E d :: rest;
             calls := calls w ++ shutdown_asks_one (length pre) d;
             syslog := syslog w |}.
Proof.
  intros Hw. unfold shutdown_device, bind, deref.
  rewrite Hw, list_lookup_middle by reflexivity.
  assert (Hal : forall f x, alter f (length pre) (pre ++ x :: rest) = pre ++ f x :: rest).
  { intros f x. rewrite <- (Nat.add_0_r (length pre)), alter_app_r. reflexivity. }
  unfold shutdown_asks_one, shutdown_leaves, holds_active_lease.
  unfold ni_dhcp_device_stop, ni_dhcp_fsm_release, call_on, do_call, bind, ret.
  destruct (state d), (lease d); simpl; unfold with_active, with_call; simpl;
    rewrite ?Hw, ?Hal, ?Hal, <- ?app_assoc; reflexivity.
Qed.

Lemma shutdown_loop_from rest : forall pre w,
  ni_dhcp_active w = pre ++ rest ->
  for_each (seq (length pre) (length rest)) (shutdown_device E) w =
  Done tt {| ni_dhcp_active := pre ++ map (shutdown_leaves E) rest;
             calls := calls w ++ shutdown_asks (length pre) rest;
             syslog := syslog w |}.
Proof.
  induction rest as [|d rest IH]; intros pre w Hw; simpl.
  - unfold ret. rewrite <- Hw, app_nil_r. destruct w; reflexivity.
  - unfold bind. rewrite (shutdown_device_at pre d rest w Hw).
    specialize (IH (pre ++ [shutdown_leaves E d])).
    rewrite length_app, Nat.add_1_r in IH. rewrite IH.
    + simpl. rewrite <- !app_assoc. reflexivity.
    + simpl. rewrite <- app_assoc. reflexivity.
Qed.

(** The shutdown sequence always runs to [exit(0)]. *)
Lemma ni_dhcp_shutdown_runs w :
  ni_dhcp_shutdown E w =
  Done 0 {| ni_dhcp_active := map (shutdown_leaves E) (ni_dhcp_active w);
            calls := calls w ++ shutdown_asks 0 (ni_dhcp_active w) ++ [c_exit 0];
            syslog := syslog w |}.
Proof.
  pose proof (shutdown_loop_from (ni_dhcp_active w) [] w eq_refl) as H.
  simpl in H. unfold ni_dhcp_shutdown, bind. rewrite H.
  simpl. unfold with_call. simpl. rewrite <- app_assoc. reflexivity.
Qed.

Lemma shutdown_asks_below f p0 l :
  (forall p d, (p0 <= p)%nat -> count_if f (shutdown_asks_one p d) = 0%nat) ->
  count_if f (shutdown_asks p0 l) = 0%nat.
Proof.
  revert p0. induction l as [|d l IH]; intros p0 H; simpl; [reflexivity|].
  rewrite count_if_app, H by lia. rewrite IH; [reflexivity|].
  intros p d' Hp. apply H. lia.
Qed.

Lemma count_release_one p q d :
  count_if (is_release p) (shutdown_asks_one q d) =
  if Nat.eqb p q then (if holds_active_lease d then 1%nat else 0%nat) else 0%nat.
Proof.
  unfold shutdown_asks_one.
  destruct (holds_active_lease d); simpl; destruct (Nat.eqb p q); reflexivity.
Qed.

Lemma count_stop_one p q d :
  count_if (is_stop p) (shutdown_asks_one q d) = if Nat.eqb p q then 1%nat else 0%nat.
Proof.
  unfold shutdown_asks_one. rewrite count_if_app. simpl.
  destruct (holds_active_lease d); simpl; destruct (Nat.eqb p q); reflexivity.
Qed.

Lemma count_release_asks l : forall p0 i d,
  l !! i = Some d ->
  count_if (is_release (p0 + i)) (shutdown_asks p0 l) =
  if holds_active_lease d then 1%nat else 0%nat.
Proof.
  induction l as [|d0 l IH]; intros p0 i d Hl; [discriminate|].
  simpl. rewrite count_if_app, count_release_one. destruct i as [|i]; simpl in Hl.
  - injection Hl as ->. rewrite Nat.add_0_r, Nat.eqb_refl.
    rewrite shutdown_asks_below; [lia|].
    intros p d' Hp. rewrite count_release_one.
    destruct (Nat.eqb_spec p0 p); [lia|reflexivity].
  - destruct (Nat.eqb_spec (p0 + S i) p0); [lia|].
    replace (p0 + S i)%nat with (S p0 + i)%nat by lia.
    rewrite (IH (S p0) i d Hl). reflexivity.
Qed.

Lemma count_stop_asks l : forall p0 i d,
  l !! i = Some d ->
  count_if (is_stop (p0 + i)) (shutdown_asks p0 l) = 1%nat.
Proof.
  induction l as [|d0 l IH]; intros p0 i d Hl; [discriminate|].
  simpl. rewrite count_if_app, count_stop_one. destruct i as [|i]; simpl in Hl.
  - rewrite Nat.add_0_r, Nat.eqb_refl.
    rewrite shutdown_asks_below; [lia|].
    intros p d' Hp. rewrite count_stop_one.
    destruct (Nat.eqb_spec p0 p); [lia|reflexivity].
  - destruct (Nat.eqb_spec (p0 + S i) p0); [lia|].
    replace (p0 + S i)%nat with (S p0 + i)%nat by lia.
    rewrite (IH (S p0) i d Hl). reflexivity.
Qed.

End Shutdown.

(** C1.  On shutdown, for every device of the active-device list a lease
    release is requested exactly once when the device is in state
    REQUESTING, RENEWING, REBINDING or BOUND and holds a lease, and not at
    all otherwise; every device is asked to stop exactly once, whatever its
    state; the sequence ends in [exit(0)], and the run that has left the
    event loop ends with exit status 0. *)
Theorem shutdown_releases_held_leases_and_stops_all
    {xml_node_t : Type} (E : externals xml_node_t) (w : world) :
  exists asked w',
    ni_dhcp_shutdown E w = Done 0 w' /\
    calls w' = calls w ++ asked ++ [c_exit 0] /\
    (forall p d, ni_dhcp_active w !! p = Some d ->
       let active_lease :=
         (state d = NI_DHCP_STATE_REQUESTING \/ state d = NI_DHCP_STATE_RENEWING \/
          state d = NI_DHCP_STATE_REBINDING \/ state d = NI_DHCP_STATE_BOUND) /\
         lease d <> None in
       (active_lease -> count_if (is_release p) asked = 1%nat) /\
       (~ active_lease -> count_if (is_release p) asked = 0%nat) /\
       count_if (is_stop p) asked = 1%nat) /\
    (forall e sock s, pc s = at_shutdown -> now s = w ->
       pc (run_step E e sock s) = exited 0 /\ now (run_step E e sock s) = w').
Proof.
  eexists _, _. split; [apply ni_dhcp_shutdown_runs|].
  split; [reflexivity|]. split.
  - intros p d Hp active_lease.
    pose proof (count_release_asks (ni_dhcp_active w) 0 p d Hp) as Hr.
    pose proof (count_stop_asks (ni_dhcp_active w) 0 p d Hp) as Hs.
    simpl in Hr, Hs. rewrite Hr, Hs.
    pose proof (holds_active_lease_iff d) as Hiff. fold active_lease in Hiff.
    destruct (holds_active_lease d).
    + repeat split; auto. intros Hn. exfalso. apply Hn, Hiff. reflexivity.
    + repeat split; auto. intros Ha. apply Hiff in Ha. discriminate.
  - intros e sock s Hpc Hw. unfold run_step. rewrite Hpc, Hw, ni_dhcp_shutdown_runs.
    split; reflexivity.
Qed.

Lemma shutdown_releases_held_leases_and_stops_all_witness :
  exists asked,
    calls (after (ni_dhcp_shutdown Sample.E0
                    (Sample.world_of [Sample.eth0_bound; Sample.eth1_idle])))
      = asked ++ [c_exit 0] /\
    count_if (is_release 0) asked = 1%nat /\
    count_if (is_stop 0) asked = 1%nat /\
    count_if (is_release 1) asked = 0%nat /\
    count_if (is_stop 1) asked = 1%nat /\
    pc (run_step Sample.E0 Sample.no_entropy Sample.control
          (Sample.leaving (Sample.world_of [Sample.eth0_bound; Sample.eth1_idle])))
      = exited 0.
Proof.
  destruct (shutdown_releases_held_leases_and_stops_all Sample.E0
              (Sample.world_of [Sample.eth0_bound; Sample.eth1_idle]))
    as (asked & w' & Hrun & Hcalls & Hdev & Hexit).
  exists asked. rewrite Hrun. split; [exact Hcalls|].
  destruct (Hdev 0%nat Sample.eth0_bound eq_refl) as (H0 & _ & H0s).
  destruct (Hdev 1%nat Sample.eth1_idle eq_refl) as (_ & H1 & H1s).
  split; [apply H0; simpl; split; [tauto|discriminate]|].
  split; [exact H0s|].
  split; [apply H1; simpl; intros [[H|[H|[H|H]]] _]; discriminate|].
  split; [exact H1s|].
  exact (proj1 (Hexit Sample.no_entropy Sample.control (Sample.leaving _) eq_refl eq_refl)).
Defined.

(** ** The renderer and the query handler *)

Lemma find_dev_Some name l : forall p,
  find_dev name l = Some p -> exists d, l !! p = Some d /\ ifname d = name.
Proof.
  induction l as [|d0 l IH]; intros p H; simpl in H; [discriminate|].
  destruct (String.eqb_spec (ifname d0) name) as [Heq|Hne].
  - injection H as <-. exists d0. auto.
  - destruct (find_dev name l) as [q|]; [|discriminate].
    injection H as <-. apply (IH q eq_refl).
Qed.

Lemma find_dev_None name l :
  find_dev name l = None -> forall d, In d l -> ifname d <> name.
Proof.
  induction l as [|d0 l IH]; intros H d Hin; simpl in *; [contradiction|].
  destruct (String.eqb_spec (ifname d0) name) as [Heq|Hne]; [discriminate|].
  destruct (find_dev name l); [discriminate|].
  destruct Hin as [<-|Hin]; auto.
Qed.

Section Query.

Context {xml_node_t : Type} (E : externals xml_node_t).

Lemma dhcp_device_xml_runs w p d :
  ni_dhcp_active w !! p = Some d ->
  dhcp_device_xml E (Some p) w =
  Done (ext_xml_from_lease E (dhcp_device_xml_lease d))
       (with_call (c_xml_from_lease (dhcp_device_xml_lease d)) w).
Proof.
  intros H. unfold dhcp_device_xml, bind, deref. rewrite H. reflexivity.
Qed.

End Query.

(** C4.  The lease handed to the XML codec for a device has family IPv4,
    kind DHCP and status FAILED when the device is marked failed, whatever
    lease it holds; otherwise it is the lease the device holds, unchanged;
    otherwise it has status RELEASED, family IPv4 and kind DHCP.  The
    rendered document is what the codec makes of that lease. *)
Theorem dhcp_device_xml_policy
    {xml_node_t : Type} (E : externals xml_node_t) (w : world) (p : nat)
    (d : ni_dhcp_device_t) :
  ni_dhcp_active w !! p = Some d ->
  exists l,
    dhcp_device_xml E (Some p) w =
      Done (ext_xml_from_lease E l) (with_call (c_xml_from_lease l) w) /\
    (failed d = true ->
       lease_family l = AF_INET /\ lease_type l = NI_ADDRCONF_DHCP /\
       lease_state l = NI_ADDRCONF_STATE_FAILED) /\
    (failed d = false -> forall held, lease d = Some held -> l = held) /\
    (failed d = false -> lease d = None ->
       lease_family l = AF_INET /\ lease_type l = NI_ADDRCONF_DHCP /\
       lease_state l = NI_ADDRCONF_STATE_RELEASED).
Proof.
  intros Hd. exists (dhcp_device_xml_lease d).
  split; [apply dhcp_device_xml_runs, Hd|].
  unfold dhcp_device_xml_lease.
  destruct (failed d), (lease d); repeat split; intros; try discriminate; congruence.
Qed.

Lemma dhcp_device_xml_policy_witness :
  exists l,
    dhcp_device_xml Sample.E0 (Some 0%nat) (Sample.world_of [Sample.eth0_failed]) =
      Done (Some "<lease state=failed/>")
           (with_call (c_xml_from_lease l) (Sample.world_of [Sample.eth0_failed])) /\
    lease_state l = NI_ADDRCONF_STATE_FAILED /\ l <> Sample.granted.
Proof.
  destruct (dhcp_device_xml_policy Sample.E0 (Sample.world_of [Sample.eth0_failed]) 0 Sample.eth0_failed
              eq_refl) as (l & Hrun & Hfailed & _).
  destruct (Hfailed eq_refl) as (Hfam & Hty & Hst).
  exists l. split; [|split; [exact Hst|]].
  - rewrite Hrun. f_equal. simpl. unfold Sample.render. rewrite Hfam, Hst. reflexivity.
  - intros ->. discriminate Hst.
Defined.

(** C5.  [GET device/<name>] without a name fails with the message of an
    invalid input; for a name no device is registered under it fails with
    the message of a missing device; in both cases nothing at all changes.
    For a registered device the rendered status becomes the response body
    and the call succeeds; when the codec fails to render, the call fails
    with an error message and the response body is absent.  In every case
    the active-device list is left as it was. *)
Theorem dhcp_device_get_contract
    {xml_node_t : Type} (E : externals xml_node_t)
    (req : ni_wicked_request_t xml_node_t) (w : world) (name : string) :
  dhcp_device_get E None req w =
    Done (-1, werror req "need to specify interface" []) w /\
  (find_dev name (ni_dhcp_active w) = None ->
     dhcp_device_get E (Some name) req w =
       Done (-1, werror req "interface %s not known" [arg_s name]) w) /\
  (forall p, find_dev name (ni_dhcp_active w) = Some p ->
     exists d rv req' w',
       ni_dhcp_active w !! p = Some d /\ ifname d = name /\
       dhcp_device_get E (Some name) req w = Done (rv, req') w' /\
       ni_dhcp_active w' = ni_dhcp_active w /\
       calls w' = calls w ++ [c_xml_from_lease (dhcp_device_xml_lease d)] /\
       xml_out req' = ext_xml_from_lease E (dhcp_device_xml_lease d) /\
       (ext_xml_from_lease E (dhcp_device_xml_lease d) <> None ->
          rv = 0 /\ error_msg req' = error_msg req) /\
       (ext_xml_from_lease E (dhcp_device_xml_lease d) = None ->
          rv = -1 /\
          error_msg req' = Some ("cannot render interface information", []))).
Proof.
  split; [reflexivity|]. split.
  - intros Hnone. unfold dhcp_device_get, bind, ni_dhcp_device_find. rewrite Hnone.
    reflexivity.
  - intros p Hp. destruct (find_dev_Some _ _ _ Hp) as (d & Hd & Hname).
    exists d. unfold dhcp_device_get, bind, ni_dhcp_device_find. rewrite Hp.
    unfold dhcp_device_response, bind. rewrite (dhcp_device_xml_runs E w p d Hd).
    destruct (ext_xml_from_lease E (dhcp_device_xml_lease d)) as [doc|];
      eexists _, _, _; (split; [exact Hd|]); (split; [exact Hname|]);
      (split; [reflexivity|]); simpl; repeat split; congruence.
Qed.

Lemma dhcp_device_get_contract_witness :
  (* no device under that name *)
  dhcp_device_get Sample.E0 (Some "wlan0") Sample.no_request
    (Sample.world_of [Sample.eth0_bound; Sample.eth2_odd]) =
    Done (-1, werror Sample.no_request "interface %s not known" [arg_s "wlan0"])
         (Sample.world_of [Sample.eth0_bound; Sample.eth2_odd]) /\
  (* a device that renders *)
  (exists req' w',
     dhcp_device_get Sample.E0 (Some "eth0") Sample.no_request
       (Sample.world_of [Sample.eth0_bound; Sample.eth2_odd]) = Done (0, req') w' /\
     xml_out req' = Some "<lease state=granted/>" /\ error_msg req' = None) /\
  (* a device the codec cannot render *)
  (exists req' w',
     dhcp_device_get Sample.E0 (Some "eth2") Sample.no_request
       (Sample.world_of [Sample.eth0_bound; Sample.eth2_odd]) = Done (-1, req') w' /\
     xml_out req' = None /\
     error_msg req' = Some ("cannot render interface information", [])).
Proof.
  pose (w := Sample.world_of [Sample.eth0_bound; Sample.eth2_odd]).
  split; [exact (proj1 (proj2 (dhcp_device_get_contract Sample.E0 Sample.no_request w
                                 "wlan0")) eq_refl)|].
  split.
  - destruct (proj2 (proj2 (dhcp_device_get_contract Sample.E0 Sample.no_request w "eth0"))
                0%nat eq_refl)
      as (d & rv & req' & w' & Hd & _ & Hrun & _ & _ & Hout & Hok & _).
    injection Hd as <-.
    destruct (Hok ltac:(discriminate)) as (-> & Herr).
    exists req', w'. split; [exact Hrun|]. split; [exact Hout|exact Herr].
  - destruct (proj2 (proj2 (dhcp_device_get_contract Sample.E0 Sample.no_request w "eth2"))
                1%nat eq_refl)
      as (d & rv & req' & w' & Hd & _ & Hrun & _ & _ & Hout & _ & Hfail).
    injection Hd as <-.
    destruct (Hfail eq_refl) as (-> & Herr).
    exists req', w'. split; [exact Hrun|]. split; [exact Hout|exact Herr].
Defined.

(** ** The configuration handler *)

Lemma ni_interface_by_name_name cnih name ifp :
  ni_interface_by_name cnih name = Some ifp -> ifp_name ifp = name.
Proof.
  unfold ni_interface_by_name. intros H. apply find_some in H.
  destruct H as [_ H]. apply String.eqb_eq, H.
Qed.

Lemma alter_at_end {A} (f : A -> A) (l : list A) (x : A) :
  alter f (length l) (l ++ [x]) = l ++ [f x].
Proof. rewrite <- (Nat.add_0_r (length l)), alter_app_r. reflexivity. Qed.

Section Configure.

Context {xml_node_t : Type} (E : externals xml_node_t).

Lemma dhcp_interface_put_reaches req name ifp w :
  reaches E req name ifp ->
  dhcp_interface_put E (Some name) req w =
  match (let* dev := ni_dhcp_device_find (ifp_name ifp) in
         let* sel := put_select E ifp dev in
         run put_commit E (fst sel) (snd sel) then ret tt)
          (with_call c_xml_to_all (with_call c_dummy_open w)) with
  | Done _ w' => Done (0, req) (with_call c_close w')
  | Crash w' => Crash w'
  end.
Proof.
  intros (cnih0 & rc & cnih & Hopen & Hparse & Hrc & Hifp).
  unfold dhcp_interface_put, ni_dummy_open, put_with_handle, __ni_syntax_xml_to_all.
  unfold bind at 1 2. unfold do_call at 1. unfold ret at 1. rewrite Hopen.
  unfold bind at 1 2 3. unfold do_call at 1. unfold ret at 1. rewrite Hparse.
  destruct (Z.ltb_spec rc 0) as [?|_]; [lia|]. rewrite Hifp.
  unfold bind, ni_dhcp_device_find.
  destruct (put_select E ifp _ _) as [[dev reacquire] w1|w1]; [|reflexivity].
  simpl. destruct (put_commit E dev reacquire w1); reflexivity.
Qed.

(** Administratively down and a device is registered: the device is stopped
    and flagged for notification, nothing is released. *)
Lemma put_down_registered req name ifp w p :
  reaches E req name ifp ->
  Z.land (ifp_flags ifp) IFF_UP = 0 ->
  find_dev (ifp_name ifp) (ni_dhcp_active w) = Some p ->
  dhcp_interface_put E (Some name) req w =
  Done (0, req)
    {| ni_dhcp_active :=
         alter (set_notify true) p (alter (ext_device_stop E) p (ni_dhcp_active w));
       calls := calls w ++ [c_dummy_open; c_xml_to_all; c_device_stop (Some p); c_close];
       syslog := syslog w ++
         [{| log_lvl := lvl_debug; log_fmt := "%s: received request to release lease";
             log_args := [arg_s (ifp_name ifp)] |}] |}.
Proof.
  intros Hreach Hdown Hfind. rewrite (dhcp_interface_put_reaches _ _ _ _ Hreach).
  destruct (find_dev_Some _ _ _ Hfind) as (d & Hd & _).
  unfold bind, ni_dhcp_device_find, put_select. simpl. rewrite Hfind, Hdown. simpl.
  unfold bind, put_commit, assign, bind, deref. simpl.
  rewrite list_lookup_alter_eq, Hd. simpl.
  unfold with_call, with_active. simpl. rewrite <- !app_assoc. reflexivity.
Qed.

(** Administratively down and no device is registered: [dev] is null when
    [dev->notify = 1] is reached. *)
Lemma put_down_unregistered req name ifp w :
  reaches E req name ifp ->
  Z.land (ifp_flags ifp) IFF_UP = 0 ->
  find_dev (ifp_name ifp) (ni_dhcp_active w) = None ->
  dhcp_interface_put E (Some name) req w =
  Crash
    {| ni_dhcp_active := ni_dhcp_active w;
       calls := calls w ++ [c_dummy_open; c_xml_to_all; c_device_stop None];
       syslog := syslog w ++
         [{| log_lvl := lvl_debug; log_fmt := "%s: received request to release lease";
             log_args := [arg_s (ifp_name ifp)] |}] |}.
Proof.
  intros Hreach Hdown Hfind. rewrite (dhcp_interface_put_reaches _ _ _ _ Hreach).
  unfold bind, ni_dhcp_device_find, put_select. simpl. rewrite Hfind, Hdown. simpl.
  unfold with_call. simpl. rewrite <- !app_assoc. reflexivity.
Qed.

End Configure.

(** C2.  [PUT interface/<name>] with administrative-up unset: when a device
    is registered under the name it is stopped, no release is requested and
    the handler returns success; when no device is registered the handler
    does not return: it hands the null device to the stop request and then
    stores through the null pointer at [dev->notify = 1].  The DELETE
    handler, given the same name and registry, tests for the null device
    and returns success. *)
Theorem put_down_unregistered_does_not_return :
  let E := Sample.surroundings Sample.render [Sample.eth0_down] in
  (exists w',
     dhcp_interface_put E (Some "eth0") Sample.body_request (Sample.world_of []) = Crash w' /\
     calls w' = [c_dummy_open; c_xml_to_all; c_device_stop None]) /\
  dhcp_interface_delete E (Some "eth0") Sample.body_request (Sample.world_of []) =
    Done (0, Sample.body_request) (Sample.world_of []) /\
  (exists w',
     dhcp_interface_put E (Some "eth0") Sample.body_request
       (Sample.world_of [Sample.eth0_bound]) = Done (0, Sample.body_request) w' /\
     calls w' = [c_dummy_open; c_xml_to_all; c_device_stop (Some 0%nat); c_close] /\
     count_if is_any_release (calls w') = 0%nat).
Proof.
  cbv zeta. split; [|split].
  - eexists. split; reflexivity.
  - reflexivity.
  - eexists. split; [reflexivity|]. split; reflexivity.
Qed.

(** C3.  [PUT interface/<name>] with administrative-up set and no device
    registered under the name: the [if] statement leaves [dev] on a newly
    created record and [reacquire] set; exactly one device is created, from
    the name and link type of the configuration, the configuration is
    applied to it, acquisition is started exactly when the device then has
    a configuration attached, and the handler returns success. *)
Theorem put_up_creates_one_device
    {xml_node_t : Type} (E : externals xml_node_t)
    (req : ni_wicked_request_t xml_node_t) (name : string) (ifp : ni_interface_t)
    (w : world) :
  reaches E req name ifp ->
  Z.land (ifp_flags ifp) IFF_UP <> 0 ->
  find_dev name (ni_dhcp_active w) = None ->
  let n := length (ni_dhcp_active w) in
  let created :=
    fst (ext_device_reconfigure E (ext_device_new E name (ifp_type ifp)) ifp) in
  let started := match config created with Some _ => true | None => false end in
  ifp_name ifp = name /\
  (exists w1, put_select E ifp None w = Done (Some n, 1) w1) /\
  (exists w',
     dhcp_interface_put E (Some name) req w = Done (0, req) w' /\
     ni_dhcp_active w' =
       ni_dhcp_active w ++ [if started then ext_device_start E created else created] /\
     calls w' =
       calls w ++ [c_dummy_open; c_xml_to_all; c_device_new name (ifp_type ifp);
                   c_device_reconfigure n ifp]
               ++ (if started then [c_device_start n] else []) ++ [c_close]).
Proof.
  intros Hreach Hup Hfind n created started.
  assert (Hname : ifp_name ifp = name).
  { destruct Hreach as (? & ? & ? & _ & _ & _ & H).
    apply (ni_interface_by_name_name _ _ _ H). }
  assert (Hbit : (Z.land (ifp_flags ifp) IFF_UP =? 0) = false) by (apply Z.eqb_neq, Hup).
  assert (Hsel : forall w0, ni_dhcp_active w0 = ni_dhcp_active w ->
            put_select E ifp None w0 =
            Done (Some n, 1)
              {| ni_dhcp_active := ni_dhcp_active w ++ [created];
                 calls := calls w0 ++ [c_device_new name (ifp_type ifp);
                                       c_device_reconfigure n ifp];
                 syslog := syslog w0 ++
                   [{| log_lvl := lvl_debug;
                       log_fmt := "%s: received request to acquire lease";
                       log_args := [arg_s name] |}] |}).
  { intros w0 Hw0. unfold put_select. rewrite Hbit, Hname. simpl.
    unfold bind, ni_debug_dhcp, do_log, ni_dhcp_device_find. simpl.
    rewrite Hw0, Hfind.
    unfold ni_dhcp_device_new, ni_dhcp_device_reconfigure, call_on, bind, do_call, deref.
    simpl. rewrite Hw0. fold n.
    rewrite list_lookup_middle by reflexivity.
    unfold with_active, with_call, ret. simpl.
    rewrite Hw0. unfold n. rewrite alter_at_end, <- app_assoc. reflexivity. }
  split; [exact Hname|]. split; [eexists; apply Hsel; reflexivity|].
  rewrite (dhcp_interface_put_reaches E _ _ _ _ Hreach).
  unfold bind at 1. unfold ni_dhcp_device_find at 1. rewrite Hname. simpl.
  rewrite Hfind. unfold bind at 1. rewrite Hsel by reflexivity. simpl.
  unfold put_commit, bind, deref. simpl.
  rewrite list_lookup_middle by reflexivity. fold created. unfold started.
  destruct (config created); simpl.
  - unfold ni_dhcp_device_start, call_on, bind, do_call, with_call, with_active. simpl.
    eexists. split; [reflexivity|]. simpl. unfold n.
    rewrite alter_at_end, <- !app_assoc. split; reflexivity.
  - eexists. split; [reflexivity|]. simpl. rewrite <- !app_assoc. split; reflexivity.
Qed.

Lemma put_up_creates_one_device_witness :
  let E := Sample.surroundings Sample.render [Sample.eth0_up] in
  exists w',
    dhcp_interface_put E (Some "eth0") Sample.body_request
      (Sample.world_of [Sample.eth1_idle]) = Done (0, Sample.body_request) w' /\
    map ifname (ni_dhcp_active w') = ["eth1"; "eth0"] /\
    calls w' = [c_dummy_open; c_xml_to_all; c_device_new "eth0" 1;
                c_device_reconfigure 1 Sample.eth0_up; c_device_start 1; c_close].
Proof.
  intros E.
  assert (Hreach : reaches E Sample.body_request "eth0" Sample.eth0_up).
  { exists [], 0, [Sample.eth0_up]. repeat split; reflexivity || lia. }
  destruct (put_up_creates_one_device E Sample.body_request "eth0" Sample.eth0_up
              (Sample.world_of [Sample.eth1_idle]) Hreach ltac:(discriminate) eq_refl)
    as (_ & _ & w' & Hrun & Hactive & Hcalls).
  exists w'. split; [exact Hrun|]. rewrite Hactive, Hcalls. split; reflexivity.
Defined.

(** ** The teardown handler *)

Lemma find_dev_alter name (f : ni_dhcp_device_t -> ni_dhcp_device_t) l :
  (forall d, ifname (f d) = ifname d) ->
  forall p, find_dev name (alter f p l) = find_dev name l.
Proof.
  intros Hf. induction l as [|d l IH]; intros [|p]; try reflexivity.
  - simpl. rewrite Hf. reflexivity.
  - change (alter f (S p) (d :: l)) with (d :: alter f p l).
    simpl. rewrite IH. reflexivity.
Qed.

Lemma dhcp_interface_delete_runs {xml_node_t : Type} (E : externals xml_node_t)
    (req : ni_wicked_request_t xml_node_t) (name : string) (w : world) :
  dhcp_interface_delete E (Some name) req w =
  Done (0, req)
    match find_dev name (ni_dhcp_active w) with
    | Some p => with_active (alter (ext_device_stop E) p) (with_call (c_device_stop (Some p)) w)
    | None => w
    end.
Proof.
  unfold dhcp_interface_delete, bind, ni_dhcp_device_find.
  destruct (find_dev name (ni_dhcp_active w)); reflexivity.
Qed.






(** ** The notifier *)

Lemma substring_all s : forall n, (String.length s <= n)%nat -> substring 0 n s = s.
Proof.
  induction s as [|c s IH]; intros [|n] H; simpl in *; try reflexivity; try lia.
  rewrite IH by lia. reflexivity.
Qed.

Lemma substring_length s : forall n,
  String.length (substring 0 n s) = Nat.min n (String.length s).
Proof.
  induction s as [|c s IH]; intros [|n]; simpl; try reflexivity.
  rewrite IH. reflexivity.
Qed.

Lemma fclose_fits fp : strlen (f_out fp) < f_size fp -> fclose fp = f_out fp.
Proof. unfold strlen, fclose. intros H. apply substring_all. lia. Qed.

Lemma fclose_bounded fp : 0 < f_size fp -> strlen (fclose fp) < f_size fp.
Proof. unfold strlen, fclose. intros H. rewrite substring_length. lia. Qed.

Lemma ni_dhcp_send_device_event_runs {xml_node_t : Type} (E : externals xml_node_t)
    (sock : ni_socket_t) (w : world) (p : nat) (d : ni_dhcp_device_t) (doc : xml_node_t) :
  ni_dhcp_active w !! p = Some d ->
  ext_xml_from_lease E (dhcp_device_xml_lease d) = Some doc ->
  ni_dhcp_send_device_event E sock (Some p) w =
  Done tt
    {| ni_dhcp_active := ni_dhcp_active w;
       calls := calls w ++
         [c_xml_from_lease (dhcp_device_xml_lease d);
          c_write (__fd sock)
            (fclose {| f_size := sizeof_event; f_out := event_text E (ifname d) doc |})];
       syslog := syslog w ++
         [{| log_lvl := lvl_debug; log_fmt := "sending device event for %s";
             log_args := [arg_s (ifname d)] |}] |}.
Proof.
  intros Hd Hdoc. unfold ni_dhcp_send_device_event.
  unfold bind at 1. unfold deref at 1. rewrite Hd.
  unfold bind at 1. unfold ni_debug_dhcp, do_log.
  unfold bind at 1. rewrite dhcp_device_xml_runs with (d := d) by exact Hd.
  rewrite Hdoc. unfold do_call, with_call, with_log, fputs, fmemopen, event_text.
  cbn [ni_dhcp_active calls syslog f_size f_out String.append].
  rewrite <- app_assoc. reflexivity.
Qed.

(** C7, as the code has it.  For a device whose status renders, the notifier
    makes one write to the control socket.  When the line
    [POST /system/event/<ifname>], the blank line and the printed document
    together are shorter than the 65536-byte buffer, exactly that text is
    written; when they are not, the text is cut to its first 65535
    characters and written all the same.  What is written is always shorter
    than the buffer. *)
Theorem device_event_message
    {xml_node_t : Type} (E : externals xml_node_t) (sock : ni_socket_t)
    (w : world) (p : nat) (d : ni_dhcp_device_t) (doc : xml_node_t) :
  ni_dhcp_active w !! p = Some d ->
  ext_xml_from_lease E (dhcp_device_xml_lease d) = Some doc ->
  let message :=
    String.append
      (String.append (String.append "POST /system/event/" (ifname d)) (String.append LF LF))
      (ext_xml_node_print E doc) in
  exists sent w',
    ni_dhcp_send_device_event E sock (Some p) w = Done tt w' /\
    ni_dhcp_active w' = ni_dhcp_active w /\
    calls w' = calls w ++ [c_xml_from_lease (dhcp_device_xml_lease d);
                           c_write (__fd sock) sent] /\
    (strlen message < sizeof_event -> sent = message) /\
    (sizeof_event <= strlen message ->
       sent = substring 0 (Z.to_nat (sizeof_event - 1)) message) /\
    strlen sent < sizeof_event.
Proof.
  intros Hd Hdoc message. eexists _, _.
  split; [apply (ni_dhcp_send_device_event_runs E sock w p d doc Hd Hdoc)|].
  split; [reflexivity|]. split; [reflexivity|].
  split; [|split].
  - intros Hfit. apply fclose_fits. exact Hfit.
  - intros _. reflexivity.
  - apply fclose_bounded. reflexivity.
Qed.

Lemma device_event_message_witness :
  (exists w',
     ni_dhcp_send_device_event Sample.E0 Sample.control (Some 0%nat)
       (Sample.world_of [Sample.eth0_bound]) = Done tt w' /\
     calls w' =
       [c_xml_from_lease Sample.granted;
        c_write 4 (String.append "POST /system/event/eth0"
                     (String.append LF (String.append LF "<lease state=granted/>")))]) /\
  (exists sent w',
     ni_dhcp_send_device_event (Sample.surroundings (fun _ => Some Sample.big_document) [])
       Sample.control (Some 0%nat) (Sample.world_of [Sample.eth0_bound]) = Done tt w' /\
     calls w' = [c_xml_from_lease Sample.granted; c_write 4 sent] /\
     sent = substring 0 (Z.to_nat 65535)
              (String.append "POST /system/event/eth0"
                 (String.append LF (String.append LF Sample.big_document)))).
Proof.
  split.
  - destruct (device_event_message Sample.E0 Sample.control
                (Sample.world_of [Sample.eth0_bound]) 0 Sample.eth0_bound
                "<lease state=granted/>" eq_refl eq_refl)
      as (sent & w' & Hrun & _ & Hcalls & Hfit & _ & _).
    exists w'. split; [exact Hrun|]. rewrite Hcalls, Hfit; [reflexivity|].
    vm_compute. reflexivity.
  - destruct (device_event_message
                (Sample.surroundings (fun _ => Some Sample.big_document) [])
                Sample.control (Sample.world_of [Sample.eth0_bound]) 0 Sample.eth0_bound
                Sample.big_document eq_refl eq_refl)
      as (sent & w' & Hrun & _ & Hcalls & _ & Hcut & _).
    exists sent, w'. split; [exact Hrun|]. split; [exact Hcalls|].
    apply Hcut. vm_compute. discriminate.
Defined.

(** C7, as stated, fails for a document that fills the buffer: the device
    renders, yet what is written is not the line, the blank line and the
    document, but a text 65535 characters long, 26 characters short. *)
Lemma oversized_event_is_cut :
  let E := Sample.surroundings (fun _ => Some Sample.big_document) [] in
  let message :=
    String.append
      (String.append (String.append "POST /system/event/" "eth0") (String.append LF LF))
      Sample.big_document in
  exists sent w',
    ni_dhcp_send_device_event E Sample.control (Some 0%nat)
      (Sample.world_of [Sample.eth0_bound]) = Done tt w' /\
    calls w' = [c_xml_from_lease Sample.granted; c_write 4 sent] /\
    strlen message = 65561 /\
    strlen sent = 65535 /\
    sent <> message.
Proof.
  intros E message.
  pose proof (ni_dhcp_send_device_event_runs E Sample.control
                (Sample.world_of [Sample.eth0_bound]) 0 Sample.eth0_bound
                Sample.big_document eq_refl eq_refl) as Hrun.
  eexists _, _. split; [exact Hrun|]. split; [reflexivity|].
  assert (Hm : strlen message = 65561) by (vm_compute; reflexivity).
  assert (Hs : strlen (fclose {| f_size := sizeof_event;
                                 f_out := event_text E (ifname Sample.eth0_bound)
                                            Sample.big_document |}) = 65535)
    by (vm_compute; reflexivity).
  split; [exact Hm|]. split; [exact Hs|].
  intros Heq. rewrite Heq, Hm in Hs. discriminate Hs.
Qed.

(** ** The event loop *)

Lemma find_changed_Some l : forall p,
  find_changed l = Some p -> exists d, l !! p = Some d /\ notify d = true.
Proof.
  induction l as [|d0 l IH]; intros p H; simpl in H; [discriminate|].
  destruct (notify d0) eqn:Hn.
  - injection H as <-. exists d0. auto.
  - destruct (find_changed l) as [q|]; [|discriminate].
    injection H as <-. apply (IH q eq_refl).
Qed.

Lemma find_changed_clears l : forall p,
  find_changed l = Some p ->
  S (count_if notify (alter (set_notify false) p l)) = count_if notify l.
Proof.
  induction l as [|d0 l IH]; intros p H; simpl in H; [discriminate|].
  destruct (notify d0) eqn:Hn.
  - injection H as <-. simpl. rewrite Hn. reflexivity.
  - destruct (find_changed l) as [q|]; [|discriminate].
    injection H as <-.
    change (alter (set_notify false) (S q) (d0 :: l))
      with (d0 :: alter (set_notify false) q l).
    simpl. rewrite Hn. simpl. apply (IH q eq_refl).
Qed.

Lemma count_if_le_length {A} (f : A -> bool) l : (count_if f l <= length l)%nat.
Proof. induction l as [|x l IH]; simpl; [lia|]. destruct (f x); lia. Qed.

Section Loop.

Context {xml_node_t : Type} (E : externals xml_node_t) (e : sys_env) (sock : ni_socket_t).

Lemma ni_dhcp_send_device_event_done w p d :
  ni_dhcp_active w !! p = Some d ->
  exists w', ni_dhcp_send_device_event E sock (Some p) w = Done tt w' /\
             ni_dhcp_active w' = ni_dhcp_active w.
Proof.
  intros Hd. destruct (ext_xml_from_lease E (dhcp_device_xml_lease d)) as [doc|] eqn:Hdoc.
  - rewrite (ni_dhcp_send_device_event_runs E sock w p d doc Hd Hdoc).
    eexists. split; reflexivity.
  - unfold ni_dhcp_send_device_event.
    unfold bind at 1. unfold deref at 1. rewrite Hd.
    unfold bind at 1. unfold ni_debug_dhcp, do_log.
    unfold bind at 1. rewrite dhcp_device_xml_runs with (d := d) by exact Hd.
    rewrite Hdoc. eexists. split; reflexivity.
Qed.

(** The drain loop ends, and with enough fuel it ends because no device is
    flagged any more. *)
Lemma drain_changed_done fuel : forall w,
  exists w', drain_changed E sock fuel w = Done tt w' /\
             ((count_if notify (ni_dhcp_active w) < fuel)%nat ->
              find_changed (ni_dhcp_active w') = None).
Proof.
  induction fuel as [|fuel IH]; intros w; simpl.
  - eexists. split; [reflexivity|]. lia.
  - unfold bind at 1. unfold ni_dhcp_device_get_changed, bind, do_call. simpl.
    destruct (find_changed (ni_dhcp_active w)) as [p|] eqn:Hfind.
    + destruct (find_changed_Some _ _ Hfind) as (d & Hd & _).
      pose proof (find_changed_clears _ _ Hfind) as Hcount.
      set (w1 := with_active (alter (set_notify false) p) (with_call c_device_get_changed w)).
      assert (Hd1 : ni_dhcp_active w1 !! p = Some (set_notify false d)).
      { unfold w1. simpl. rewrite list_lookup_alter_eq, Hd. reflexivity. }
      destruct (ni_dhcp_send_device_event_done w1 p _ Hd1) as (w2 & Hsend & Hsame).
      rewrite Hsend. destruct (IH w2) as (w3 & Hrun & Hnone).
      exists w3. split; [exact Hrun|]. intros Hlt. apply Hnone.
      rewrite Hsame. unfold w1. simpl. lia.
    + eexists. split; [reflexivity|]. intros _. exact Hfind.
Qed.

Lemma drain_step_complete w :
  exists w', drain_changed E sock (S (length (ni_dhcp_active w))) w = Done tt w' /\
             find_changed (ni_dhcp_active w') = None.
Proof.
  destruct (drain_changed_done (S (length (ni_dhcp_active w))) w) as (w' & Hrun & Hnone).
  exists w'. split; [exact Hrun|]. apply Hnone.
  pose proof (count_if_le_length notify (ni_dhcp_active w)). lia.
Qed.

Lemma ni_dhcp_startup_runs w :
  exists w', ni_dhcp_startup e w = Done tt w' /\
    calls w' = calls w ++ [c_srandom (srandom_seed e); c_sigaction 15; c_sigaction 2;
                           c_socket_activate].
Proof.
  unfold ni_dhcp_startup, ni_srandom, bind.
  destruct (0 <=? open_urandom e); simpl; eexists; (split; [reflexivity|]);
    simpl; rewrite <- !app_assoc; reflexivity.
Qed.

End Loop.

(** *** The socket wait *)

Section Waiting.

Context {xml_node_t : Type} (E : externals xml_node_t).

Lemma as_callback_calls {A} (m : dhcpM A) w :
  calls (after (fst (as_callback m w))) = calls w.
Proof. unfold as_callback. destruct (m _); reflexivity. Qed.

Lemma as_callback_inside {A} (m : dhcpM A) w :
  snd (as_callback m w) = calls (after (m (with_calls [] w))).
Proof. unfold as_callback. destruct (m _); reflexivity. Qed.

(** Of its own, the wait adds one call to the trace of its caller. *)
Lemma ni_socket_wait_calls data_ready pending t w :
  calls (after (fst (ni_socket_wait E data_ready pending t w))) = calls w ++ [c_socket_wait t].
Proof.
  unfold ni_socket_wait. destruct (_ <? 0); [reflexivity|].
  destruct pending as [m|]; [|reflexivity].
  pose proof (as_callback_calls (data_ready m)
                (with_active (fun l => snd (ext_socket_wait E t l))
                   (with_call (c_socket_wait t) w))) as H.
  destruct (as_callback _ _) as [[[] w2|w2] inside]; exact H.
Qed.

Lemma emits_wait (P : call -> Prop) data_ready pending t :
  P (c_socket_wait t) ->
  emits P (fun w => fst (ni_socket_wait E data_ready pending t w)).
Proof.
  intros HP w. exists [c_socket_wait t]. split; [repeat constructor; exact HP|].
  apply ni_socket_wait_calls.
Qed.

End Waiting.

(** *** The order of events in a run *)

Lemma steps_of_step l k m :
  is_step (k, m) = true -> steps_of (l ++ [(k, m)]) = steps_of l ++ [(k, m)].
Proof. intros H. unfold steps_of. rewrite List.filter_app. simpl. rewrite H. reflexivity. Qed.

Lemma steps_of_signal l k sig : steps_of (l ++ [(k, m_signal sig)]) = steps_of l.
Proof. unfold steps_of. rewrite List.filter_app. simpl. apply app_nil_r. Qed.

Lemma prefix_marks_S k : prefix_marks (S k) = prefix_marks k ++ full_pass k.
Proof.
  unfold prefix_marks. rewrite seq_S, flat_map_app. reflexivity.
Qed.

Lemma shape_boot : shape boot.
Proof. split; reflexivity. Qed.

Section Order.

Context {xml_node_t : Type} (E : externals xml_node_t) (e : sys_env) (sock : ni_socket_t).

Ltac shape_next H flag' :=
  let flag := fresh "flag" in
  let Hflag := fresh "Hflag" in
  let Hsteps := fresh "Hsteps" in
  destruct H as (flag & Hflag & Hsteps);
  unfold shape; cbn [pc marks pass goto finish heard];
  rewrite steps_of_step by reflexivity; rewrite Hsteps;
  exists flag'; split; [try assumption; try lia|];
  cbn [pass_so_far]; rewrite <- ?app_assoc; try reflexivity.

Lemma shape_run_step s : shape s -> shape (run_step E e sock s).
Proof.
  intros H. unfold shape in H. unfold run_step. destruct (pc s) eqn:Hpc.
  - destruct (ni_dhcp_startup_runs e (now s)) as (w' & Hrun & _). rewrite Hrun.
    destruct H as (Hsteps & Hpass).
    unfold shape. cbn [pc marks pass goto finish].
    rewrite steps_of_step, Hsteps, Hpass by reflexivity.
    exists 1. split; [lia|reflexivity].
  - unfold ni_dhcp_fsm_get_timeout, bind, do_call. shape_next H 1.
  - cbv zeta. destruct (ni_socket_wait _ _ _ _ _) as [[rc w'|w'] inside]; cbn [fst snd];
      [destruct (_ <? 0)|]; shape_next H 1.
  - destruct (Z.eqb_spec (ni_dhcp_stop s) 0) as [Hz|Hnz]; cbn [negb].
    + rewrite Hz. shape_next H 1.
    + unfold ni_debug_dhcp, do_log. shape_next H (ni_dhcp_stop s).
  - unfold ni_dhcp_fsm_check_timeout, bind, do_call. shape_next H 1.
  - destruct (drain_step_complete E sock (now s)) as (w' & Hrun & _). rewrite Hrun.
    destruct H as (flag & Hflag & Hsteps).
    unfold shape. cbn [pc marks pass].
    rewrite steps_of_step, Hsteps, prefix_marks_S by reflexivity.
    exists 1. split; [lia|]. cbn [pass_so_far]. unfold full_pass.
    rewrite <- !app_assoc, app_nil_r. reflexivity.
  - rewrite ni_dhcp_shutdown_runs.
    destruct H as (flag & Hflag & Hsteps).
    unfold shape. cbn [pc marks pass goto].
    rewrite steps_of_step, Hsteps by reflexivity.
    split; [reflexivity|]. exists flag. split; [assumption|].
    cbn [pass_so_far]. rewrite <- !app_assoc. reflexivity.
  - unfold shape. rewrite Hpc. exact H.
  - unfold shape. rewrite Hpc. exact H.
  - unfold shape. rewrite Hpc. exact H.
  - unfold shape. rewrite Hpc. exact H.
Qed.

Lemma shape_deliver sig s : shape s -> shape (deliver sig s).
Proof.
  intros H. unfold shape in H. unfold deliver.
  destruct (pc s) eqn:Hpc; unfold shape; cbn [pc marks pass];
    rewrite ?steps_of_signal, ?Hpc; exact H.
Qed.

Lemma shape_run sched : forall s, shape s -> shape (ni_dhcp_run E e sock sched s).
Proof.
  induction sched as [|a sched IH]; intros s H; simpl; [exact H|].
  apply IH. destruct a; [apply shape_run_step|apply shape_deliver]; exact H.
Qed.

Lemma drained_run_step s : shape s -> drained s -> drained (run_step E e sock s).
Proof.
  intros Hshape _. unfold shape in Hshape. unfold run_step, drained.
  destruct (pc s) eqn:Hpc.
  - destruct (ni_dhcp_startup_runs e (now s)) as (w' & Hrun & _). rewrite Hrun.
    cbn [pc pass finish goto]. intros _ Hpass. destruct Hshape as (_ & Hz). contradiction.
  - unfold ni_dhcp_fsm_get_timeout, bind, do_call. cbn [pc]. discriminate.
  - cbv zeta. destruct (ni_socket_wait _ _ _ _ _) as [[rc w'|w'] inside]; cbn [fst snd];
      [destruct (_ <? 0)|]; cbn [pc goto]; discriminate.
  - unfold ni_debug_dhcp, do_log. destruct (negb _); cbn [pc goto finish]; discriminate.
  - unfold ni_dhcp_fsm_check_timeout, bind, do_call. cbn [pc goto finish]. discriminate.
  - destruct (drain_step_complete E sock (now s)) as (w' & Hrun & Hnone). rewrite Hrun.
    cbn [pc now]. intros _ _. exact Hnone.
  - rewrite ni_dhcp_shutdown_runs. cbn [pc goto]. discriminate.
  - rewrite Hpc. discriminate.
  - rewrite Hpc. discriminate.
  - rewrite Hpc. discriminate.
  - rewrite Hpc. discriminate.
Qed.

Lemma drained_deliver sig s : drained s -> drained (deliver sig s).
Proof.
  intros H. unfold deliver, drained.
  destruct (pc s) eqn:Hpc; cbn [pc pass now]; rewrite ?Hpc; try discriminate.
  intros _. apply H, Hpc.
Qed.

Lemma drained_run sched : forall s,
  shape s -> drained s -> drained (ni_dhcp_run E e sock sched s).
Proof.
  induction sched as [|a sched IH]; intros s Hs Hd; simpl; [exact Hd|].
  apply IH; destruct a; simpl;
    auto using shape_run_step, shape_deliver, drained_run_step, drained_deliver.
Qed.

End Order.

Lemma count_if_steps_of (f : nat * mark -> bool) l :
  (forall x, f x = true -> is_step x = true) ->
  count_if f (steps_of l) = count_if f l.
Proof.
  intros Hf. induction l as [|x l IH]; simpl; [reflexivity|].
  destruct (is_step x) eqn:Hx; simpl; rewrite IH; [reflexivity|].
  destruct (f x) eqn:Hfx; [|reflexivity]. rewrite (Hf x Hfx) in Hx. discriminate.
Qed.

Lemma is_observation_step k x : is_observation k x = true -> is_step x = true.
Proof. destruct x as [j []]; simpl; intros H; try discriminate; reflexivity. Qed.

Lemma count_observation_prefix k n :
  count_if (is_observation k) (prefix_marks n) = if (k <? n)%nat then 1%nat else 0%nat.
Proof.
  induction n as [|n IH]; [reflexivity|].
  rewrite prefix_marks_S, count_if_app, IH. simpl.
  destruct (Nat.ltb_spec k n), (Nat.ltb_spec k (S n)), (Nat.eqb_spec k n); lia.
Qed.

Lemma count_observation_pass_so_far k c n flag :
  (count_if (is_observation k) (pass_so_far c n flag) <= 1)%nat /\
  (k <> n -> count_if (is_observation k) (pass_so_far c n flag) = 0%nat) /\
  (c = at_shutdown -> k = n -> count_if (is_observation k) (pass_so_far c n flag) = 1%nat).
Proof.
  destruct c; simpl; destruct (Nat.eqb_spec k n); repeat split; intros; try lia; congruence.
Qed.

Lemma in_prefix_marks j m n :
  In (j, m) (prefix_marks n) -> (j < n)%nat \/ m = m_startup.
Proof.
  unfold prefix_marks. intros [H|H]; [right; congruence|left].
  apply in_flat_map in H. destruct H as (i & Hi & Hin). apply in_seq in Hi.
  unfold full_pass in Hin. simpl in Hin.
  repeat (destruct Hin as [Hin|Hin]; [injection Hin as <- _; lia|]). contradiction.
Qed.

Lemma prefix_marks_done k n :
  (k < n)%nat -> In (k, m_fsm_check) (prefix_marks n) /\ In (k, m_drain) (prefix_marks n).
Proof.
  intros Hk. unfold prefix_marks.
  split; right; apply in_flat_map; exists k; (split; [apply in_seq; lia|]);
    unfold full_pass; simpl; auto 6.
Qed.

Lemma in_steps_of x l : In x (steps_of l) -> In x l.
Proof. unfold steps_of. intros H. apply List.filter_In in H. tauto. Qed.

Lemma steps_of_in x l : In x l -> is_step x = true -> In x (steps_of l).
Proof. unfold steps_of. intros H Hs. apply List.filter_In. tauto. Qed.

(** C8, as the code has it.  In every run the termination flag is read at
    most once in a pass of the event loop and exactly once in every pass
    that has been completed; every completed pass ran its timer sweep and
    its drain of changed devices, which left no device flagged.  Shutdown
    is entered only from the read of the flag, which comes after the socket
    wait and before the timer sweep: when it is entered, the pass under way
    has read the flag once, found it set, and has run neither its timer
    sweep nor its drain. *)
Theorem shutdown_only_at_the_flag_check
    {xml_node_t : Type} (E : externals xml_node_t) (e : sys_env) (sock : ni_socket_t)
    (sched : list action) :
  let s := ni_dhcp_run E e sock sched boot in
  (forall k, (count_if (is_observation k) (marks s) <= 1)%nat) /\
  (forall k, (k < pass s)%nat ->
     count_if (is_observation k) (marks s) = 1%nat /\
     In (k, m_fsm_check) (marks s) /\ In (k, m_drain) (marks s)) /\
  (pc s = at_get_timeout -> (0 < pass s)%nat ->
     find_changed (ni_dhcp_active (now s)) = None) /\
  (pc s = at_shutdown ->
     count_if (is_observation (pass s)) (marks s) = 1%nat /\
     ~ In (pass s, m_fsm_check) (marks s) /\ ~ In (pass s, m_drain) (marks s) /\
     exists flag, flag <> 0 /\
       steps_of (marks s) =
       prefix_marks (pass s) ++
       [(pass s, m_get_timeout); (pass s, m_wait); (pass s, m_observe_stop flag)]).
Proof.
  intros s. pose proof (shape_run E e sock sched boot shape_boot) as H. fold s in H.
  assert (Hdrained : drained s).
  { apply drained_run; [apply shape_boot|]. intros _ Hp. contradiction Hp. reflexivity. }
  assert (Hcases : (steps_of (marks s) = [] /\ pass s = 0%nat) \/
                   exists flag, flag <> 0 /\
                     steps_of (marks s) =
                     prefix_marks (pass s) ++ pass_so_far (pc s) (pass s) flag).
  { unfold shape in H. destruct (pc s); try (left; exact H); try (right; exact H).
    right. apply H. }
  clear H. split; [|split; [|split]].
  - intros k. rewrite <- (count_if_steps_of _ _ (is_observation_step k)).
    destruct Hcases as [[-> _]|(flag & _ & ->)]; [simpl; lia|].
    rewrite count_if_app, count_observation_prefix.
    destruct (count_observation_pass_so_far k (pc s) (pass s) flag) as (Hle & Hne & _).
    destruct (Nat.ltb_spec k (pass s)); [rewrite Hne by lia|]; lia.
  - intros k Hk. rewrite <- (count_if_steps_of _ _ (is_observation_step k)).
    destruct Hcases as [[_ Hz]|(flag & _ & Hsteps)]; [lia|].
    rewrite Hsteps, count_if_app, count_observation_prefix.
    destruct (count_observation_pass_so_far k (pc s) (pass s) flag) as (_ & Hne & _).
    destruct (Nat.ltb_spec k (pass s)); [|lia]. rewrite Hne by lia.
    destruct (prefix_marks_done k (pass s) Hk) as (Hsweep & Hdrain).
    split; [reflexivity|].
    split; apply in_steps_of; rewrite Hsteps; apply in_or_app; left; assumption.
  - intros Hpc Hpass. apply Hdrained; [exact Hpc|lia].
  - intros Hpc.
    destruct Hcases as [[Hnil _]|(flag & Hflag & Hsteps)].
    { exfalso. pose proof (shape_run E e sock sched boot shape_boot) as H. fold s in H.
      unfold shape in H. rewrite Hpc in H. destruct H as (f & _ & H').
      rewrite Hnil in H'. discriminate H'. }
    rewrite Hpc in Hsteps. cbn [pass_so_far] in Hsteps.
    assert (Hnot : forall m, m = m_fsm_check \/ m = m_drain -> ~ In (pass s, m) (marks s)).
    { intros m Hm Hin. apply steps_of_in in Hin; [|destruct Hm as [-> | ->]; reflexivity].
      rewrite Hsteps in Hin. apply in_app_or in Hin. destruct Hin as [Hin|Hin].
      - apply in_prefix_marks in Hin. destruct Hin as [Hlt| ->]; [lia|].
        destruct Hm; discriminate.
      - simpl in Hin. destruct Hm as [-> | ->];
          repeat (destruct Hin as [Hin|Hin]; [discriminate Hin|]); contradiction. }
    split; [|split; [apply Hnot; auto|split; [apply Hnot; auto|]]].
    + rewrite <- (count_if_steps_of _ _ (is_observation_step (pass s))).
      rewrite Hsteps, count_if_app, count_observation_prefix. simpl.
      rewrite Nat.ltb_irrefl, Nat.eqb_refl. reflexivity.
    + exists flag. split; assumption.
Qed.

Lemma shutdown_only_at_the_flag_check_witness :
  let s := ni_dhcp_run Sample.E0 Sample.no_entropy Sample.control
             Sample.signal_in_sweep boot in
  let s1 := ni_dhcp_run Sample.E0 Sample.no_entropy Sample.control
              Sample.one_pass boot in
  pc s = at_shutdown /\ pass s = 1%nat /\
  In (0%nat, m_signal 15) (marks s) /\
  count_if (is_observation 0) (marks s) = 1%nat /\
  In (0%nat, m_fsm_check) (marks s) /\ In (0%nat, m_drain) (marks s) /\
  count_if (is_observation 1) (marks s) = 1%nat /\
  ~ In (1%nat, m_fsm_check) (marks s) /\ ~ In (1%nat, m_drain) (marks s) /\
  find_changed (ni_dhcp_active (now s1)) = None.
Proof.
  intros s s1.
  destruct (shutdown_only_at_the_flag_check Sample.E0 Sample.no_entropy Sample.control
              Sample.signal_in_sweep) as (_ & Hdone & _ & Hleave).
  destruct (shutdown_only_at_the_flag_check Sample.E0 Sample.no_entropy Sample.control
              Sample.one_pass) as (_ & _ & Hdrained & _).
  fold s in Hdone, Hleave. fold s1 in Hdrained.
  assert (Hpc : pc s = at_shutdown) by (vm_compute; reflexivity).
  assert (Hpass : pass s = 1%nat) by (vm_compute; reflexivity).
  assert (Hpc1 : pc s1 = at_get_timeout) by (vm_compute; reflexivity).
  assert (Hpass1 : pass s1 = 1%nat) by (vm_compute; reflexivity).
  rewrite Hpass in Hdone, Hleave. rewrite Hpass1 in Hdrained.
  destruct (Hdone 0%nat (le_n 1)) as (Hobs & Hsweep & Hdrain).
  destruct (Hleave Hpc) as (Hobs1 & Hnosweep & Hnodrain & _).
  split; [exact Hpc|]. split; [exact Hpass|].
  split; [vm_compute; auto 10|].
  split; [exact Hobs|]. split; [exact Hsweep|]. split; [exact Hdrain|].
  split; [exact Hobs1|]. split; [exact Hnosweep|]. split; [exact Hnodrain|].
  exact (Hdrained Hpc1 (le_n 1)).
Defined.

(** C8, as stated, fails when the signal is recorded during the socket wait:
    the loop is left at the read of the flag that follows the wait, and the
    timer sweep and the drain of that pass are never run. *)
Lemma signal_in_wait_skips_the_sweep :
  let s := ni_dhcp_run Sample.E0 Sample.no_entropy Sample.control
             Sample.signal_in_wait boot in
  pc s = exited 0 /\
  marks s = [(0%nat, m_startup); (0%nat, m_get_timeout); (0%nat, m_signal 15);
             (0%nat, m_wait); (0%nat, m_observe_stop 15); (0%nat, m_shutdown)] /\
  ~ In (0%nat, m_fsm_check) (marks s) /\ ~ In (0%nat, m_drain) (marks s).
Proof.
  intros s.
  assert (Hmarks : marks s =
            [(0%nat, m_startup); (0%nat, m_get_timeout); (0%nat, m_signal 15);
             (0%nat, m_wait); (0%nat, m_observe_stop 15); (0%nat, m_shutdown)])
    by (vm_compute; reflexivity).
  split; [vm_compute; reflexivity|]. split; [exact Hmarks|].
  rewrite Hmarks. split; intros Hin; simpl in Hin;
    repeat (destruct Hin as [Hin|Hin]; [discriminate Hin|]); contradiction.
Qed.

(** *** The seed in a run *)


Section Seeding.

Context {xml_node_t : Type} (E : externals xml_node_t) (e : sys_env) (sock : ni_socket_t).









End Seeding.



(** C10.  When the entropy device opens and the read gives fewer than four
    bytes, the seed is put back to zero whatever the read left in it, and
    the generator is seeded with the time and process-id value, the same as
    when the device cannot be opened: [ni_srandom] makes the one call
    [srandom] with that value, which no word left by the short read
    changes, and differs from the run that could not open the device by
    the warning of that run alone. *)
Theorem short_read_falls_back (e e' : sys_env) :
  0 <= open_urandom e -> read_count e < 4 ->
  open_urandom e' < 0 ->
  tv_sec e' = tv_sec e -> tv_usec e' = tv_usec e -> pid e' = pid e ->
  entropy_seed e = 0 /\
  srandom_seed e = fallback_seed e /\
  srandom_seed e = srandom_seed e' /\
  (forall w, calls (after (ni_srandom e w)) = calls (after (ni_srandom e' w))) /\
  (forall w, ni_srandom e w = Done tt (with_call (c_srandom (fallback_seed e)) w)) /\
  (forall w, ni_srandom e' w =
     Done tt (with_call (c_srandom (fallback_seed e))
                (with_log {| log_lvl := lvl_warn;
                             log_fmt := "unable to open /dev/random: %m";
                             log_args := [] |} w))) /\
  (forall word w,
     ni_srandom {| open_urandom := open_urandom e; read_count := read_count e;
                   read_word := word; tv_sec := tv_sec e; tv_usec := tv_usec e;
                   pid := pid e |} w = ni_srandom e w).
Proof.
  intros Hopen Hshort Hfail Hsec Husec Hpid.
  assert (Hz : entropy_seed e = 0).
  { unfold entropy_seed. destruct (Z.leb_spec 0 (open_urandom e)); [|lia].
    destruct (Z.ltb_spec (read_count e) 4); [reflexivity|lia]. }
  assert (Hz' : entropy_seed e' = 0).
  { unfold entropy_seed. destruct (Z.leb_spec 0 (open_urandom e')); [lia|reflexivity]. }
  assert (Hfall : srandom_seed e = fallback_seed e) by apply srandom_seed_fallback, Hz.
  assert (Hsame : srandom_seed e = srandom_seed e').
  { rewrite Hfall, (srandom_seed_fallback e' Hz').
    unfold fallback_seed. rewrite Hsec, Husec, Hpid. reflexivity. }
  split; [exact Hz|]. split; [exact Hfall|].
  split; [exact Hsame|].
  split; [|split; [|split]].
  - intros w. unfold ni_srandom, bind. rewrite Hsame.
    destruct (0 <=? open_urandom e), (0 <=? open_urandom e'); reflexivity.
  - intros w. unfold ni_srandom, bind. rewrite Hfall.
    destruct (Z.leb_spec 0 (open_urandom e)); [reflexivity|lia].
  - intros w. unfold ni_srandom, bind. rewrite <- Hsame, Hfall.
    destruct (Z.leb_spec 0 (open_urandom e')); [lia|reflexivity].
  - intros word w. unfold ni_srandom, bind. cbn [open_urandom].
    rewrite Hfall.
    rewrite srandom_seed_fallback.
    + reflexivity.
    + unfold entropy_seed. cbn [open_urandom read_count].
      destruct (0 <=? open_urandom e); [|reflexivity].
      destruct (Z.ltb_spec (read_count e) 4); [reflexivity|lia].
Qed.

Lemma short_read_falls_back_witness :
  srandom_seed Sample.short_read = 1000172258 /\
  srandom_seed Sample.short_read = srandom_seed Sample.no_entropy /\
  ni_srandom Sample.short_read (Sample.world_of []) =
    Done tt (with_call (c_srandom 1000172258) (Sample.world_of [])).
Proof.
  destruct (short_read_falls_back Sample.short_read Sample.no_entropy
              ltac:(vm_compute; discriminate) ltac:(reflexivity) ltac:(reflexivity)
              eq_refl eq_refl eq_refl) as (_ & Hfall & Hsame & _ & Hrun & _).
  split; [rewrite Hfall; reflexivity|]. split; [exact Hsame|].
  rewrite Hrun. reflexivity.
Defined.

(** * Further properties of the handlers and the loop *)

(** ** Calls a handler can make *)

Lemma emits_weaken {A} (P Q : call -> Prop) (m : dhcpM A) :
  (forall c, P c -> Q c) -> emits P m -> emits Q m.
Proof.
  intros HPQ Hm w. destruct (Hm w) as (extra & HF & Hc).
  exists extra. split; [|exact Hc]. eapply Forall_impl; [exact HF|exact HPQ].
Qed.

Lemma emits_count {A} (f : call -> bool) (m : dhcpM A) w :
  emits (fun c => f c = false) m ->
  count_if f (calls (after (m w))) = count_if f (calls w).
Proof.
  intros Hm. destruct (Hm w) as (extra & HF & ->). rewrite count_if_app.
  assert (count_if f extra = 0%nat) as ->; [|lia].
  induction HF as [|c l Hc _ IH]; simpl; [reflexivity|]. rewrite Hc, IH. reflexivity.
Qed.

Section HandlerCalls.

Context {xml_node_t : Type} (E : externals xml_node_t) (P : call -> Prop).

Lemma emits_find name : emits P (ni_dhcp_device_find name).
Proof. apply emits_quiet. reflexivity. Qed.

Lemma emits_xml : (forall l, P (c_xml_from_lease l)) ->
  forall dev, emits P (dhcp_device_xml E dev).
Proof.
  intros HP dev. unfold dhcp_device_xml, ni_syntax_xml_from_lease. emits_auto.
Qed.

Lemma emits_get : (forall l, P (c_xml_from_lease l)) ->
  forall ifname req, emits P (dhcp_device_get E ifname req).
Proof.
  intros HP [name|] req; simpl; [|apply emits_ret].
  apply emits_bind; [apply emits_find|]. intros [p|]; [|apply emits_ret].
  unfold dhcp_device_response. apply emits_bind; [apply emits_xml, HP|].
  intros [x|]; apply emits_ret.
Qed.

Lemma emits_stop : (forall dev, P (c_device_stop dev)) ->
  forall dev, emits P (ni_dhcp_device_stop E dev).
Proof. intros HP [p|]; simpl; [apply emits_call_on|apply emits_do_call]; apply HP. Qed.

Lemma emits_delete : (forall dev, P (c_device_stop dev)) ->
  forall ifname req, emits P (dhcp_interface_delete E ifname req).
Proof.
  intros HP [name|] req; simpl; [|apply emits_ret].
  apply emits_bind; [apply emits_find|]. intros dev.
  apply emits_bind; [|intros _; apply emits_ret].
  destruct dev; [apply emits_stop, HP|apply emits_ret].
Qed.

Hypothesis P_stop : forall dev, P (c_device_stop dev).
Hypothesis P_new : forall name type, P (c_device_new name type).
Hypothesis P_reconfigure : forall p ifp, P (c_device_reconfigure p ifp).
Hypothesis P_start : forall p, P (c_device_start p).

Lemma emits_reconfigure p ifp : emits P (ni_dhcp_device_reconfigure E p ifp).
Proof. unfold ni_dhcp_device_reconfigure. emits_auto. Qed.

Lemma emits_put_select ifp dev : emits P (put_select E ifp dev).
Proof.
  unfold put_select. destruct (negb _).
  - apply emits_bind; [apply emits_do_log|]. intros _.
    apply emits_bind; [apply emits_find|]. intros [p|].
    + apply emits_bind; [apply emits_reconfigure|]. intros changed.
      apply emits_bind; [apply emits_deref|]. intros d. apply emits_ret.
    + apply emits_bind; [unfold ni_dhcp_device_new; emits_auto|]. intros p.
      apply emits_bind; [apply emits_reconfigure|]. intros _. apply emits_ret.
  - apply emits_bind; [apply emits_do_log|]. intros _.
    apply emits_bind; [apply emits_stop, P_stop|]. intros _. apply emits_ret.
Qed.

Lemma emits_put_commit dev reacquire : emits P (put_commit E dev reacquire).
Proof.
  unfold put_commit. destruct (reacquire =? 0); [apply emits_assign|].
  apply emits_bind; [apply emits_deref|]. intros d.
  destruct (config d), dev; try apply emits_ret.
  unfold ni_dhcp_device_start. apply emits_call_on, P_start.
Qed.

Lemma emits_put_with_handle : P c_xml_to_all ->
  forall cnih name req, emits P (put_with_handle E cnih name req).
Proof.
  intros HP cnih name req. unfold put_with_handle.
  apply emits_bind; [unfold __ni_syntax_xml_to_all; emits_auto|].
  intros [rc cnih']. destruct (rc <? 0); [apply emits_ret|].
  destruct (ni_interface_by_name cnih' name) as [ifp|]; [|apply emits_ret].
  apply emits_bind; [apply emits_find|]. intros dev.
  apply emits_bind; [apply emits_put_select|]. intros [dev' reacquire].
  apply emits_bind; [apply emits_put_commit|]. intros _. apply emits_ret.
Qed.

Lemma emits_put : P c_dummy_open -> P c_xml_to_all -> P c_close ->
  forall ifname req, emits P (dhcp_interface_put E ifname req).
Proof.
  intros Hopen Hparse Hclose [name|] req; simpl; [|apply emits_ret].
  apply emits_bind; [unfold ni_dummy_open; emits_auto|].
  intros [cnih|]; [|apply emits_ret].
  apply emits_bind; [apply emits_put_with_handle, Hparse|]. intros r.
  apply emits_bind; [apply emits_do_call, Hclose|]. intros _. apply emits_ret.
Qed.

End HandlerCalls.

(** ** The configuration handler, case by case *)

Lemma alter_lookup_insert {A} (f : A -> A) (l : list A) : forall p d,
  l !! p = Some d -> alter f p l = <[p := f d]> l.
Proof.
  induction l as [|x l IH]; intros [|p] d H; try discriminate.
  - injection H as ->. reflexivity.
  - change (alter f (S p) (x :: l)) with (x :: alter f p l).
    change (<[S p := f d]> (x :: l)) with (x :: <[p := f d]> l).
    f_equal. apply IH, H.
Qed.

Section ConfigureCases.

Context {xml_node_t : Type} (E : externals xml_node_t).

Lemma put_open_fails req name w :
  ext_dummy_open E = None ->
  dhcp_interface_put E (Some name) req w =
  Done (-1, werror req "unable to create netinfo dummy handle" []) (with_call c_dummy_open w).
Proof.
  intros H. unfold dhcp_interface_put, ni_dummy_open, bind, do_call, ret. rewrite H.
  reflexivity.
Qed.

Lemma put_parse_fails req name w cnih0 rc cnih :
  ext_dummy_open E = Some cnih0 ->
  ext_xml_to_all E cnih0 (xml_in req) = (rc, cnih) -> rc < 0 ->
  dhcp_interface_put E (Some name) req w =
  Done (-1, werror req "unable to parse interface configuration" [])
       (with_call c_close (with_call c_xml_to_all (with_call c_dummy_open w))).
Proof.
  intros Hopen Hparse Hrc.
  unfold dhcp_interface_put, ni_dummy_open, put_with_handle, __ni_syntax_xml_to_all,
    ni_close, bind, do_call, ret.
  rewrite Hopen, Hparse. destruct (Z.ltb_spec rc 0); [reflexivity|lia].
Qed.

Lemma put_no_config req name w cnih0 rc cnih :
  ext_dummy_open E = Some cnih0 ->
  ext_xml_to_all E cnih0 (xml_in req) = (rc, cnih) -> 0 <= rc ->
  ni_interface_by_name cnih name = None ->
  dhcp_interface_put E (Some name) req w =
  Done (-1, werror req "cannot find configuration for interface %s" [arg_s name])
       (with_call c_close (with_call c_xml_to_all (with_call c_dummy_open w))).
Proof.
  intros Hopen Hparse Hrc Hnone.
  unfold dhcp_interface_put, ni_dummy_open, put_with_handle, __ni_syntax_xml_to_all,
    ni_close, bind, do_call, ret.
  rewrite Hopen, Hparse. destruct (Z.ltb_spec rc 0); [lia|]. rewrite Hnone. reflexivity.
Qed.

(** How far a request with a name gets. *)
Lemma put_cases req name :
  ext_dummy_open E = None \/
  (exists cnih0 rc cnih,
     ext_dummy_open E = Some cnih0 /\ ext_xml_to_all E cnih0 (xml_in req) = (rc, cnih) /\
     (rc < 0 \/ (0 <= rc /\ ni_interface_by_name cnih name = None))) \/
  (exists ifp, reaches E req name ifp).
Proof.
  destruct (ext_dummy_open E) as [cnih0|] eqn:Hopen; [|left; reflexivity]. right.
  destruct (ext_xml_to_all E cnih0 (xml_in req)) as [rc cnih] eqn:Hparse.
  destruct (Z.lt_ge_cases rc 0) as [Hneg|Hpos].
  - left. exists cnih0, rc, cnih. auto.
  - destruct (ni_interface_by_name cnih name) as [ifp|] eqn:Hifp.
    + right. exists ifp, cnih0, rc, cnih. auto.
    + left. exists cnih0, rc, cnih. auto.
Qed.

Lemma reaches_unique req name ifp ifp' :
  reaches E req name ifp -> reaches E req name ifp' -> ifp = ifp'.
Proof.
  intros (c0 & rc & c & H1 & H2 & _ & H3) (c0' & rc' & c' & H1' & H2' & _ & H3').
  congruence.
Qed.

(** Administratively up and a device is registered. *)
Lemma put_up_registered req name ifp w p d :
  reaches E req name ifp ->
  Z.land (ifp_flags ifp) IFF_UP <> 0 ->
  find_dev (ifp_name ifp) (ni_dhcp_active w) = Some p ->
  ni_dhcp_active w !! p = Some d ->
  let d1 := fst (ext_device_reconfigure E d ifp) in
  let changed := snd (ext_device_reconfigure E d ifp) in
  let quiet := (changed =? 0) && is_bound (state d1) in
  let starts := negb quiet && match config d1 with Some _ => true | None => false end in
  dhcp_interface_put E (Some name) req w =
  Done (0, req)
    {| ni_dhcp_active :=
         <[p := if quiet then set_notify true d1
                else if starts then ext_device_start E d1 else d1]> (ni_dhcp_active w);
       calls := calls w ++ [c_dummy_open; c_xml_to_all; c_device_reconfigure p ifp]
                        ++ (if starts then [c_device_start p] else []) ++ [c_close];
       syslog := syslog w ++
         [{| log_lvl := lvl_debug; log_fmt := "%s: received request to acquire lease";
             log_args := [arg_s (ifp_name ifp)] |}] |}.
Proof.
  intros Hreach Hup Hfind Hd d1 changed quiet starts.
  assert (Hbit : (Z.land (ifp_flags ifp) IFF_UP =? 0) = false) by (apply Z.eqb_neq, Hup).
  rewrite (dhcp_interface_put_reaches E _ _ _ _ Hreach).
  assert (Hre : (match state d1 with
                 | NI_DHCP_STATE_BOUND => if negb (changed =? 0) then 1 else 0
                 | _ => 1
                 end =? 0) = quiet).
  { unfold quiet. destruct (state d1), (changed =? 0); reflexivity. }
  unfold put_select, put_commit, ni_dhcp_device_reconfigure, ni_dhcp_device_find,
    ni_dhcp_device_start, call_on, assign, ni_debug_dhcp, do_log, do_call, deref, bind, ret.
  rewrite Hbit.
  repeat (progress (rewrite ?Hfind, ?Hd, ?list_lookup_alter_eq; cbv beta;
                    cbn [negb ni_dhcp_active with_log with_call with_active calls syslog
                         fst snd fmap option_fmap option_map])).
  fold d1. fold changed. rewrite Hre.
  unfold starts. destruct quiet; cbn [negb andb].
  - repeat (progress (rewrite ?Hfind, ?Hd, ?list_lookup_alter_eq; cbv beta;
                      cbn [negb ni_dhcp_active with_log with_call with_active calls syslog
                           fst snd fmap option_fmap option_map])).
    unfold with_call, with_active, with_log. cbn [ni_dhcp_active calls syslog].
    rewrite list_alter_alter_eq, (alter_lookup_insert _ _ _ _ Hd).
    cbn [compose]. fold d1. rewrite <- !app_assoc. reflexivity.
  - repeat (progress (rewrite ?Hfind, ?Hd, ?list_lookup_alter_eq; cbv beta;
                      cbn [negb ni_dhcp_active with_log with_call with_active calls syslog
                           fst snd fmap option_fmap option_map])).
    fold d1. destruct (config d1); cbv beta;
      unfold with_call, with_active, with_log; cbn [ni_dhcp_active calls syslog].
    + rewrite list_alter_alter_eq, (alter_lookup_insert _ _ _ _ Hd).
      cbn [compose]. fold d1. rewrite <- !app_assoc. reflexivity.
    + rewrite (alter_lookup_insert _ _ _ _ Hd). fold d1.
      rewrite <- !app_assoc. reflexivity.
Qed.

(** Administratively up and no device is registered. *)
Lemma put_up_unregistered req name ifp w :
  reaches E req name ifp ->
  Z.land (ifp_flags ifp) IFF_UP <> 0 ->
  find_dev (ifp_name ifp) (ni_dhcp_active w) = None ->
  exists w',
    dhcp_interface_put E (Some name) req w = Done (0, req) w' /\
    length (ni_dhcp_active w') = S (length (ni_dhcp_active w)) /\
    syslog w' = syslog w ++
      [{| log_lvl := lvl_debug; log_fmt := "%s: received request to acquire lease";
          log_args := [arg_s (ifp_name ifp)] |}] /\
    exists d',
      ni_dhcp_active w' = ni_dhcp_active w ++ [d'] /\
      (d' = fst (ext_device_reconfigure E
                   (ext_device_new E (ifp_name ifp) (ifp_type ifp)) ifp) \/
       d' = ext_device_start E
              (fst (ext_device_reconfigure E
                      (ext_device_new E (ifp_name ifp) (ifp_type ifp)) ifp))).
Proof.
  intros Hreach Hup Hfind.
  assert (Hbit : (Z.land (ifp_flags ifp) IFF_UP =? 0) = false) by (apply Z.eqb_neq, Hup).
  rewrite (dhcp_interface_put_reaches E _ _ _ _ Hreach).
  unfold put_select, put_commit, ni_dhcp_device_reconfigure, ni_dhcp_device_find,
    ni_dhcp_device_new, ni_dhcp_device_start, call_on, assign, ni_debug_dhcp, do_log,
    do_call, deref, bind, ret.
  rewrite Hbit.
  repeat (progress (rewrite ?Hfind, ?list_lookup_alter_eq, ?list_lookup_middle by reflexivity;
                    cbv beta;
                    cbn [negb ni_dhcp_active with_log with_call with_active calls syslog
                         fst snd fmap option_fmap option_map Z.eqb])).
  destruct (config _);
    (eexists; split; [reflexivity|]);
    cbn [ni_dhcp_active with_log with_call with_active calls syslog];
    rewrite ?alter_at_end, ?alter_at_end, !length_app, Nat.add_1_r;
    (split; [reflexivity|]); (split; [reflexivity|]);
    eexists; (split; [reflexivity|]); auto.
Qed.

End ConfigureCases.

(** X1.  [PUT interface/<name>] with administrative-up set on a registered
    device creates no device and requests no release.  The configuration is
    applied; when it reports no change and the device is then BOUND, the
    device is only flagged for notification; otherwise acquisition is
    started when the device has a configuration attached, and nothing more
    is done when it has none. *)
Theorem put_up_on_registered_device
    {xml_node_t : Type} (E : externals xml_node_t)
    (req : ni_wicked_request_t xml_node_t) (name : string) (ifp : ni_interface_t)
    (w : world) (p : nat) (d : ni_dhcp_device_t) :
  reaches E req name ifp ->
  Z.land (ifp_flags ifp) IFF_UP <> 0 ->
  find_dev name (ni_dhcp_active w) = Some p ->
  ni_dhcp_active w !! p = Some d ->
  let d1 := fst (ext_device_reconfigure E d ifp) in
  let changed := snd (ext_device_reconfigure E d ifp) in
  exists w',
    dhcp_interface_put E (Some name) req w = Done (0, req) w' /\
    length (ni_dhcp_active w') = length (ni_dhcp_active w) /\
    (changed = 0 -> state d1 = NI_DHCP_STATE_BOUND ->
       ni_dhcp_active w' = <[p := set_notify true d1]> (ni_dhcp_active w) /\
       calls w' = calls w ++ [c_dummy_open; c_xml_to_all; c_device_reconfigure p ifp;
                              c_close]) /\
    (changed <> 0 \/ state d1 <> NI_DHCP_STATE_BOUND -> config d1 <> None ->
       ni_dhcp_active w' = <[p := ext_device_start E d1]> (ni_dhcp_active w) /\
       calls w' = calls w ++ [c_dummy_open; c_xml_to_all; c_device_reconfigure p ifp;
                              c_device_start p; c_close]) /\
    (changed <> 0 \/ state d1 <> NI_DHCP_STATE_BOUND -> config d1 = None ->
       ni_dhcp_active w' = <[p := d1]> (ni_dhcp_active w) /\
       calls w' = calls w ++ [c_dummy_open; c_xml_to_all; c_device_reconfigure p ifp;
                              c_close]).
Proof.
  intros Hreach Hup Hfind Hd d1 changed.
  assert (Hname : ifp_name ifp = name).
  { destruct Hreach as (? & ? & ? & _ & _ & _ & H).
    apply (ni_interface_by_name_name _ _ _ H). }
  rewrite <- Hname in Hfind.
  pose proof (put_up_registered E req name ifp w p d Hreach Hup Hfind Hd) as Hrun.
  cbv zeta in Hrun. fold d1 in Hrun. fold changed in Hrun.
  eexists. split; [exact Hrun|]. cbn [ni_dhcp_active calls].
  split; [apply length_insert|].
  assert (Hq : (changed =? 0) && is_bound (state d1) = true <->
               changed = 0 /\ state d1 = NI_DHCP_STATE_BOUND).
  { rewrite andb_true_iff, Z.eqb_eq. unfold is_bound.
    destruct (state d1); split; intros [? ?]; split; congruence. }
  destruct ((changed =? 0) && is_bound (state d1)) eqn:Hquiet; cbn [negb andb].
  - destruct (proj1 Hq eq_refl) as (Hc & Hb). split; [|split].
    + intros _ _. split; reflexivity.
    + intros [Hne|Hne]; contradiction.
    + intros [Hne|Hne]; contradiction.
  - split; [|split].
    + intros Hc Hb. discriminate (proj2 Hq (conj Hc Hb)).
    + intros _ Hcfg. destruct (config d1); [|contradiction]. split; reflexivity.
    + intros _ Hcfg. rewrite Hcfg. split; reflexivity.
Qed.

Lemma put_up_on_registered_device_witness :
  (exists w',
     dhcp_interface_put Traffic.E_up (Some "eth0") Sample.body_request
       (Sample.world_of [Sample.eth0_bound]) = Done (0, Sample.body_request) w' /\
     map notify (ni_dhcp_active w') = [true] /\
     calls w' = [c_dummy_open; c_xml_to_all; c_device_reconfigure 0 Sample.eth0_up; c_close]) /\
  (exists w',
     dhcp_interface_put Traffic.E_up (Some "eth0") Sample.body_request
       (Sample.world_of [Traffic.eth0_requesting]) = Done (0, Sample.body_request) w' /\
     map notify (ni_dhcp_active w') = [false] /\
     calls w' = [c_dummy_open; c_xml_to_all; c_device_reconfigure 0 Sample.eth0_up;
                 c_device_start 0; c_close]).
Proof.
  assert (Hreach : reaches Traffic.E_up Sample.body_request "eth0" Sample.eth0_up).
  { exists [], 0, [Sample.eth0_up]. repeat split; reflexivity || lia. }
  split.
  - destruct (put_up_on_registered_device Traffic.E_up Sample.body_request "eth0"
                Sample.eth0_up (Sample.world_of [Sample.eth0_bound]) 0 Sample.eth0_bound
                Hreach ltac:(discriminate) eq_refl eq_refl)
      as (w' & Hrun & _ & Hquiet & _ & _).
    destruct (Hquiet eq_refl eq_refl) as (Hactive & Hcalls).
    exists w'. split; [exact Hrun|]. rewrite Hactive, Hcalls. split; reflexivity.
  - destruct (put_up_on_registered_device Traffic.E_up Sample.body_request "eth0"
                Sample.eth0_up (Sample.world_of [Traffic.eth0_requesting]) 0
                Traffic.eth0_requesting Hreach ltac:(discriminate) eq_refl eq_refl)
      as (w' & Hrun & _ & _ & Hstart & _).
    destruct (Hstart ltac:(right; discriminate) ltac:(discriminate)) as (Hactive & Hcalls).
    exists w'. split; [exact Hrun|]. rewrite Hactive, Hcalls. split; reflexivity.
Defined.

Lemma put_crash_inv {xml_node_t : Type} (E : externals xml_node_t)
    (ifname : option string) (req : ni_wicked_request_t xml_node_t) (w w' : world) :
  dhcp_interface_put E ifname req w = Crash w' ->
  (exists name ifp,
     ifname = Some name /\ reaches E req name ifp /\
     Z.land (ifp_flags ifp) IFF_UP = 0 /\
     find_dev name (ni_dhcp_active w) = None) /\
  calls w' = calls w ++ [c_dummy_open; c_xml_to_all; c_device_stop None].
Proof.
  intros Hcrash. destruct ifname as [name|]; [|discriminate Hcrash].
  destruct (put_cases E req name) as [Hopen|[(c0 & rc & c & Hopen & Hparse & Hrest)|(ifp & Hreach)]].
  - rewrite (put_open_fails E req name w Hopen) in Hcrash. discriminate.
  - destruct Hrest as [Hneg|(Hpos & Hnone)].
    + rewrite (put_parse_fails E req name w _ _ _ Hopen Hparse Hneg) in Hcrash.
      discriminate.
    + rewrite (put_no_config E req name w _ _ _ Hopen Hparse Hpos Hnone) in Hcrash.
      discriminate.
  - assert (Hname : ifp_name ifp = name).
    { destruct Hreach as (? & ? & ? & _ & _ & _ & H).
      apply (ni_interface_by_name_name _ _ _ H). }
    destruct (Z.eq_dec (Z.land (ifp_flags ifp) IFF_UP) 0) as [Hdown|Hup];
      destruct (find_dev name (ni_dhcp_active w)) as [p|] eqn:Hfind.
    + rewrite <- Hname in Hfind.
      rewrite (put_down_registered E req name ifp w p Hreach Hdown Hfind) in Hcrash.
      discriminate.
    + pose proof Hfind as Hfind'. rewrite <- Hname in Hfind'.
      rewrite (put_down_unregistered E req name ifp w Hreach Hdown Hfind') in Hcrash.
      injection Hcrash as <-. split; [|reflexivity].
      exists name, ifp. auto.
    + pose proof Hfind as Hfind'. rewrite <- Hname in Hfind'.
      destruct (find_dev_Some _ _ _ Hfind') as (d & Hd & _).
      rewrite (put_up_registered E req name ifp w p d Hreach Hup Hfind' Hd) in Hcrash.
      discriminate.
    + rewrite <- Hname in Hfind.
      destruct (put_up_unregistered E req name ifp w Hreach Hup Hfind) as (w1 & Hrun & _).
      rewrite Hrun in Hcrash. discriminate.
Qed.

(** X2.  [dhcp_interface_put] fails to return in one situation only: the
    request carries a name, its document parses and describes that
    interface with administrative-up unset, and no device is registered
    under the name.  It then has asked for a null device to be stopped and
    has not closed the configuration store it opened. *)
Theorem put_crashes_only_when_down_and_unregistered
    {xml_node_t : Type} (E : externals xml_node_t)
    (ifname : option string) (req : ni_wicked_request_t xml_node_t) (w : world) :
  ((exists w', dhcp_interface_put E ifname req w = Crash w') <->
   (exists name ifp,
      ifname = Some name /\ reaches E req name ifp /\
      Z.land (ifp_flags ifp) IFF_UP = 0 /\
      find_dev name (ni_dhcp_active w) = None)) /\
  (forall w', dhcp_interface_put E ifname req w = Crash w' ->
     calls w' = calls w ++ [c_dummy_open; c_xml_to_all; c_device_stop None]).
Proof.
  split; [split|].
  - intros (w' & Hcrash). apply (put_crash_inv E ifname req w w' Hcrash).
  - intros (name & ifp & -> & Hreach & Hdown & Hfind).
    assert (Hname : ifp_name ifp = name).
    { destruct Hreach as (? & ? & ? & _ & _ & _ & H).
      apply (ni_interface_by_name_name _ _ _ H). }
    rewrite <- Hname in Hfind.
    eexists. apply (put_down_unregistered E req name ifp w Hreach Hdown Hfind).
  - intros w' Hcrash. apply (put_crash_inv E ifname req w w' Hcrash).
Qed.

Lemma put_crashes_only_when_down_and_unregistered_witness :
  (exists w', dhcp_interface_put Traffic.E_down (Some "eth0") Sample.body_request
                (Sample.world_of [Sample.eth1_idle]) = Crash w') /\
  ~ (exists w', dhcp_interface_put Traffic.E_up (Some "eth0") Sample.body_request
                  (Sample.world_of [Sample.eth1_idle]) = Crash w').
Proof.
  split.
  - apply (proj1 (put_crashes_only_when_down_and_unregistered Traffic.E_down (Some "eth0")
                    Sample.body_request (Sample.world_of [Sample.eth1_idle]))).
    exists "eth0", Sample.eth0_down. split; [reflexivity|].
    split; [exists [], 0, [Sample.eth0_down]; repeat split; reflexivity || lia|].
    split; reflexivity.
  - intros Hcrash.
    apply (proj1 (put_crashes_only_when_down_and_unregistered Traffic.E_up (Some "eth0")
                    Sample.body_request (Sample.world_of [Sample.eth1_idle]))) in Hcrash.
    destruct Hcrash as (name & ifp & Hname & (c0 & rc & c & Hopen & Hparse & _ & Hifp) & Hdown & _).
    injection Hname as <-. injection Hopen as <-. injection Hparse as <- <-.
    injection Hifp as <-. discriminate Hdown.
Defined.

(** X3.  Whenever [dhcp_interface_put] returns, the configuration store is
    closed exactly when it was opened: nothing is called when the name is
    missing, only the failed open when the store cannot be opened, and
    otherwise the open comes first, the close last, and neither occurs in
    between. *)
Theorem put_closes_the_store_it_opened
    {xml_node_t : Type} (E : externals xml_node_t)
    (ifname : option string) (req : ni_wicked_request_t xml_node_t) (w : world)
    (rv : Z) (req' : ni_wicked_request_t xml_node_t) (w' : world) :
  dhcp_interface_put E ifname req w = Done (rv, req') w' ->
  exists new,
    calls w' = calls w ++ new /\
    (ifname = None -> new = []) /\
    (ifname <> None -> ext_dummy_open E = None -> new = [c_dummy_open]) /\
    (ifname <> None -> ext_dummy_open E <> None ->
       exists mid, new = c_dummy_open :: mid ++ [c_close] /\
                   count_if is_open mid = 0%nat /\ count_if is_close mid = 0%nat).
Proof.
  intros Hrun. destruct ifname as [name|].
  2:{ injection Hrun as _ _ <-. exists []. rewrite app_nil_r.
      split; [reflexivity|]. repeat split; intros; congruence. }
  destruct (ext_dummy_open E) as [cnih|] eqn:Hopen.
  2:{ rewrite (put_open_fails E req name w Hopen) in Hrun. injection Hrun as _ _ <-.
      exists [c_dummy_open]. repeat split; intros; try reflexivity; congruence. }
  unfold dhcp_interface_put, ni_dummy_open, ni_close in Hrun.
  unfold bind at 1 2 in Hrun. unfold do_call at 1 in Hrun. unfold ret at 1 in Hrun.
  rewrite Hopen in Hrun. unfold bind at 1 in Hrun.
  pose proof (emits_put_with_handle E (fun c => is_open c = false /\ is_close c = false)
                ltac:(intros; split; reflexivity) ltac:(intros; split; reflexivity)
                ltac:(intros; split; reflexivity) ltac:(intros; split; reflexivity)
                ltac:(split; reflexivity) cnih name req (with_call c_dummy_open w))
    as (mid & Hmid & Hcalls).
  destruct (put_with_handle E cnih name req (with_call c_dummy_open w)) as [r w1|w1];
    [|discriminate Hrun].
  unfold bind, do_call, ret in Hrun. injection Hrun as _ <-.
  cbn [after calls with_call] in Hcalls |- *.
  assert (Hcount : count_if is_open mid = 0%nat /\ count_if is_close mid = 0%nat).
  { clear Hcalls. induction Hmid as [|c l [Ho Hc] _ [IHo IHc]]; simpl; [auto|].
    rewrite Ho, Hc, IHo, IHc. auto. }
  destruct Hcount as (Ho & Hc).
  exists (c_dummy_open :: mid ++ [c_close]).
  split; [rewrite Hcalls, <- !app_assoc; reflexivity|].
  repeat split; intros; try congruence. exists mid. auto.
Qed.

Lemma put_closes_the_store_it_opened_witness :
  (exists mid,
     calls (after (dhcp_interface_put Traffic.E_up (Some "eth1") Sample.body_request
                     (Sample.world_of []))) = c_dummy_open :: mid ++ [c_close] /\
     count_if is_open mid = 0%nat /\ count_if is_close mid = 0%nat) /\
  calls (after (dhcp_interface_put Traffic.E_closed (Some "eth1") Sample.body_request
                  (Sample.world_of []))) = [c_dummy_open].
Proof.
  split.
  - destruct (put_closes_the_store_it_opened Traffic.E_up (Some "eth1") Sample.body_request
                (Sample.world_of []) _ _ _ eq_refl) as (new & Hcalls & _ & _ & Hboth).
    destruct (Hboth ltac:(discriminate) ltac:(discriminate)) as (mid & -> & Ho & Hc).
    exists mid. split; [exact Hcalls|]. split; assumption.
  - destruct (put_closes_the_store_it_opened Traffic.E_closed (Some "eth1")
                Sample.body_request (Sample.world_of []) _ _ _ eq_refl)
      as (new & Hcalls & _ & Hfail & _).
    rewrite (Hfail ltac:(discriminate) eq_refl) in Hcalls. exact Hcalls.
Defined.

(** X4.  [dhcp_interface_put] returns 0 or -1.  With 0 the request is left
    as it came.  With -1 an error text has been attached to the request, and
    neither the active-device list nor the log has changed and no call
    involving a device has been made. *)
Theorem put_failure_touches_no_device
    {xml_node_t : Type} (E : externals xml_node_t)
    (ifname : option string) (req : ni_wicked_request_t xml_node_t) (w : world)
    (rv : Z) (req' : ni_wicked_request_t xml_node_t) (w' : world) :
  dhcp_interface_put E ifname req w = Done (rv, req') w' ->
  (rv = 0 /\ req' = req) \/
  (rv = -1 /\
   (exists fmt args, req' = werror req fmt args) /\
   ni_dhcp_active w' = ni_dhcp_active w /\ syslog w' = syslog w /\
   count_if is_device_call (calls w') = count_if is_device_call (calls w)).
Proof.
  intros Hrun. destruct ifname as [name|].
  2:{ injection Hrun as <- <- <-. right. repeat split; eauto. }
  destruct (put_cases E req name) as [Hopen|[(c0 & rc & c & Hopen & Hparse & Hrest)|(ifp & Hreach)]].
  - rewrite (put_open_fails E req name w Hopen) in Hrun. injection Hrun as <- <- <-.
    right. repeat split; eauto. simpl. rewrite count_if_app. simpl. lia.
  - right. destruct Hrest as [Hneg|(Hpos & Hnone)].
    + rewrite (put_parse_fails E req name w _ _ _ Hopen Hparse Hneg) in Hrun.
      injection Hrun as <- <- <-. repeat split; eauto.
      simpl. rewrite !count_if_app. simpl. lia.
    + rewrite (put_no_config E req name w _ _ _ Hopen Hparse Hpos Hnone) in Hrun.
      injection Hrun as <- <- <-. repeat split; eauto.
      simpl. rewrite !count_if_app. simpl. lia.
  - left. rewrite (dhcp_interface_put_reaches E _ _ _ _ Hreach) in Hrun.
    match type of Hrun with
    | match ?m with _ => _ end = _ => destruct m as [u w1|w1]; [|discriminate Hrun]
    end.
    injection Hrun as <- <- _. auto.
Qed.

Lemma put_failure_touches_no_device_witness :
  exists req' w',
    dhcp_interface_put Traffic.E_up (Some "wlan0") Sample.body_request
      (Sample.world_of [Sample.eth0_bound]) = Done (-1, req') w' /\
    error_msg req' =
      Some ("cannot find configuration for interface %s", [arg_s "wlan0"]) /\
    ni_dhcp_active w' = [Sample.eth0_bound].
Proof.
  destruct (put_failure_touches_no_device Traffic.E_up (Some "wlan0") Sample.body_request
              (Sample.world_of [Sample.eth0_bound]) _ _ _ eq_refl)
    as [(Hrv & _)|(_ & _ & Hactive & _)]; [discriminate Hrv|].
  eexists _, _. split; [reflexivity|]. split; [reflexivity|exact Hactive].
Defined.

(** ** The request pipeline *)

Section Pipeline.

Context {xml_node_t : Type} (E : externals xml_node_t).

Lemma call_direct_routes (m : incoming xml_node_t) :
  __ni_wicked_call_direct m (ni_dhcp_root_node E) =
  if String.eqb "interface" (in_resource m) then
    match in_cmd m with
    | NI_REST_OP_PUT => dhcp_interface_put E (in_name m) (in_req m)
    | NI_REST_OP_DELETE => dhcp_interface_delete E (in_name m) (in_req m)
    | _ => ret (-1, werror (in_req m) "command not supported for %s" [arg_s (in_resource m)])
    end
  else if String.eqb "device" (in_resource m) then
    match in_cmd m with
    | NI_REST_OP_GET => dhcp_device_get E (in_name m) (in_req m)
    | _ => ret (-1, werror (in_req m) "command not supported for %s" [arg_s (in_resource m)])
    end
  else ret (-1, werror (in_req m) "unknown path %s" [arg_s (in_resource m)]).
Proof.
  unfold __ni_wicked_call_direct, ni_dhcp_root_node.
  cbn [node_children List.find node_name ni_dhcp_interface_node ni_dhcp_device_node].
  destruct (String.eqb "interface" (in_resource m)); [destruct (in_cmd m); reflexivity|].
  destruct (String.eqb "device" (in_resource m)); [destruct (in_cmd m); reflexivity|].
  reflexivity.
Qed.

Lemma routed_dec (m : incoming xml_node_t) : routed m \/ ~ routed m.
Proof.
  unfold routed.
  destruct (String.eqb_spec "interface" (in_resource m)) as [Hi|Hi];
    destruct (String.eqb_spec "device" (in_resource m)) as [Hd|Hd];
    destruct (in_cmd m); try rewrite <- Hi; try rewrite <- Hd;
    try (left; left; split; [reflexivity|auto]; fail);
    try (left; right; split; reflexivity);
    right; intros [[H1 [H2|H2]]|[H1 H2]]; try congruence; try discriminate.
Qed.

Lemma call_direct_unrouted (m : incoming xml_node_t) w :
  ~ routed m ->
  exists fmt args,
    __ni_wicked_call_direct m (ni_dhcp_root_node E) w =
    Done (-1, werror (in_req m) fmt args) w.
Proof.
  intros Hn. rewrite call_direct_routes. unfold routed in Hn.
  destruct (String.eqb_spec "interface" (in_resource m)) as [Hi|Hi].
  - destruct (in_cmd m) eqn:Hcmd; try (eexists _, _; reflexivity);
      exfalso; apply Hn; left; split; auto.
  - destruct (String.eqb_spec "device" (in_resource m)) as [Hd|Hd].
    + destruct (in_cmd m) eqn:Hcmd; try (eexists _, _; reflexivity).
      exfalso. apply Hn. right. split; auto.
    + eexists _, _. reflexivity.
Qed.

Lemma emits_call_direct (P : call -> Prop) (m : incoming xml_node_t) :
  (forall l, P (c_xml_from_lease l)) -> (forall dev, P (c_device_stop dev)) ->
  (forall name type, P (c_device_new name type)) ->
  (forall p ifp, P (c_device_reconfigure p ifp)) -> (forall p, P (c_device_start p)) ->
  P c_dummy_open -> P c_xml_to_all -> P c_close ->
  emits P (__ni_wicked_call_direct m (ni_dhcp_root_node E)).
Proof.
  intros. rewrite call_direct_routes.
  destruct (String.eqb "interface" (in_resource m)).
  - destruct (in_cmd m); try apply emits_ret.
    + apply emits_put; assumption.
    + apply emits_delete; assumption.
  - destruct (String.eqb "device" (in_resource m)); [|apply emits_ret].
    destruct (in_cmd m); try apply emits_ret. apply emits_get; assumption.
Qed.

Lemma emits_process_request (P : call -> Prop) (m : incoming xml_node_t) :
  (forall l, P (c_xml_from_lease l)) -> (forall dev, P (c_device_stop dev)) ->
  (forall name type, P (c_device_new name type)) ->
  (forall p ifp, P (c_device_reconfigure p ifp)) -> (forall p, P (c_device_start p)) ->
  P c_dummy_open -> P c_xml_to_all -> P c_close ->
  emits P (ni_dhcp_process_request E m).
Proof.
  intros. unfold ni_dhcp_process_request, ni_error.
  destruct (pull_rc m <? 0); [apply emits_do_log|].
  apply emits_bind.
  - destruct (0 <=? parse_rc m); [apply emits_call_direct; assumption|apply emits_ret].
  - intros r. destruct (fst r <? 0); [apply emits_do_log|apply emits_ret].
Qed.

Lemma process_request_runs (m : incoming xml_node_t) w :
  0 <= pull_rc m -> 0 <= parse_rc m ->
  ni_dhcp_process_request E m w =
  match __ni_wicked_call_direct m (ni_dhcp_root_node E) w with
  | Done (rv, _) w1 => Done tt (if rv <? 0 then with_log unable_to_process w1 else w1)
  | Crash w1 => Crash w1
  end.
Proof.
  intros Hpull Hparse. unfold ni_dhcp_process_request.
  destruct (Z.ltb_spec (pull_rc m) 0); [lia|].
  destruct (Z.leb_spec 0 (parse_rc m)); [|lia].
  unfold bind. destruct (__ni_wicked_call_direct m (ni_dhcp_root_node E) w)
    as [[rv req'] w1|w1]; [|reflexivity].
  cbn [fst]. destruct (rv <? 0); reflexivity.
Qed.

End Pipeline.

Lemma dhcp_device_get_done {xml_node_t : Type} (E : externals xml_node_t)
    (ifname : option string) (req : ni_wicked_request_t xml_node_t) (w : world) :
  exists r w', dhcp_device_get E ifname req w = Done r w' /\
               ni_dhcp_active w' = ni_dhcp_active w.
Proof.
  destruct ifname as [name|]; [|eexists _, _; split; reflexivity].
  unfold dhcp_device_get, bind, ni_dhcp_device_find.
  destruct (find_dev name (ni_dhcp_active w)) as [p|] eqn:Hfind;
    [|eexists _, _; split; reflexivity].
  destruct (find_dev_Some _ _ _ Hfind) as (d & Hd & _).
  unfold dhcp_device_response, bind. rewrite (dhcp_device_xml_runs E w p d Hd).
  destruct (ext_xml_from_lease E (dhcp_device_xml_lease d)); eexists _, _; split; reflexivity.
Qed.

(** X5.  No request ever makes the supplicant ask for a lease release:
    neither the three handlers nor [ni_dhcp_process_request] as a whole add
    a release request to the calls made so far. *)
Theorem requests_never_release
    {xml_node_t : Type} (E : externals xml_node_t) (w : world) :
  (forall m,
     count_if is_any_release (calls (after (ni_dhcp_process_request E m w))) =
     count_if is_any_release (calls w)) /\
  (forall ifname req,
     count_if is_any_release (calls (after (dhcp_interface_put E ifname req w))) =
     count_if is_any_release (calls w)) /\
  (forall ifname req,
     count_if is_any_release (calls (after (dhcp_interface_delete E ifname req w))) =
     count_if is_any_release (calls w)) /\
  (forall ifname req,
     count_if is_any_release (calls (after (dhcp_device_get E ifname req w))) =
     count_if is_any_release (calls w)).
Proof.
  split; [|split; [|split]]; intros; apply emits_count.
  - apply emits_process_request; intros; reflexivity.
  - apply emits_put; intros; reflexivity.
  - apply emits_delete; intros; reflexivity.
  - apply emits_get; intros; reflexivity.
Qed.

Lemma process_request_refused
    {xml_node_t : Type} (E : externals xml_node_t) (m : incoming xml_node_t) (w : world) :
  pull_rc m < 0 \/ parse_rc m < 0 \/ ~ routed m ->
  ni_dhcp_process_request E m w =
  Done tt (with_log (if pull_rc m <? 0 then unable_to_receive else unable_to_process) w).
Proof.
  intros Hwhy. unfold ni_dhcp_process_request at 1.
  destruct (Z.ltb_spec (pull_rc m) 0) as [Hpull|Hpull]; [reflexivity|].
  destruct (Z.leb_spec 0 (parse_rc m)) as [Hparse|Hparse].
  - destruct Hwhy as [?|[?|Hn]]; try lia.
    destruct (call_direct_unrouted E m w Hn) as (fmt & args & Hcall).
    unfold bind. rewrite Hcall. reflexivity.
  - unfold bind, ret. cbn [fst]. destruct (Z.ltb_spec (parse_rc m) 0); [reflexivity|lia].
Qed.

(** X6.  A message that cannot be pulled from the socket, cannot be parsed,
    or names a resource and command the route tree binds no handler to, is
    dropped: [ni_dhcp_process_request] returns having logged one error line
    and nothing else has changed, no call has been made. *)
Theorem refused_message_is_dropped
    {xml_node_t : Type} (E : externals xml_node_t) (m : incoming xml_node_t) (w : world) :
  pull_rc m < 0 \/ parse_rc m < 0 \/ ~ routed m ->
  exists line,
    ni_dhcp_process_request E m w = Done tt (with_log line w) /\
    (pull_rc m < 0 -> line = unable_to_receive) /\
    (0 <= pull_rc m -> line = unable_to_process).
Proof.
  intros Hwhy. eexists. split; [apply (process_request_refused E m w Hwhy)|].
  destruct (Z.ltb_spec (pull_rc m) 0); split; intros; (reflexivity || lia).
Qed.

Lemma refused_message_is_dropped_witness :
  ni_dhcp_process_request Sample.E0 Traffic.unreadable (Sample.world_of [Sample.eth0_bound]) =
    Done tt (with_log {| log_lvl := lvl_error; log_fmt := "unable to receive: %m";
                         log_args := [] |} (Sample.world_of [Sample.eth0_bound])) /\
  ni_dhcp_process_request Sample.E0 Traffic.garbled (Sample.world_of [Sample.eth0_bound]) =
    Done tt (with_log unable_to_process (Sample.world_of [Sample.eth0_bound])) /\
  ni_dhcp_process_request Sample.E0 (Traffic.message NI_REST_OP_PUT "device" (Some "eth0"))
    (Sample.world_of [Sample.eth0_bound]) =
    Done tt (with_log unable_to_process (Sample.world_of [Sample.eth0_bound])).
Proof.
  split; [|split].
  - destruct (refused_message_is_dropped Sample.E0 Traffic.unreadable
                (Sample.world_of [Sample.eth0_bound]) ltac:(left; reflexivity))
      as (line & Hrun & Hline & _).
    rewrite Hrun, (Hline ltac:(reflexivity)). reflexivity.
  - destruct (refused_message_is_dropped Sample.E0 Traffic.garbled
                (Sample.world_of [Sample.eth0_bound]) ltac:(right; left; reflexivity))
      as (line & Hrun & _ & Hline).
    rewrite Hrun, (Hline ltac:(discriminate)). reflexivity.
  - destruct (refused_message_is_dropped Sample.E0
                (Traffic.message NI_REST_OP_PUT "device" (Some "eth0"))
                (Sample.world_of [Sample.eth0_bound])
                ltac:(right; right; intros [[H _]|[_ H]]; discriminate H))
      as (line & Hrun & _ & Hline).
    rewrite Hrun, (Hline ltac:(discriminate)). reflexivity.
Defined.

(** X7.  [ni_dhcp_process_request] returns for every message but one kind:
    a parsed [PUT interface/<name>] whose document describes the interface
    with administrative-up unset while no device is registered under the
    name.  Every GET, every DELETE and every other PUT is served or refused
    with the process carrying on. *)
Theorem process_request_returns_unless_put_down_unregistered
    {xml_node_t : Type} (E : externals xml_node_t) (m : incoming xml_node_t) (w : world) :
  (exists w', ni_dhcp_process_request E m w = Crash w') <->
  (0 <= pull_rc m /\ 0 <= parse_rc m /\
   in_resource m = "interface" /\ in_cmd m = NI_REST_OP_PUT /\
   exists name ifp,
     in_name m = Some name /\ reaches E (in_req m) name ifp /\
     Z.land (ifp_flags ifp) IFF_UP = 0 /\
     find_dev name (ni_dhcp_active w) = None).
Proof.
  split.
  - intros (w' & Hcrash).
    destruct (Z.lt_ge_cases (pull_rc m) 0) as [Hpull|Hpull].
    { rewrite (process_request_refused E m w (or_introl Hpull)) in Hcrash. discriminate. }
    destruct (Z.lt_ge_cases (parse_rc m) 0) as [Hparse|Hparse].
    { rewrite (process_request_refused E m w (or_intror (or_introl Hparse))) in Hcrash.
      discriminate. }
    rewrite (process_request_runs E m w Hpull Hparse), call_direct_routes in Hcrash.
    destruct (String.eqb_spec "interface" (in_resource m)) as [Hi|Hi].
    + destruct (in_cmd m) eqn:Hcmd; try discriminate Hcrash.
      * destruct (dhcp_interface_put E (in_name m) (in_req m) w) as [[rv r] w1|w1] eqn:Hput;
          [discriminate Hcrash|].
        destruct (put_crash_inv E _ _ _ _ Hput) as (Hwhy & _). auto 10.
      * destruct (in_name m) as [name|]; [|discriminate Hcrash].
        rewrite dhcp_interface_delete_runs in Hcrash. discriminate Hcrash.
    + destruct (String.eqb "device" (in_resource m)); [|discriminate Hcrash].
      destruct (in_cmd m); try discriminate Hcrash.
      destruct (dhcp_device_get_done E (in_name m) (in_req m) w) as ([rv r] & w1 & H & _).
      rewrite H in Hcrash. discriminate Hcrash.
  - intros (Hpull & Hparse & Hres & Hcmd & name & ifp & Hname & Hreach & Hdown & Hfind).
    rewrite (process_request_runs E m w Hpull Hparse), call_direct_routes.
    rewrite Hres, Hcmd, Hname. cbn [String.eqb Ascii.eqb Bool.eqb].
    assert (Hn : ifp_name ifp = name).
    { destruct Hreach as (? & ? & ? & _ & _ & _ & H).
      apply (ni_interface_by_name_name _ _ _ H). }
    rewrite <- Hn in Hfind.
    rewrite (put_down_unregistered E _ _ _ _ Hreach Hdown Hfind). eexists. reflexivity.
Qed.

Lemma process_request_returns_unless_put_down_unregistered_witness :
  (exists w', ni_dhcp_process_request Traffic.E_down
                (Traffic.message NI_REST_OP_PUT "interface" (Some "eth0"))
                (Sample.world_of [Sample.eth1_idle]) = Crash w') /\
  ~ (exists w', ni_dhcp_process_request Traffic.E_down
                  (Traffic.message NI_REST_OP_DELETE "interface" (Some "eth0"))
                  (Sample.world_of [Sample.eth1_idle]) = Crash w').
Proof.
  split.
  - apply (proj2 (process_request_returns_unless_put_down_unregistered Traffic.E_down
                    (Traffic.message NI_REST_OP_PUT "interface" (Some "eth0"))
                    (Sample.world_of [Sample.eth1_idle]))).
    split; [discriminate|]. split; [discriminate|]. split; [reflexivity|].
    split; [reflexivity|]. exists "eth0", Sample.eth0_down. split; [reflexivity|].
    split; [exists [], 0, [Sample.eth0_down]; repeat split; reflexivity || lia|].
    split; reflexivity.
  - intros Hcrash.
    apply (proj1 (process_request_returns_unless_put_down_unregistered Traffic.E_down
                    (Traffic.message NI_REST_OP_DELETE "interface" (Some "eth0"))
                    (Sample.world_of [Sample.eth1_idle]))) in Hcrash.
    destruct Hcrash as (_ & _ & _ & Hcmd & _). discriminate Hcmd.
Defined.

(** ** The notifier and the drain of changed devices *)

Section Announce.

Context {xml_node_t : Type} (E : externals xml_node_t) (sock : ni_socket_t).

Lemma send_device_event_calls w p d :
  ni_dhcp_active w !! p = Some d ->
  exists w' extra,
    ni_dhcp_send_device_event E sock (Some p) w = Done tt w' /\
    ni_dhcp_active w' = ni_dhcp_active w /\
    calls w' = calls w ++ c_xml_from_lease (dhcp_device_xml_lease d) :: extra /\
    (ext_xml_from_lease E (dhcp_device_xml_lease d) = None ->
       extra = [] /\
       syslog w' = syslog w ++
         [{| log_lvl := lvl_debug; log_fmt := "sending device event for %s";
             log_args := [arg_s (ifname d)] |};
          {| log_lvl := lvl_error; log_fmt := "%s: cannot render interface information";
             log_args := [arg_s (ifname d)] |}]) /\
    (forall doc, ext_xml_from_lease E (dhcp_device_xml_lease d) = Some doc ->
       exists text, extra = [c_write (__fd sock) text]).
Proof.
  intros Hd. destruct (ext_xml_from_lease E (dhcp_device_xml_lease d)) as [doc|] eqn:Hdoc.
  - rewrite (ni_dhcp_send_device_event_runs E sock w p d doc Hd Hdoc).
    eexists _, _. split; [reflexivity|]. split; [reflexivity|]. split; [reflexivity|].
    split; [discriminate|]. intros doc' _. eexists. reflexivity.
  - unfold ni_dhcp_send_device_event.
    unfold bind at 1. unfold deref at 1. rewrite Hd.
    unfold bind at 1. unfold ni_debug_dhcp, do_log.
    unfold bind at 1. rewrite dhcp_device_xml_runs with (d := d) by exact Hd.
    rewrite Hdoc. unfold ni_error, do_log.
    exists (with_log {| log_lvl := lvl_error;
                        log_fmt := "%s: cannot render interface information";
                        log_args := [arg_s (ifname d)] |}
              (with_call (c_xml_from_lease (dhcp_device_xml_lease d))
                 (with_log {| log_lvl := lvl_debug;
                              log_fmt := "sending device event for %s";
                              log_args := [arg_s (ifname d)] |} w))), [].
    split; [reflexivity|]. split; [reflexivity|]. split; [reflexivity|].
    split; [|discriminate]. intros _. split; [reflexivity|].
    cbn [syslog with_log with_call]. rewrite <- app_assoc. reflexivity.
Qed.

Lemma set_notify_false_twice d : set_notify false (set_notify false d) = set_notify false d.
Proof. reflexivity. Qed.

Lemma map_clear_alter l : forall p,
  map (set_notify false) (alter (set_notify false) p l) = map (set_notify false) l.
Proof.
  induction l as [|d l IH]; intros [|p]; try reflexivity.
  change (alter (set_notify false) (S p) (d :: l)) with (d :: alter (set_notify false) p l).
  simpl. rewrite IH. reflexivity.
Qed.

Lemma map_clear_unflagged l :
  find_changed l = None -> map (set_notify false) l = l /\ count_if notify l = 0%nat.
Proof.
  induction l as [|d l IH]; simpl; [auto|].
  destruct (notify d) eqn:Hn; [discriminate|].
  destruct (find_changed l); [discriminate|]. intros _.
  destruct (IH eq_refl) as (-> & ->). split; [|reflexivity].
  f_equal. destruct d. simpl in Hn. subst. reflexivity.
Qed.

Lemma drain_changed_effect fuel : forall w,
  (count_if notify (ni_dhcp_active w) < fuel)%nat ->
  exists new w',
    drain_changed E sock fuel w = Done tt w' /\
    calls w' = calls w ++ new /\
    ni_dhcp_active w' = map (set_notify false) (ni_dhcp_active w) /\
    count_if is_get_changed new = S (count_if notify (ni_dhcp_active w)) /\
    count_if is_render new = count_if notify (ni_dhcp_active w) /\
    (count_if is_write new <= count_if notify (ni_dhcp_active w))%nat /\
    count_if is_device_call new = 0%nat.
Proof.
  induction fuel as [|fuel IH]; intros w Hlt; [lia|].
  simpl. unfold bind at 1. unfold ni_dhcp_device_get_changed, bind, do_call.
  cbn [after calls ni_dhcp_active with_call].
  destruct (find_changed (ni_dhcp_active w)) as [p|] eqn:Hfind.
  - destruct (find_changed_Some _ _ Hfind) as (d & Hd & _).
    pose proof (find_changed_clears _ _ Hfind) as Hcount.
    set (w1 := with_active (alter (set_notify false) p) (with_call c_device_get_changed w)).
    assert (Hd1 : ni_dhcp_active w1 !! p = Some (set_notify false d)).
    { unfold w1. simpl. rewrite list_lookup_alter_eq, Hd. reflexivity. }
    destruct (send_device_event_calls w1 p _ Hd1)
      as (w2 & extra & Hsend & Hsame & Hcalls & Hnone & Hsome).
    rewrite Hsend.
    destruct (IH w2) as (new & w3 & Hrun & Hnew & Hactive & Hg & Hr & Hw & Hdev).
    { rewrite Hsame. unfold w1. simpl. lia. }
    assert (Hextra : (count_if is_write extra <= 1)%nat /\ count_if is_render extra = 0%nat /\
                     count_if is_get_changed extra = 0%nat /\
                     count_if is_device_call extra = 0%nat).
    { destruct (ext_xml_from_lease E (dhcp_device_xml_lease (set_notify false d))) as [doc|].
      - destruct (Hsome doc eq_refl) as (text & ->). simpl. repeat split; lia.
      - destruct (Hnone eq_refl) as (-> & _). simpl. repeat split; lia. }
    destruct Hextra as (Hew & Her & Heg & Hed).
    rewrite Hsame in Hactive, Hg, Hr, Hw. unfold w1 in Hactive, Hg, Hr, Hw, Hcalls.
    cbn [ni_dhcp_active with_active with_call calls] in Hactive, Hg, Hr, Hw, Hcalls.
    rewrite map_clear_alter in Hactive.
    exists (c_device_get_changed :: c_xml_from_lease (dhcp_device_xml_lease (set_notify false d))
              :: extra ++ new), w3.
    split; [exact Hrun|]. split.
    { rewrite Hnew, Hcalls, <- !app_assoc. reflexivity. }
    split; [exact Hactive|].
    cbn [count_if is_get_changed is_render is_write is_device_call].
    rewrite !count_if_app, Hg, Hr, Heg, Her, Hed, Hdev. repeat split; lia.
  - destruct (map_clear_unflagged _ Hfind) as (Hmap & Hzero).
    exists [c_device_get_changed], (with_call c_device_get_changed w).
    rewrite Hmap, Hzero. repeat split; simpl; lia.
Qed.

End Announce.

(** X8.  The notifier never changes the active-device list, asks the codec
    for the device's status exactly once, and writes to the control socket
    exactly when the status renders: when it does not, nothing is written
    and an error line naming the interface is logged. *)
Theorem notifier_writes_only_what_renders
    {xml_node_t : Type} (E : externals xml_node_t) (sock : ni_socket_t)
    (w : world) (p : nat) (d : ni_dhcp_device_t) :
  ni_dhcp_active w !! p = Some d ->
  exists w' extra,
    ni_dhcp_send_device_event E sock (Some p) w = Done tt w' /\
    ni_dhcp_active w' = ni_dhcp_active w /\
    calls w' = calls w ++ c_xml_from_lease (dhcp_device_xml_lease d) :: extra /\
    (ext_xml_from_lease E (dhcp_device_xml_lease d) = None ->
       extra = [] /\
       syslog w' = syslog w ++
         [{| log_lvl := lvl_debug; log_fmt := "sending device event for %s";
             log_args := [arg_s (ifname d)] |};
          {| log_lvl := lvl_error; log_fmt := "%s: cannot render interface information";
             log_args := [arg_s (ifname d)] |}]) /\
    (forall doc, ext_xml_from_lease E (dhcp_device_xml_lease d) = Some doc ->
       exists text, extra = [c_write (__fd sock) text]).
Proof. apply send_device_event_calls. Qed.

Lemma notifier_writes_only_what_renders_witness :
  exists w',
    ni_dhcp_send_device_event Sample.E0 Sample.control (Some 1%nat)
      (Sample.world_of [Sample.eth0_bound; Sample.eth2_odd]) = Done tt w' /\
    calls w' = [c_xml_from_lease (dhcp_device_xml_lease Sample.eth2_odd)] /\
    count_if is_write (calls w') = 0%nat.
Proof.
  destruct (notifier_writes_only_what_renders Sample.E0 Sample.control
              (Sample.world_of [Sample.eth0_bound; Sample.eth2_odd]) 1 Sample.eth2_odd eq_refl)
    as (w' & extra & Hrun & _ & Hcalls & Hnone & _).
  destruct (Hnone eq_refl) as (-> & _).
  exists w'. split; [exact Hrun|]. rewrite Hcalls. split; reflexivity.
Defined.

(** X9.  One drain of the changed devices clears the pending-notify flag of
    every device and changes nothing else in the list; it asks the codec
    for a status once per device that was flagged, writes at most that many
    messages, asks the registry for the next changed device once more than
    there were flagged devices, and makes no other call on a device. *)
Theorem drain_announces_each_changed_device_once
    {xml_node_t : Type} (E : externals xml_node_t) (sock : ni_socket_t) (w : world) :
  exists new w',
    drain_changed E sock (S (length (ni_dhcp_active w))) w = Done tt w' /\
    calls w' = calls w ++ new /\
    ni_dhcp_active w' = map (set_notify false) (ni_dhcp_active w) /\
    count_if is_get_changed new = S (count_if notify (ni_dhcp_active w)) /\
    count_if is_render new = count_if notify (ni_dhcp_active w) /\
    (count_if is_write new <= count_if notify (ni_dhcp_active w))%nat /\
    count_if is_device_call new = 0%nat.
Proof.
  apply drain_changed_effect.
  pose proof (count_if_le_length notify (ni_dhcp_active w)). lia.
Qed.

(** ** More on the event loop *)

Section LoopCalls.

Context {xml_node_t : Type} (E : externals xml_node_t) (sock : ni_socket_t)
        (P : call -> Prop).

Hypothesis P_get_timeout : P c_fsm_get_timeout.
Hypothesis P_wait : forall t, P (c_socket_wait t).
Hypothesis P_check : P c_fsm_check_timeout.
Hypothesis P_changed : P c_device_get_changed.
Hypothesis P_render : forall l, P (c_xml_from_lease l).
Hypothesis P_write : forall fd text, P (c_write fd text).

Lemma emits_loop_get_timeout : emits P (ni_dhcp_fsm_get_timeout E).
Proof. unfold ni_dhcp_fsm_get_timeout. emits_auto. Qed.

Lemma emits_loop_wait data_ready pending t :
  emits P (fun w => fst (ni_socket_wait E data_ready pending t w)).
Proof. apply emits_wait, P_wait. Qed.

Lemma emits_loop_check : emits P (ni_dhcp_fsm_check_timeout E).
Proof. unfold ni_dhcp_fsm_check_timeout. emits_auto. Qed.

Lemma emits_loop_send dev : emits P (ni_dhcp_send_device_event E sock dev).
Proof.
  unfold ni_dhcp_send_device_event, ni_error, ni_debug_dhcp.
  apply emits_bind; [apply emits_deref|]. intros d.
  apply emits_bind; [apply emits_do_log|]. intros _.
  apply emits_bind; [apply emits_xml, P_render|]. intros [doc|].
  - apply emits_do_call, P_write.
  - apply emits_do_log.
Qed.

Lemma emits_loop_drain fuel : emits P (drain_changed E sock fuel).
Proof.
  induction fuel as [|fuel IH]; simpl; [apply emits_ret|].
  apply emits_bind.
  - unfold ni_dhcp_device_get_changed.
    apply emits_bind; [apply emits_do_call, P_changed|]. intros _.
    apply emits_quiet. intros w. destruct (find_changed _); reflexivity.
  - intros [p|]; [|apply emits_ret].
    apply emits_bind; [apply emits_loop_send|]. intros _. exact IH.
Qed.

End LoopCalls.

Section LoopFacts.

Context {xml_node_t : Type} (E : externals xml_node_t) (e : sys_env) (sock : ni_socket_t).

Ltac loop_emits :=
  first [ apply emits_loop_get_timeout | apply emits_loop_wait | apply emits_loop_check
        | apply emits_loop_drain ]; intros; reflexivity.

Lemma no_shutdown_call_yet_run_step s :
  no_shutdown_call_yet s -> no_shutdown_call_yet (run_step E e sock s).
Proof.
  intros H. unfold no_shutdown_call_yet in H. unfold run_step.
  destruct (pc s) eqn:Hpc.
  - destruct (ni_dhcp_startup_runs e (now s)) as (w' & Hrun & Hcalls). rewrite Hrun.
    unfold no_shutdown_call_yet. cbn [pc now finish goto].
    rewrite Hcalls, count_if_app, H. reflexivity.
  - assert (Hc := emits_count is_shutdown_call (ni_dhcp_fsm_get_timeout E) (now s)
                    ltac:(loop_emits)).
    destruct (ni_dhcp_fsm_get_timeout E (now s)); unfold no_shutdown_call_yet;
      cbn [pc now goto after] in *; congruence.
  - assert (Hc := emits_count is_shutdown_call
                    (fun w => fst (ni_socket_wait E (ni_dhcp_process_request E)
                                     (ext_socket_pending E (pass s)) (timeout s) w))
                    (now s) ltac:(loop_emits)).
    cbv zeta. cbv beta in Hc.
    destruct (ni_socket_wait _ _ _ _ _) as [[rc w'|w'] inside]; cbn [fst snd] in *;
      [destruct (rc <? 0)|]; unfold no_shutdown_call_yet;
      cbn [pc now goto after calls with_log] in *; congruence.
  - destruct (negb _); unfold no_shutdown_call_yet, ni_debug_dhcp, do_log;
      cbn [pc now goto finish calls with_log]; exact H.
  - assert (Hc := emits_count is_shutdown_call (ni_dhcp_fsm_check_timeout E) (now s)
                    ltac:(loop_emits)).
    destruct (ni_dhcp_fsm_check_timeout E (now s)); unfold no_shutdown_call_yet;
      cbn [pc now goto finish after] in *; congruence.
  - assert (Hc := emits_count is_shutdown_call
                    (drain_changed E sock (S (length (ni_dhcp_active (now s))))) (now s)
                    ltac:(loop_emits)).
    destruct (drain_changed E sock _ (now s)); unfold no_shutdown_call_yet;
      cbn [pc now goto after] in *; congruence.
  - rewrite ni_dhcp_shutdown_runs. exact I.
  - unfold no_shutdown_call_yet. rewrite Hpc. exact I.
  - unfold no_shutdown_call_yet. rewrite Hpc. exact H.
  - unfold no_shutdown_call_yet. rewrite Hpc. exact H.
  - unfold no_shutdown_call_yet. rewrite Hpc. exact H.
Qed.

Lemma no_shutdown_call_yet_deliver sig s :
  no_shutdown_call_yet s -> no_shutdown_call_yet (deliver sig s).
Proof.
  intros H. unfold no_shutdown_call_yet in H. unfold deliver.
  destruct (pc s) eqn:Hpc; unfold no_shutdown_call_yet; cbn [pc now]; rewrite ?Hpc; exact H.
Qed.

Lemma no_shutdown_call_yet_run sched : forall s,
  no_shutdown_call_yet s -> no_shutdown_call_yet (ni_dhcp_run E e sock sched s).
Proof.
  induction sched as [|a sched IH]; intros s H; simpl; [exact H|].
  apply IH. destruct a;
    [apply no_shutdown_call_yet_run_step|apply no_shutdown_call_yet_deliver]; exact H.
Qed.

(** Where one step of the process leads. *)
Lemma run_step_moves s :
  ni_dhcp_stop (run_step E e sock s) = ni_dhcp_stop s /\
  match pc s with
  | at_start => pc (run_step E e sock s) = at_get_timeout
  | at_get_timeout => pc (run_step E e sock s) = at_wait
  | at_wait =>
      pc (run_step E e sock s) =
      if fst (ext_socket_wait E (timeout s) (ni_dhcp_active (now s))) <? 0
      then aborted
      else if dies_in_wait E s then crashed else at_check_stop
  | at_check_stop =>
      pc (run_step E e sock s) = if ni_dhcp_stop s =? 0 then at_fsm_check else at_shutdown
  | at_fsm_check => pc (run_step E e sock s) = at_drain
  | at_drain => pc (run_step E e sock s) = at_get_timeout
  | at_shutdown => pc (run_step E e sock s) = exited 0
  | c => pc (run_step E e sock s) = c
  end.
Proof.
  unfold run_step. destruct (pc s) eqn:Hpc.
  - destruct (ni_dhcp_startup_runs e (now s)) as (w' & Hrun & _). rewrite Hrun.
    split; reflexivity.
  - split; reflexivity.
  - unfold ni_socket_wait, dies_in_wait, as_callback. fold (waited E s). cbv zeta.
    destruct (_ <? 0) eqn:Hrc; cbn [fst snd]; [rewrite Hrc; split; reflexivity|].
    destruct (ext_socket_pending E (pass s)) as [m|]; cbn [fst snd];
      [|rewrite Hrc; split; reflexivity].
    destruct (ni_dhcp_process_request E m _) as [[] w2|w2]; cbn [fst snd]; rewrite ?Hrc;
      split; reflexivity.
  - destruct (ni_dhcp_stop s =? 0); split; reflexivity.
  - split; reflexivity.
  - destruct (drain_step_complete E sock (now s)) as (w' & Hrun & _). rewrite Hrun.
    split; reflexivity.
  - rewrite ni_dhcp_shutdown_runs. split; reflexivity.
  - split; [reflexivity|exact Hpc].
  - split; [reflexivity|exact Hpc].
  - split; [reflexivity|exact Hpc].
  - split; [reflexivity|exact Hpc].
Qed.

Lemma leaving_run_step s :
  leaving_on_signal s ->
  leaving_on_signal (run_step E e sock s) /\
  (steps_to_exit (pc (run_step E e sock s)) <= pred (steps_to_exit (pc s)))%nat.
Proof.
  intros (Hstop & Hpc). destruct (run_step_moves s) as (Hkeep & Hmove).
  unfold leaving_on_signal. rewrite Hkeep.
  destruct (pc s) eqn:Hs; simpl in Hpc;
    try (destruct Hpc as [[]|[Hpc|[Hpc|Hpc]]]; discriminate Hpc).
  - rewrite Hmove. simpl. auto.
  - rewrite Hmove. destruct (_ <? 0); [|destruct (dies_in_wait E s)]; simpl; auto 6.
  - rewrite Hmove. destruct (Z.eqb_spec (ni_dhcp_stop s) 0); [contradiction|]. simpl. auto.
  - rewrite Hmove. simpl. auto.
  - rewrite Hmove. simpl. auto.
  - rewrite Hmove. simpl. auto.
  - rewrite Hmove. destruct Hpc as [[]|[Hpc|[Hpc|Hpc]]]; try discriminate Hpc.
    rewrite Hpc. simpl. auto.
  - rewrite Hmove. simpl. auto.
  - rewrite Hmove. simpl. auto 6.
Qed.

Lemma leaving_deliver sig s :
  leaving_on_signal s ->
  leaving_on_signal (deliver sig s) /\ pc (deliver sig s) = pc s.
Proof.
  intros (Hstop & Hpc). unfold deliver, leaving_on_signal.
  destruct (pc s) eqn:Hs; simpl in Hpc;
    try (destruct Hpc as [[]|[Hpc|[Hpc|Hpc]]]; discriminate Hpc);
    cbn [pc ni_dhcp_stop catch_fatal_signals]; rewrite ?Hs;
    (split; [split; [try (destruct sig; discriminate); try exact Hstop|simpl; auto 6]|reflexivity]).
Qed.

Lemma leaving_run sched : forall s,
  leaving_on_signal s ->
  (steps_to_exit (pc s) <= runs_in sched)%nat ->
  leaving_on_signal (ni_dhcp_run E e sock sched s) /\
  steps_to_exit (pc (ni_dhcp_run E e sock sched s)) = 0%nat.
Proof.
  induction sched as [|a sched IH]; intros s Hs Hn.
  - change (ni_dhcp_run E e sock [] s) with s. split; [exact Hs|].
    unfold runs_in in Hn. cbn [count_if] in Hn. lia.
  - destruct a as [|sig].
    + change (ni_dhcp_run E e sock (a_run :: sched) s)
        with (ni_dhcp_run E e sock sched (run_step E e sock s)).
      destruct (leaving_run_step s Hs) as (Hs' & Hle).
      apply IH; [exact Hs'|]. unfold runs_in in *. cbn [count_if] in Hn. lia.
    + change (ni_dhcp_run E e sock (a_signal sig :: sched) s)
        with (ni_dhcp_run E e sock sched (deliver sig s)).
      destruct (leaving_deliver sig s Hs) as (Hs' & Hpc).
      apply IH; [exact Hs'|]. rewrite Hpc. unfold runs_in in *. cbn [count_if] in Hn.
      exact Hn.
Qed.

Lemma undisturbed_run_step s : undisturbed s -> undisturbed (run_step E e sock s).
Proof.
  intros (Hstop & Hpc). destruct (run_step_moves s) as (Hkeep & Hmove).
  unfold undisturbed. rewrite Hkeep. split; [exact Hstop|].
  destruct (pc s) eqn:Hs; try contradiction; rewrite Hmove; try exact I.
  - destruct (_ <? 0); [|destruct (dies_in_wait E s)]; exact I.
  - rewrite Hstop. exact I.
Qed.

Lemma undisturbed_run sched : forall s,
  Forall (fun a => a = a_run) sched -> undisturbed s ->
  undisturbed (ni_dhcp_run E e sock sched s).
Proof.
  induction sched as [|a sched IH]; intros s Hall Hs; simpl; [exact Hs|].
  inversion Hall as [|a' l Ha Hrest]; subst. apply IH; [exact Hrest|].
  apply undisturbed_run_step, Hs.
Qed.

End LoopFacts.

Section DeathInTheWait.

Context {xml_node_t : Type} (E : externals xml_node_t) (e : sys_env) (sock : ni_socket_t).

Lemma process_request_crash_inv (m : incoming xml_node_t) w w' :
  ni_dhcp_process_request E m w = Crash w' ->
  fatal_request E m (ni_dhcp_active w) /\
  calls w' = calls w ++ [c_dummy_open; c_xml_to_all; c_device_stop None].
Proof.
  intros Hcrash.
  destruct (Z.lt_ge_cases (pull_rc m) 0) as [Hpull|Hpull].
  { rewrite (process_request_refused E m w (or_introl Hpull)) in Hcrash. discriminate. }
  destruct (Z.lt_ge_cases (parse_rc m) 0) as [Hparse|Hparse].
  { rewrite (process_request_refused E m w (or_intror (or_introl Hparse))) in Hcrash.
    discriminate. }
  rewrite (process_request_runs E m w Hpull Hparse), call_direct_routes in Hcrash.
  destruct (String.eqb_spec "interface" (in_resource m)) as [Hi|Hi].
  - destruct (in_cmd m) eqn:Hcmd; try discriminate Hcrash.
    + destruct (dhcp_interface_put E (in_name m) (in_req m) w) as [[rv r] w1|w1] eqn:Hput;
        [discriminate Hcrash|].
      injection Hcrash as <-.
      destruct (put_crash_inv E _ _ _ _ Hput) as (Hwhy & Hcalls).
      split; [|exact Hcalls]. unfold fatal_request. auto 10.
    + destruct (in_name m) as [name|]; [|discriminate Hcrash].
      rewrite dhcp_interface_delete_runs in Hcrash. discriminate Hcrash.
  - destruct (String.eqb "device" (in_resource m)); [|discriminate Hcrash].
    destruct (in_cmd m); try discriminate Hcrash.
    destruct (dhcp_device_get_done E (in_name m) (in_req m) w) as ([rv r] & w1 & H & _).
    rewrite H in Hcrash. discriminate Hcrash.
Qed.

Lemma process_request_crash (m : incoming xml_node_t) w :
  fatal_request E m (ni_dhcp_active w) -> exists w', ni_dhcp_process_request E m w = Crash w'.
Proof.
  intros (Hpull & Hparse & Hres & Hcmd & name & ifp & Hname & Hreach & Hdown & Hfind).
  rewrite (process_request_runs E m w Hpull Hparse), call_direct_routes.
  rewrite Hres, Hcmd, Hname. cbn [String.eqb Ascii.eqb Bool.eqb].
  assert (Hn : ifp_name ifp = name).
  { destruct Hreach as (? & ? & ? & _ & _ & _ & H).
    apply (ni_interface_by_name_name _ _ _ H). }
  rewrite <- Hn in Hfind.
  rewrite (put_down_unregistered E _ _ _ _ Hreach Hdown Hfind). eexists. reflexivity.
Qed.

Lemma dies_in_wait_iff s :
  dies_in_wait E s = true <->
  exists m, ext_socket_pending E (pass s) = Some m /\
            fatal_request E m (ni_dhcp_active (waited E s)).
Proof.
  unfold dies_in_wait. split.
  - destruct (ext_socket_pending E (pass s)) as [m|]; [|discriminate].
    destruct (ni_dhcp_process_request E m _) as [[] w2|w2] eqn:Hrun; [discriminate|].
    intros _. exists m. split; [reflexivity|].
    apply (process_request_crash_inv m _ _ Hrun).
  - intros (m & -> & Hfatal).
    destruct (process_request_crash m (with_calls [] (waited E s)) Hfatal) as (w' & ->).
    reflexivity.
Qed.

Lemma never_crashed_run sched :
  (forall n m l, ext_socket_pending E n = Some m -> ~ fatal_request E m l) ->
  forall s, pc s <> crashed -> pc (ni_dhcp_run E e sock sched s) <> crashed.
Proof.
  intros Hsafe. induction sched as [|a sched IH]; intros s Hs; [exact Hs|].
  destruct a as [|sig].
  - change (ni_dhcp_run E e sock (a_run :: sched) s)
      with (ni_dhcp_run E e sock sched (run_step E e sock s)).
    apply IH. destruct (run_step_moves E e sock s) as (_ & Hmove).
    destruct (pc s) eqn:Hpc; rewrite Hmove; try discriminate; try exact Hs.
    + destruct (_ <? 0); [discriminate|].
      destruct (dies_in_wait E s) eqn:Hdies; [|discriminate].
      apply dies_in_wait_iff in Hdies. destruct Hdies as (m & Hm & Hfatal).
      exfalso. exact (Hsafe _ _ _ Hm Hfatal).
    + destruct (_ =? 0); discriminate.
  - change (ni_dhcp_run E e sock (a_signal sig :: sched) s)
      with (ni_dhcp_run E e sock sched (deliver sig s)).
    apply IH. unfold deliver. destruct (pc s) eqn:Hpc; cbn [pc]; rewrite ?Hpc;
      try discriminate; exact Hs.
Qed.

End DeathInTheWait.

Lemma never_aborted_run {xml_node_t : Type} (E : externals xml_node_t) (e : sys_env)
    (sock : ni_socket_t) (sched : list action) :
  (forall t l, 0 <= fst (ext_socket_wait E t l)) ->
  forall s, pc s <> aborted -> pc (ni_dhcp_run E e sock sched s) <> aborted.
Proof.
  intros Hwait. induction sched as [|a sched IH]; intros s Hs; [exact Hs|].
  destruct a as [|sig].
  - change (ni_dhcp_run E e sock (a_run :: sched) s)
      with (ni_dhcp_run E e sock sched (run_step E e sock s)).
    apply IH. destruct (run_step_moves E e sock s) as (_ & Hmove).
    destruct (pc s) eqn:Hpc; rewrite Hmove; try discriminate; try exact Hs.
    + destruct (Z.ltb_spec (fst (ext_socket_wait E (timeout s) (ni_dhcp_active (now s)))) 0)
        as [Hneg|_]; [|destruct (dies_in_wait E s); discriminate].
      specialize (Hwait (timeout s) (ni_dhcp_active (now s))). lia.
    + destruct (_ =? 0); discriminate.
  - change (ni_dhcp_run E e sock (a_signal sig :: sched) s)
      with (ni_dhcp_run E e sock sched (deliver sig s)).
    apply IH. unfold deliver. destruct (pc s) eqn:Hpc; cbn [pc]; rewrite ?Hpc;
      try discriminate; exact Hs.
Qed.

(** X10.  However its steps and the signals interleave, as long as
    [ni_dhcp_run] has not left through [exit] its own code (what the
    handlers do inside [ni_socket_wait] apart) has requested no lease
    release, no device stop and no exit: in [ni_dhcp_run] these calls belong
    to the shutdown sequence alone.  In particular, when [ni_socket_wait]
    fails the process ends through [ni_fatal] with none of them made. *)
Theorem no_cleanup_unless_exited
    {xml_node_t : Type} (E : externals xml_node_t) (e : sys_env) (sock : ni_socket_t)
    (sched : list action) :
  let s := ni_dhcp_run E e sock sched boot in
  ((forall st, pc s <> exited st) ->
   count_if is_shutdown_call (calls (now s)) = 0%nat) /\
  (pc s = at_wait ->
   fst (ext_socket_wait E (timeout s) (ni_dhcp_active (now s))) < 0 ->
   pc (run_step E e sock s) = aborted /\
   count_if is_shutdown_call (calls (now (run_step E e sock s))) = 0%nat).
Proof.
  intros s.
  assert (Hinv : forall more, no_shutdown_call_yet (ni_dhcp_run E e sock more boot)).
  { intros more. apply no_shutdown_call_yet_run. reflexivity. }
  split.
  - intros Hnot. specialize (Hinv sched). fold s in Hinv. unfold no_shutdown_call_yet in Hinv.
    destruct (pc s) eqn:Hpc; try exact Hinv. exfalso. apply (Hnot status). reflexivity.
  - intros Hpc Hneg. destruct (run_step_moves E e sock s) as (_ & Hmove).
    rewrite Hpc in Hmove. destruct (Z.ltb_spec (fst (ext_socket_wait E (timeout s)
                                       (ni_dhcp_active (now s)))) 0) as [_|Hpos]; [|lia].
    split; [exact Hmove|].
    pose proof (no_shutdown_call_yet_run_step E e sock s (Hinv sched)) as Hstep.
    unfold no_shutdown_call_yet in Hstep. rewrite Hmove in Hstep. exact Hstep.
Qed.

Lemma no_cleanup_unless_exited_witness :
  let s := ni_dhcp_run Traffic.E_broken Sample.no_entropy Sample.control
             [a_run; a_run] boot in
  pc (run_step Traffic.E_broken Sample.no_entropy Sample.control s) = aborted /\
  count_if is_shutdown_call
    (calls (now (run_step Traffic.E_broken Sample.no_entropy Sample.control s))) = 0%nat /\
  count_if is_shutdown_call (calls (now s)) = 0%nat.
Proof.
  intros s.
  destruct (no_cleanup_unless_exited Traffic.E_broken Sample.no_entropy Sample.control
              [a_run; a_run]) as (Hquiet & Hfatal).
  fold s in Hquiet, Hfatal.
  assert (Hpc : pc s = at_wait) by (vm_compute; reflexivity).
  destruct (Hfatal Hpc ltac:(vm_compute; reflexivity)) as (Habort & Hcount).
  split; [exact Habort|]. split; [exact Hcount|].
  apply Hquiet. intros st Hst. rewrite Hpc in Hst. discriminate Hst.
Defined.

(** X11.  Once a termination signal is on record and the process is in the
    loop, six further steps of the process, whatever signals arrive in
    between, end it: through the shutdown sequence and [exit(0)], through
    [ni_fatal] if [ni_socket_wait] fails, or by the death of the request
    handler inside the wait.  It is [exit(0)] when no wait fails and no
    request that waits on the control socket is one the handler dies on. *)
Theorem recorded_signal_ends_the_process
    {xml_node_t : Type} (E : externals xml_node_t) (e : sys_env) (sock : ni_socket_t)
    (sched : list action) (s : run_state) :
  ni_dhcp_stop s <> 0 -> in_loop (pc s) -> (6 <= runs_in sched)%nat ->
  let s' := ni_dhcp_run E e sock sched s in
  (pc s' = exited 0 \/ pc s' = aborted \/ pc s' = crashed) /\
  ((forall t l, 0 <= fst (ext_socket_wait E t l)) ->
   (forall n m l, ext_socket_pending E n = Some m -> ~ fatal_request E m l) ->
   pc s' = exited 0).
Proof.
  intros Hstop Hloop Hruns s'.
  assert (Hs : leaving_on_signal s) by (split; auto).
  destruct (leaving_run E e sock sched s Hs) as ((_ & Hpc) & Hzero).
  { destruct (pc s); simpl in *; lia. }
  fold s' in Hpc, Hzero.
  assert (Hend : pc s' = exited 0 \/ pc s' = aborted \/ pc s' = crashed).
  { destruct Hpc as [Hin|Hend]; [|exact Hend].
    destruct (pc s'); simpl in *; try contradiction; discriminate. }
  split; [exact Hend|]. intros Hwait Hsafe.
  assert (Hstart : pc s <> aborted /\ pc s <> crashed).
  { split; intros Hc; rewrite Hc in Hloop; exact Hloop. }
  destruct Hend as [Hex|[Hab|Hcr]]; [exact Hex| |]; exfalso.
  - exact (never_aborted_run E e sock sched Hwait s (proj1 Hstart) Hab).
  - exact (never_crashed_run E e sock sched Hsafe s (proj2 Hstart) Hcr).
Qed.

Lemma recorded_signal_ends_the_process_witness :
  pc (ni_dhcp_run Traffic.E_served Sample.no_entropy Sample.control
        [a_run; a_run; a_signal SIGTERM; a_run; a_run; a_run; a_run]
        (Traffic.sweeping (Sample.world_of [Sample.eth0_bound]))) = exited 0.
Proof.
  apply (recorded_signal_ends_the_process Traffic.E_served Sample.no_entropy Sample.control
           [a_run; a_run; a_signal SIGTERM; a_run; a_run; a_run; a_run]
           (Traffic.sweeping (Sample.world_of [Sample.eth0_bound]))
           ltac:(discriminate) I ltac:(vm_compute; lia)).
  - intros t l. simpl. lia.
  - intros n m l Hm (_ & _ & _ & Hcmd & _).
    unfold Traffic.E_served in Hm. cbn [ext_socket_pending] in Hm.
    injection Hm as <-. discriminate Hcmd.
Defined.

(** X12.  Without a signal [ni_dhcp_run] never shuts down: after any number
    of its own steps the flag is still zero, the process is neither in the
    shutdown sequence nor gone through [exit], and its own code has
    requested no release, no stop and no exit. *)
Theorem no_shutdown_without_signal
    {xml_node_t : Type} (E : externals xml_node_t) (e : sys_env) (sock : ni_socket_t)
    (sched : list action) :
  Forall (fun a => a = a_run) sched ->
  let s := ni_dhcp_run E e sock sched boot in
  ni_dhcp_stop s = 0 /\ pc s <> at_shutdown /\ (forall st, pc s <> exited st) /\
  count_if is_shutdown_call (calls (now s)) = 0%nat.
Proof.
  intros Hall s.
  assert (Hu : undisturbed s).
  { apply undisturbed_run; [exact Hall|]. split; [reflexivity|exact I]. }
  destruct Hu as (Hstop & Hpc).
  assert (Hnot : forall st, pc s <> exited st).
  { intros st Hst. rewrite Hst in Hpc. exact Hpc. }
  split; [exact Hstop|]. split; [intros Hc; rewrite Hc in Hpc; exact Hpc|].
  split; [exact Hnot|].
  pose proof (no_shutdown_call_yet_run E e sock sched boot eq_refl) as Hinv. fold s in Hinv.
  unfold no_shutdown_call_yet in Hinv.
  destruct (pc s) eqn:Hs; try exact Hinv. exfalso. apply (Hnot status). reflexivity.
Qed.

Lemma no_shutdown_without_signal_witness :
  let s := ni_dhcp_run Sample.E0 Sample.no_entropy Sample.control Sample.one_pass boot in
  ni_dhcp_stop s = 0 /\ pc s <> at_shutdown /\
  count_if is_shutdown_call (calls (now s)) = 0%nat.
Proof.
  intros s.
  destruct (no_shutdown_without_signal Sample.E0 Sample.no_entropy Sample.control
              Sample.one_pass ltac:(repeat constructor)) as (H1 & H2 & _ & H4).
  repeat split; assumption.
Defined.

(** ** More on the seed *)

Lemma u32_range z : 0 <= u32 z < 2 ^ 32.
Proof. unfold u32. apply Z.mod_pos_bound. lia. Qed.

(** X13.  The value handed to [srandom] is always a 32-bit word.  When the
    entropy device gives a full four bytes that are not all zero, it is
    that word and neither the clock nor the process id enters into it. *)
Theorem srandom_seed_is_entropy_word (e : sys_env) :
  0 <= srandom_seed e < 2 ^ 32 /\
  (0 <= open_urandom e -> 4 <= read_count e -> u32 (read_word e) <> 0 ->
   srandom_seed e = u32 (read_word e) /\
   forall sec usec p,
     srandom_seed {| open_urandom := open_urandom e; read_count := read_count e;
                     read_word := read_word e; tv_sec := sec; tv_usec := usec;
                     pid := p |} = srandom_seed e).
Proof.
  assert (Hfull : forall e0, 0 <= open_urandom e0 -> 4 <= read_count e0 ->
            u32 (read_word e0) <> 0 -> srandom_seed e0 = u32 (read_word e0)).
  { intros e0 Ho Hr Hw. unfold srandom_seed, entropy_seed. cbv zeta.
    destruct (Z.leb_spec 0 (open_urandom e0)); [|lia].
    destruct (Z.ltb_spec (read_count e0) 4); [lia|].
    destruct (Z.eqb_spec (u32 (read_word e0)) 0); [contradiction|reflexivity]. }
  split.
  - unfold srandom_seed. destruct (entropy_seed e =? 0) eqn:Hz.
    + rewrite fallback_seed_formula. apply u32_range.
    + unfold entropy_seed in *. cbv zeta in *.
      destruct (0 <=? open_urandom e); [|discriminate Hz].
      destruct (read_count e <? 4); [discriminate Hz|apply u32_range].
  - intros Ho Hr Hw. split; [apply Hfull; assumption|].
    intros sec usec p. rewrite (Hfull e Ho Hr Hw).
    exact (Hfull {| open_urandom := open_urandom e; read_count := read_count e;
                    read_word := read_word e; tv_sec := sec; tv_usec := usec;
                    pid := p |} Ho Hr Hw).
Qed.

Lemma srandom_seed_is_entropy_word_witness :
  srandom_seed {| open_urandom := 3; read_count := 4; read_word := 3735928559;
                  tv_sec := 1000000000; tv_usec := 500000; pid := 42 |} = 3735928559.
Proof.
  apply (proj1 (proj2 (srandom_seed_is_entropy_word
                         {| open_urandom := 3; read_count := 4; read_word := 3735928559;
                            tv_sec := 1000000000; tv_usec := 500000; pid := 42 |})
                  ltac:(discriminate) ltac:(discriminate) ltac:(discriminate))).
Defined.

(** ** The order of the shutdown sequence *)

Lemma shutdown_asks_app l1 : forall p0 l2,
  shutdown_asks p0 (l1 ++ l2) = shutdown_asks p0 l1 ++ shutdown_asks (p0 + length l1) l2.
Proof.
  induction l1 as [|d l1 IH]; intros p0 l2; simpl.
  - rewrite Nat.add_0_r. reflexivity.
  - rewrite IH, <- app_assoc, Nat.add_succ_r. reflexivity.
Qed.

Lemma shutdown_asks_range l : forall p0,
  all_on (fun q => (p0 <= q < p0 + length l)%nat) (shutdown_asks p0 l).
Proof.
  unfold all_on. induction l as [|d l IH]; intros p0; simpl; [constructor|].
  apply Forall_app. split.
  - unfold shutdown_asks_one. destruct (holds_active_lease d); simpl;
      repeat constructor; exists p0; (split; [reflexivity|lia]).
  - eapply Forall_impl; [apply (IH (S p0))|].
    intros c (q & Hq & Hr). exists q. split; [exact Hq|lia].
Qed.

(** X14.  In the shutdown sequence the devices are taken in list order, and
    for each device the release, when one is requested, comes immediately
    before the stop of that device: every call made earlier is on a device
    further up the list, every call made later, before the exit, on a
    device further down. *)
Theorem shutdown_releases_before_it_stops
    {xml_node_t : Type} (E : externals xml_node_t) (w : world) (p : nat)
    (d : ni_dhcp_device_t) :
  ni_dhcp_active w !! p = Some d ->
  exists before later,
    calls (after (ni_dhcp_shutdown E w)) =
      calls w ++ before
              ++ (if holds_active_lease d then [c_fsm_release p] else [])
              ++ [c_device_stop (Some p)] ++ later ++ [c_exit 0] /\
    all_on (fun q => (q < p)%nat) before /\
    all_on (fun q => (p < q)%nat) later.
Proof.
  intros Hd. rewrite ni_dhcp_shutdown_runs. cbn [after calls].
  pose proof (take_drop_middle _ _ _ Hd) as Hsplit.
  pose proof (lookup_lt_Some _ _ _ Hd) as Hlt.
  exists (shutdown_asks 0 (take p (ni_dhcp_active w))),
         (shutdown_asks (S p) (drop (S p) (ni_dhcp_active w))).
  split; [|split].
  - rewrite <- Hsplit at 1. rewrite shutdown_asks_app, length_take_le by lia.
    cbn [shutdown_asks Nat.add]. unfold shutdown_asks_one.
    rewrite <- !app_assoc. reflexivity.
  - eapply Forall_impl; [apply shutdown_asks_range|].
    intros c (q & Hq & Hr). exists q. split; [exact Hq|].
    rewrite length_take_le in Hr by lia. lia.
  - eapply Forall_impl; [apply shutdown_asks_range|].
    intros c (q & Hq & Hr). exists q. split; [exact Hq|lia].
Qed.

Lemma shutdown_releases_before_it_stops_witness :
  exists before later,
    calls (after (ni_dhcp_shutdown Sample.E0
                    (Sample.world_of [Sample.eth1_idle; Sample.eth0_bound; Sample.eth2_odd])))
      = before ++ [c_fsm_release 1; c_device_stop (Some 1%nat)] ++ later ++ [c_exit 0] /\
    all_on (fun q => (q < 1)%nat) before /\ all_on (fun q => (1 < q)%nat) later.
Proof.
  destruct (shutdown_releases_before_it_stops Sample.E0
              (Sample.world_of [Sample.eth1_idle; Sample.eth0_bound; Sample.eth2_odd])
              1 Sample.eth0_bound eq_refl) as (before & later & Hcalls & Hb & Hl).
  exists before, later. split; [exact Hcalls|]. split; assumption.
Defined.

(** ** The timeout of the socket wait *)

(** X15.  Whenever the process is about to wait on its sockets, the timeout
    it holds is the one the lease state machine gives for the devices as
    they are at that moment, and this is the timeout the wait is called
    with. *)
Theorem wait_uses_the_current_timeout
    {xml_node_t : Type} (E : externals xml_node_t) (e : sys_env) (sock : ni_socket_t)
    (sched : list action) :
  let s := ni_dhcp_run E e sock sched boot in
  pc s = at_wait ->
  timeout s = ext_fsm_get_timeout E (ni_dhcp_active (now s)) /\
  calls (now (run_step E e sock s)) = calls (now s) ++ [c_socket_wait (timeout s)].
Proof.
  intros s Hpc.
  assert (Hinv : forall more s0,
            (pc s0 = at_wait -> timeout s0 = ext_fsm_get_timeout E (ni_dhcp_active (now s0))) ->
            pc (ni_dhcp_run E e sock more s0) = at_wait ->
            timeout (ni_dhcp_run E e sock more s0) =
            ext_fsm_get_timeout E (ni_dhcp_active (now (ni_dhcp_run E e sock more s0)))).
  { induction more as [|a more IH]; intros s0 H0; [exact H0|].
    destruct a as [|sig].
    - change (ni_dhcp_run E e sock (a_run :: more) s0)
        with (ni_dhcp_run E e sock more (run_step E e sock s0)).
      apply IH. destruct (run_step_moves E e sock s0) as (_ & Hmove). intros Hw.
      destruct (pc s0) eqn:Hs0; rewrite Hmove in Hw; try discriminate Hw.
      + unfold run_step. rewrite Hs0. reflexivity.
      + destruct (_ <? 0); [|destruct (dies_in_wait E s0)]; discriminate Hw.
      + destruct (_ =? 0); discriminate Hw.
    - change (ni_dhcp_run E e sock (a_signal sig :: more) s0)
        with (ni_dhcp_run E e sock more (deliver sig s0)).
      apply IH. unfold deliver. destruct (pc s0) eqn:Hs0; cbn [pc timeout now];
        rewrite ?Hs0; try discriminate; exact H0. }
  split.
  - apply Hinv; [discriminate|exact Hpc].
  - unfold run_step. rewrite Hpc. cbv zeta.
    pose proof (ni_socket_wait_calls E (ni_dhcp_process_request E)
                  (ext_socket_pending E (pass s)) (timeout s) (now s)) as Hc.
    destruct (ni_socket_wait _ _ _ _ _) as [[rc w'|w'] inside]; cbn [fst snd after] in *;
      [destruct (rc <? 0)|]; cbn [now goto calls with_log]; exact Hc.
Qed.

Lemma wait_uses_the_current_timeout_witness :
  let s := ni_dhcp_run Sample.E0 Sample.no_entropy Sample.control [a_run; a_run] boot in
  timeout s = 1000 /\
  calls (now (run_step Sample.E0 Sample.no_entropy Sample.control s)) =
    calls (now s) ++ [c_socket_wait 1000].
Proof.
  intros s.
  destruct (wait_uses_the_current_timeout Sample.E0 Sample.no_entropy Sample.control
              [a_run; a_run] ltac:(vm_compute; reflexivity)) as (Ht & Hcalls).
  fold s in Ht, Hcalls. split; [rewrite Ht; reflexivity|].
  rewrite Hcalls, Ht. reflexivity.
Defined.

(** ** Requests in sequence *)

Lemma find_dev_snoc name l d :
  find_dev name l = None -> ifname d = name ->
  find_dev name (l ++ [d]) = Some (length l).
Proof.
  intros Hnone Hd. induction l as [|d0 l IH]; simpl in *.
  - rewrite Hd, String.eqb_refl. reflexivity.
  - destruct (String.eqb (ifname d0) name); [discriminate|].
    destruct (find_dev name l); [discriminate|]. rewrite (IH eq_refl). reflexivity.
Qed.

Lemma find_dev_insert name l p d d' :
  l !! p = Some d -> ifname d' = ifname d ->
  find_dev name (<[p := d']> l) = find_dev name l.
Proof.
  revert p. induction l as [|d0 l IH]; intros [|p] Hp Hn; try discriminate.
  - injection Hp as ->. simpl. rewrite Hn. reflexivity.
  - change (<[S p := d']> (d0 :: l)) with (d0 :: <[p := d']> l). simpl.
    rewrite (IH p Hp Hn). reflexivity.
Qed.

(** X16.  With a registry that keeps the names of its devices, a PUT that
    returns success leaves a device registered under the name it was given,
    so that a GET for that name right after it does not fail for want of
    the device: it returns what the codec makes of the device's status. *)
Theorem successful_put_registers_the_name
    {xml_node_t : Type} (E : externals xml_node_t)
    (name : string) (req req' greq : ni_wicked_request_t xml_node_t) (w w' : world) :
  keeps_names E ->
  dhcp_interface_put E (Some name) req w = Done (0, req') w' ->
  exists p d,
    find_dev name (ni_dhcp_active w') = Some p /\
    ni_dhcp_active w' !! p = Some d /\ ifname d = name /\
    exists rv greq' w'',
      dhcp_device_get E (Some name) greq w' = Done (rv, greq') w'' /\
      xml_out greq' = ext_xml_from_lease E (dhcp_device_xml_lease d) /\
      (rv = 0 <-> ext_xml_from_lease E (dhcp_device_xml_lease d) <> None).
Proof.
  intros (Hnew & Hreconf & Hstart & Hstop) Hput.
  assert (Hfound : exists p, find_dev name (ni_dhcp_active w') = Some p).
  { destruct (put_cases E req name)
      as [Hopen|[(c0 & rc & c & Hopen & Hparse & Hrest)|(ifp & Hreach)]].
    - rewrite (put_open_fails E req name w Hopen) in Hput. discriminate.
    - destruct Hrest as [Hneg|(Hpos & Hnone)].
      + rewrite (put_parse_fails E req name w _ _ _ Hopen Hparse Hneg) in Hput.
        discriminate.
      + rewrite (put_no_config E req name w _ _ _ Hopen Hparse Hpos Hnone) in Hput.
        discriminate.
    - assert (Hname : ifp_name ifp = name).
      { destruct Hreach as (? & ? & ? & _ & _ & _ & H).
        apply (ni_interface_by_name_name _ _ _ H). }
      destruct (Z.eq_dec (Z.land (ifp_flags ifp) IFF_UP) 0) as [Hdown|Hup];
        destruct (find_dev name (ni_dhcp_active w)) as [p|] eqn:Hfind.
      + pose proof Hfind as Hfind'. rewrite <- Hname in Hfind'.
        rewrite (put_down_registered E req name ifp w p Hreach Hdown Hfind') in Hput.
        injection Hput as _ <-. exists p. cbn [ni_dhcp_active].
        rewrite !find_dev_alter; [exact Hfind|exact Hstop|reflexivity].
      + rewrite <- Hname in Hfind.
        rewrite (put_down_unregistered E req name ifp w Hreach Hdown Hfind) in Hput.
        discriminate.
      + pose proof Hfind as Hfind'. rewrite <- Hname in Hfind'.
        destruct (find_dev_Some _ _ _ Hfind') as (d & Hd & _).
        rewrite (put_up_registered E req name ifp w p d Hreach Hup Hfind' Hd) in Hput.
        injection Hput as _ <-. exists p. cbn [ni_dhcp_active].
        rewrite (find_dev_insert name _ p d _ Hd); [exact Hfind|].
        destruct (_ && _); [apply Hreconf|].
        destruct (_ && _); [rewrite Hstart|]; apply Hreconf.
      + pose proof Hfind as Hfind'. rewrite <- Hname in Hfind'.
        destruct (put_up_unregistered E req name ifp w Hreach Hup Hfind')
          as (w1 & Hrun & _ & _ & d' & Hactive & Hd').
        rewrite Hrun in Hput. injection Hput as _ <-. rewrite Hactive.
        exists (length (ni_dhcp_active w)). apply find_dev_snoc; [exact Hfind|].
        destruct Hd' as [-> | ->]; rewrite ?Hstart, Hreconf, Hnew; exact Hname. }
  destruct Hfound as (p & Hp). destruct (find_dev_Some _ _ _ Hp) as (d & Hd & Hname).
  exists p, d. split; [exact Hp|]. split; [exact Hd|]. split; [exact Hname|].
  unfold dhcp_device_get, bind, ni_dhcp_device_find. rewrite Hp.
  unfold dhcp_device_response, bind. rewrite (dhcp_device_xml_runs E w' p d Hd).
  destruct (ext_xml_from_lease E (dhcp_device_xml_lease d)) as [doc|];
    eexists _, _, _; (split; [reflexivity|]); (split; [reflexivity|]);
    split; intros; congruence.
Qed.

Lemma sample_keeps_names codec store : keeps_names (Sample.surroundings codec store).
Proof. repeat split. Qed.

Lemma successful_put_registers_the_name_witness :
  exists w' w'' greq',
    dhcp_interface_put Traffic.E_up (Some "eth0") Sample.body_request (Sample.world_of []) =
      Done (0, Sample.body_request) w' /\
    dhcp_device_get Traffic.E_up (Some "eth0") Sample.no_request w' = Done (0, greq') w'' /\
    xml_out greq' = Some "<lease state=released/>".
Proof.
  destruct (successful_put_registers_the_name Traffic.E_up "eth0" Sample.body_request
              Sample.body_request Sample.no_request (Sample.world_of []) _
              (sample_keeps_names _ _) eq_refl)
    as (p & d & Hp & Hd & _ & rv & greq' & w'' & Hget & Hout & Hrv).
  vm_compute in Hp. injection Hp as <-. vm_compute in Hd. injection Hd as <-.
  eexists _, w'', greq'. split; [reflexivity|].
  assert (rv = 0) as -> by (apply Hrv; discriminate).
  split; [exact Hget|exact Hout].
Defined.

(** ** Requests served inside the wait *)

Section ServedInTheWait.

Context {xml_node_t : Type} (E : externals xml_node_t) (e : sys_env) (sock : ni_socket_t).

Lemma ni_socket_wait_inside (P : call -> Prop) (data_ready : incoming xml_node_t -> dhcpM unit)
    pending t w :
  (forall m, emits P (data_ready m)) ->
  Forall P (snd (ni_socket_wait E data_ready pending t w)).
Proof.
  intros Hdr. unfold ni_socket_wait. destruct (_ <? 0); [constructor|].
  destruct pending as [m|]; [|constructor].
  pose proof (as_callback_inside (data_ready m)
                (with_active (fun l => snd (ext_socket_wait E t l))
                   (with_call (c_socket_wait t) w))) as Hin.
  destruct (Hdr m (with_calls [] (with_active (fun l => snd (ext_socket_wait E t l))
                                    (with_call (c_socket_wait t) w))))
    as (extra & Hextra & Hcalls).
  rewrite Hcalls in Hin. cbn [calls with_calls app] in Hin.
  destruct (as_callback _ _) as [[[] w2|w2] inside]; cbn [snd] in *; rewrite Hin; exact Hextra.
Qed.

Lemma emits_handlers (m : incoming xml_node_t) :
  emits handler_call (ni_dhcp_process_request E m).
Proof. apply emits_process_request; intros; exact I. Qed.

Lemma served_run_step s :
  Forall handler_call (served s) -> Forall handler_call (served (run_step E e sock s)).
Proof.
  intros H. unfold run_step. destruct (pc s);
    first [ exact H
          | destruct (ni_dhcp_startup e (now s)); exact H
          | destruct (negb _); exact H
          | destruct (drain_changed E sock _ (now s)); exact H
          | destruct (ni_dhcp_shutdown E (now s)); exact H
          | idtac ].
  cbv zeta.
  pose proof (ni_socket_wait_inside handler_call (ni_dhcp_process_request E)
                (ext_socket_pending E (pass s)) (timeout s) (now s) emits_handlers) as Hin.
  destruct (ni_socket_wait _ _ _ _ _) as [[rc w'|w'] inside]; cbn [fst snd] in *;
    [destruct (rc <? 0)|]; cbn [served goto heard]; apply Forall_app; auto.
Qed.

Lemma served_run sched : forall s,
  Forall handler_call (served s) ->
  Forall handler_call (served (ni_dhcp_run E e sock sched s)).
Proof.
  induction sched as [|a sched IH]; intros s H; [exact H|].
  destruct a as [|sig].
  - change (ni_dhcp_run E e sock (a_run :: sched) s)
      with (ni_dhcp_run E e sock sched (run_step E e sock s)).
    apply IH, served_run_step, H.
  - change (ni_dhcp_run E e sock (a_signal sig :: sched) s)
      with (ni_dhcp_run E e sock sched (deliver sig s)).
    apply IH. unfold deliver. destruct (pc s); exact H.
Qed.

Lemma dead_stays_dead sched : forall s,
  pc s = crashed -> ni_dhcp_run E e sock sched s = s.
Proof.
  induction sched as [|a sched IH]; intros s Hpc; [reflexivity|].
  destruct a as [|sig].
  - change (ni_dhcp_run E e sock (a_run :: sched) s)
      with (ni_dhcp_run E e sock sched (run_step E e sock s)).
    assert (Hstep : run_step E e sock s = s) by (unfold run_step; rewrite Hpc; reflexivity).
    rewrite Hstep. apply IH, Hpc.
  - change (ni_dhcp_run E e sock (a_signal sig :: sched) s)
      with (ni_dhcp_run E e sock sched (deliver sig s)).
    assert (Hstep : deliver sig s = s) by (unfold deliver; rewrite Hpc; reflexivity).
    rewrite Hstep. apply IH, Hpc.
Qed.

End ServedInTheWait.

(** X17.  The process dies inside [ni_socket_wait] exactly when the poll has
    not failed and the request that waits on the control socket is a parsed
    [PUT interface/<name>] that describes the interface with
    administrative-up unset while no device of that name is registered.  The
    handler has then opened the configuration store, parsed the document and
    asked for a null device to be stopped; the loop's own code has made no
    call after the wait, and no later step or signal brings the process
    back: the shutdown sequence is never run. *)
Theorem put_down_in_the_wait_ends_the_process
    {xml_node_t : Type} (E : externals xml_node_t) (e : sys_env) (sock : ni_socket_t)
    (s : run_state) :
  pc s = at_wait ->
  let s' := run_step E e sock s in
  let polled := ext_socket_wait E (timeout s) (ni_dhcp_active (now s)) in
  (pc s' = crashed <->
   0 <= fst polled /\
   exists m, ext_socket_pending E (pass s) = Some m /\ fatal_request E m (snd polled)) /\
  (pc s' = crashed ->
   served s' = served s ++ [c_dummy_open; c_xml_to_all; c_device_stop None] /\
   calls (now s') = calls (now s) ++ [c_socket_wait (timeout s)] /\
   forall more, ni_dhcp_run E e sock more s' = s').
Proof.
  intros Hpc s' polled.
  destruct (run_step_moves E e sock s) as (_ & Hmove). rewrite Hpc in Hmove.
  fold s' in Hmove. fold polled in Hmove.
  assert (Hiff : pc s' = crashed <->
                 0 <= fst polled /\
                 exists m, ext_socket_pending E (pass s) = Some m /\
                           fatal_request E m (snd polled)).
  { rewrite Hmove. destruct (Z.ltb_spec (fst polled) 0) as [Hneg|Hpos].
    - split; [discriminate|]. intros (H & _). lia.
    - destruct (dies_in_wait E s) eqn:Hdies.
      + apply dies_in_wait_iff in Hdies. split; [|reflexivity]. intros _.
        split; [exact Hpos|exact Hdies].
      + split; [discriminate|]. intros (_ & Hm).
        apply (dies_in_wait_iff E s) in Hm. rewrite Hm in Hdies. discriminate Hdies. }
  split; [exact Hiff|]. intros Hdead.
  split; [|split].
  - pose proof Hdead as Hcr. apply Hiff in Hdead. destruct Hdead as (Hpos & m & Hm & _).
    unfold s', run_step in Hcr |- *. rewrite Hpc in Hcr |- *. cbv zeta in Hcr |- *.
    unfold ni_socket_wait in Hcr |- *. rewrite Hm in Hcr |- *. fold polled in Hcr |- *.
    assert (Hrc : (fst polled <? 0) = false) by (apply Z.ltb_ge; exact Hpos).
    rewrite Hrc in Hcr |- *. unfold as_callback in Hcr |- *.
    destruct (ni_dhcp_process_request E m _) as [[] w2|w2] eqn:Hrun;
      cbn [fst snd] in Hcr |- *; rewrite ?Hrc in Hcr |- *;
      cbn [pc goto heard served] in Hcr |- *; [discriminate Hcr|].
    destruct (process_request_crash_inv E m _ _ Hrun) as (_ & Hcalls).
    rewrite Hcalls. reflexivity.
  - unfold s', run_step. rewrite Hpc. cbv zeta.
    pose proof (ni_socket_wait_calls E (ni_dhcp_process_request E)
                  (ext_socket_pending E (pass s)) (timeout s) (now s)) as Hc.
    destruct (ni_socket_wait _ _ _ _ _) as [[rc w'|w'] inside]; cbn [fst snd after] in *;
      [destruct (rc <? 0)|]; cbn [now goto calls with_log]; exact Hc.
  - intros more. apply dead_stays_dead, Hdead.
Qed.

Lemma put_down_in_the_wait_ends_the_process_witness :
  let s := ni_dhcp_run Traffic.E_fatal Sample.no_entropy Sample.control [a_run; a_run] boot in
  let s' := run_step Traffic.E_fatal Sample.no_entropy Sample.control s in
  pc s' = crashed /\
  served s' = [c_dummy_open; c_xml_to_all; c_device_stop None] /\
  ni_dhcp_run Traffic.E_fatal Sample.no_entropy Sample.control
    [a_signal SIGTERM; a_run; a_run; a_run] s' = s'.
Proof.
  intros s s'.
  assert (Hpc : pc s = at_wait) by (vm_compute; reflexivity).
  destruct (put_down_in_the_wait_ends_the_process Traffic.E_fatal Sample.no_entropy
              Sample.control s Hpc) as (Hiff & Hthen).
  fold s' in Hiff, Hthen.
  assert (Hdead : pc s' = crashed).
  { apply Hiff. split; [vm_compute; discriminate|].
    exists (Traffic.message NI_REST_OP_PUT "interface" (Some "eth0")).
    split; [reflexivity|].
    split; [discriminate|]. split; [discriminate|]. split; [reflexivity|].
    split; [reflexivity|]. exists "eth0", Sample.eth0_down. split; [reflexivity|].
    split; [exists [], 0, [Sample.eth0_down]; repeat split; reflexivity || lia|].
    split; [reflexivity|]. vm_compute. reflexivity. }
  destruct (Hthen Hdead) as (Hserved & _ & Hstay).
  split; [exact Hdead|]. split; [|apply Hstay].
  rewrite Hserved. assert (Hs : served s = []) by (vm_compute; reflexivity).
  rewrite Hs. reflexivity.
Defined.

(** X18.  In every run, the calls made from inside [ni_socket_wait] are
    calls of the three handlers: none of them releases a lease, seeds the
    generator or leaves the process. *)
Theorem served_calls_are_handler_calls
    {xml_node_t : Type} (E : externals xml_node_t) (e : sys_env) (sock : ni_socket_t)
    (sched : list action) :
  let s := ni_dhcp_run E e sock sched boot in
  Forall handler_call (served s) /\
  count_if is_any_release (served s) = 0%nat /\
  count_if is_srandom (served s) = 0%nat /\
  ~ In (c_exit 0) (served s).
Proof.
  intros s.
  assert (H : Forall handler_call (served s)) by (apply served_run; constructor).
  split; [exact H|].
  induction H as [|c l Hc _ IH]; [repeat split; intros []|].
  destruct IH as (Hrel & Hseed & Hexit).
  destruct c; cbn in Hc; try contradiction; cbn [count_if is_any_release is_srandom];
    rewrite ?Hrel, ?Hseed; (split; [reflexivity|]); (split; [reflexivity|]);
    intros [Hin|Hin]; try discriminate Hin; exact (Hexit Hin).
Qed.
